(** * CAR-Navigation-Streamlit: a shallow embedding of [app.py]

    The development follows the source file: [format_duration], the three
    HTTP clients ([get_coords], [get_route], [get_fuel_stations_along_route]),
    the markers and lines of [create_map], [create_route_details_df], and the
    session controller [main] with the state it keeps in [st.session_state].
    The inline blocks of [main] are named after what they do and carry the
    line numbers of the source.

    Conventions.
    - Python [int] is [Z].  JSON numbers and Python [float] are idealised as
      rationals [Q]: on integer values the arithmetic used by the program
      (floor division, remainder, comparison) is exact, rounding of binary
      floating point is outside the model.
    - Python [str] is [string], read as ASCII text.
    - [None] / a missing dictionary key is [None] of an [option].
    - Calls to Streamlit's message widgets and to the three web services are
      recorded, in program order, in a log of [event]s.

    Limits of the model. Statements that say which exceptions a function can
    end with are made only where these limits do not matter.
    - A JSON body is read at the shape the program expects of it: a list of
      candidates, an object that may have 'routes', an object that may have
      'elements'. A body of another shape, on which [data.get] or [data[0]]
      would stop the program with [AttributeError] or [TypeError], is not
      represented. A route always has 'legs', a leg 'steps', a step
      'distance' and 'duration', as in the answers of the routing service.
    - The estimated time of arrival (line 325, [datetime] and [timedelta])
      and the formatting of numbers for display ([:.2f], [:,.0f]) are left
      out; the page record holds the numbers themselves.
    - [format_duration] is exact on whole numbers of seconds; on other
      numbers the rounding of [divmod] on floats is not represented.
    - [polyline.decode] and [folium.PolyLine] are library code: the decoder
      is an oracle of the [services] record that may fail with
      [IndexError]; [folium.PolyLine] raises [ValueError] on an empty list
      of points.
    - The options of [config.ini] are not represented: every option read
      with a fallback gives a value of the type the program converts it
      to. *)

From Stdlib Require Import ZArith QArith Qround Bool List Lia.
From Stdlib Require Import Ascii String DecimalString DecimalPos.
From Stdlib Require Import Permutation Sorted.
Import ListNotations.

Open Scope string_scope.
Open Scope Z_scope.

(* ================================================================= *)
(** ** Python primitives used by the program *)

Module Py.

(** [str(n)] for an [int]. *)
Definition str_int (z : Z) : string := NilEmpty.string_of_int (Z.to_int z).

(** [int(x)] for a number: truncation towards zero. *)
Definition int (x : Q) : Z := Z.quot (Qnum x) (Zpos (Qden x)).

(** [x > 0], [x < y] on numbers. *)
Definition ltb (x y : Q) : bool := Qnum x * Zpos (Qden y) <? Qnum y * Zpos (Qden x).

(** Truthiness of a number: [bool(x)] is [x != 0]. *)
Definition truthy (x : Q) : bool := negb (Qnum x =? 0).

(** [divmod(x, y)] for a positive divisor: the floored quotient and the
    remainder [x - y * floor(x / y)]. *)
Definition divmod (x y : Q) : Q * Q :=
  let q := inject_Z (Qfloor (x / y)) in (q, (x - q * y)%Q).

(** The characters [str.strip()] removes, within ASCII. *)
Definition isspace (c : ascii) : bool :=
  let n := nat_of_ascii c in
  ((9 <=? n) && (n <=? 13) || (28 <=? n) && (n <=? 32))%nat.

Fixpoint lstrip (s : string) : string :=
  match s with
  | EmptyString => EmptyString
  | String c s' => if isspace c then lstrip s' else s
  end.

Fixpoint rstrip (s : string) : string :=
  match s with
  | EmptyString => EmptyString
  | String c s' =>
      match rstrip s' with
      | EmptyString => if isspace c then EmptyString else String c EmptyString
      | r => String c r
      end
  end.

(** [s.strip()] *)
Definition strip (s : string) : string := rstrip (lstrip s).

(** [sep.join(parts)] *)
Fixpoint join (sep : string) (parts : list string) : string :=
  match parts with
  | [] => ""
  | [p] => p
  | p :: rest => p ++ sep ++ join sep rest
  end.

(** [s.replace(old, new)] for a one-character [old] and [new]. *)
Fixpoint replace_char (old new : ascii) (s : string) : string :=
  match s with
  | EmptyString => EmptyString
  | String c s' =>
      String (if Ascii.eqb c old then new else c) (replace_char old new s')
  end.

Definition is_upper (c : ascii) : bool :=
  let n := nat_of_ascii c in ((65 <=? n) && (n <=? 90))%nat.
Definition is_lower (c : ascii) : bool :=
  let n := nat_of_ascii c in ((97 <=? n) && (n <=? 122))%nat.
Definition to_upper (c : ascii) : ascii :=
  if is_lower c then ascii_of_nat (nat_of_ascii c - 32) else c.
Definition to_lower (c : ascii) : ascii :=
  if is_upper c then ascii_of_nat (nat_of_ascii c + 32) else c.

(** [s.title()]: a cased character is upper-cased when the previous character
    is not cased and lower-cased when it is. *)
Fixpoint title_from (prev_cased : bool) (s : string) : string :=
  match s with
  | EmptyString => EmptyString
  | String c s' =>
      if is_upper c || is_lower c
      then String (if prev_cased then to_lower c else to_upper c) (title_from true s')
      else String c (title_from false s')
  end.

Definition title (s : string) : string := title_from false s.

(** Truthiness of a string: non-empty. *)
Definition nonempty (s : string) : bool :=
  match s with EmptyString => false | _ => true end.

(** [l[::step]] for a positive [step]: the elements at positions
    [0, step, 2*step, ...]. [countdown] is the number of elements still to
    skip before the next one is taken. *)
Fixpoint every_from {A} (step countdown : nat) (l : list A) : list A :=
  match l with
  | [] => []
  | x :: l' =>
      match countdown with
      | O => x :: every_from step (step - 1) l'
      | S k => every_from step k l'
      end
  end.

(** [l[::step]]; [None] stands for the [ValueError] of a zero step. *)
Definition slice_step {A} (l : list A) (step : Z) : option (list A) :=
  if step =? 0 then None
  else if 0 <? step then Some (every_from (Z.to_nat step) 0 l)
  else Some (every_from (Z.to_nat (- step)) 0 (rev l)).

(** [len(l)] *)
Definition len {A} (l : list A) : Z := Z.of_nat (List.length l).

(** [l[i]], negative indices counting from the end; [None] stands for
    [IndexError]. *)
Definition index {A} (l : list A) (i : Z) : option A :=
  if (0 <=? i) && (i <? len l) then nth_error l (Z.to_nat i)
  else if (- len l <=? i) && (i <? 0) then nth_error l (Z.to_nat (len l + i))
  else None.

(** [l[1:-1]] *)
Definition middle {A} (l : list A) : list A := removelast (tl l).

(** [enumerate(l)] *)
Fixpoint enumerate_from {A} (i : Z) (l : list A) : list (Z * A) :=
  match l with
  | [] => []
  | x :: l' => (i, x) :: enumerate_from (i + 1) l'
  end.
Definition enumerate {A} (l : list A) : list (Z * A) := enumerate_from 0 l.

(** [a or b] on optional numbers: [a] when it is truthy, else [b]. *)
Definition or_ (a b : option Q) : option Q :=
  match a with
  | Some x => if truthy x then a else b
  | None => b
  end.

(** Truthiness of an optional number. *)
Definition truthy_opt (a : option Q) : bool :=
  match a with Some x => truthy x | None => false end.

(** [l.sort(key=key)]: the stable arrangement of [l] by [key], compared with
    [<] only. Each element is put in front of the first element of the
    already arranged tail whose key is not smaller than its own. *)
Section Sort.
Context {A K : Type}.
Variable lt : K -> K -> bool.
Variable key : A -> K.

Fixpoint insert (x : A) (l : list A) : list A :=
  match l with
  | [] => [x]
  | y :: l' => if lt (key y) (key x) then y :: insert x l' else x :: l
  end.

Fixpoint sort (l : list A) : list A :=
  match l with
  | [] => []
  | x :: l' => insert x (sort l')
  end.
End Sort.

(** [l.pop(i)] for [0 <= i < len(l)], as a new list. *)
Fixpoint pop {A} (l : list A) (i : nat) : list A :=
  match l, i with
  | [], _ => []
  | _ :: l', O => l'
  | x :: l', S k => x :: pop l' k
  end.

End Py.

(** [d.get(key, default)] on an entry that may be missing. *)
Definition or_default {A} (o : option A) (d : A) : A :=
  match o with Some a => a | None => d end.

(* ================================================================= *)
(** ** [format_duration] (app.py, lines 100-109) *)

Definition format_duration (seconds : option Q) : string :=
  match seconds with
  | None => "0s"
  | Some seconds =>
      if negb (Py.truthy seconds) then "0s" else
      let '(minutes, seconds) := Py.divmod seconds 60 in
      let '(hours, minutes) := Py.divmod minutes 60 in
      let duration_str := "" in
      let duration_str :=
        if Py.ltb 0 hours
        then duration_str ++ Py.str_int (Py.int hours) ++ "h " else duration_str in
      let duration_str :=
        if Py.ltb 0 minutes
        then duration_str ++ Py.str_int (Py.int minutes) ++ "m " else duration_str in
      let duration_str :=
        if Py.ltb 0 seconds || negb (Py.nonempty duration_str)
        then duration_str ++ Py.str_int (Py.int seconds) ++ "s" else duration_str in
      Py.strip duration_str
  end.

(** The wording of the specification, for a whole number of seconds: the
    hours, minutes and seconds components, each kept when it is not zero, the
    seconds also when nothing larger was kept, separated by one space. *)
Definition unit_parts (h m s : Z) : list string :=
  let hs := if 0 <? h then [Py.str_int h ++ "h"] else [] in
  let ms := if 0 <? m then [Py.str_int m ++ "m"] else [] in
  let ss := if (0 <? s) || (negb (0 <? h) && negb (0 <? m))
            then [Py.str_int s ++ "s"] else [] in
  (hs ++ ms ++ ss)%list.

Definition duration_parts (n : Z) : list string :=
  unit_parts (n / 3600) ((n / 60) mod 60) (n mod 60).

Definition duration_text (n : Z) : string :=
  if n =? 0 then "0s" else Py.join " " (duration_parts n).

(** [format_duration] on a whole number of seconds whose three components
    are already split, before the final [strip]. *)
Definition duration_str_of (h m s : Z) : string :=
  let d0 := "" in
  let d1 := if 0 <? h then d0 ++ Py.str_int h ++ "h " else d0 in
  let d2 := if 0 <? m then d1 ++ Py.str_int m ++ "m " else d1 in
  if (0 <? s) || negb (Py.nonempty d2) then d2 ++ Py.str_int s ++ "s" else d2.

(** A string that starts with a character [strip] keeps. *)
Definition starts_solid (s : string) : Prop :=
  exists c r, s = String c r /\ Py.isspace c = false.

Definition first_char (s : string) : option ascii :=
  match s with EmptyString => None | String c _ => Some c end.

Fixpoint last_char (s : string) : option ascii :=
  match s with
  | EmptyString => None
  | String c EmptyString => Some c
  | String _ s' => last_char s'
  end.

(* ================================================================= *)
(** ** Exceptions, the event log and the program monad *)

Inductive exn :=
| HTTPError (status_code : Z) (reason text : string)
    (* requests.exceptions.HTTPError, raised by [raise_for_status] *)
| RequestException (msg : string)
    (* any other requests exception: connection, timeout, invalid JSON *)
| KeyError (key : string)
| IndexError
| ValueError
| TypeError
| ZeroDivisionError
| AttributeError (attr : string)
| StreamlitAPIException
| Rerun.
    (* the control-flow exception behind [st.rerun()] *)

Definition is_RequestException (e : exn) : bool :=
  match e with HTTPError _ _ _ | RequestException _ => true | _ => false end.

Definition is_Key_or_IndexError (e : exn) : bool :=
  match e with KeyError _ | IndexError => true | _ => false end.

(** A point is a pair of numbers: [(lon, lat)] in coordinate lists,
    [(lat, lon)] in decoded polylines. *)
Definition point : Type := Q * Q.

Inductive request :=
| ReqNominatim (place_name : string)
| ReqOsrm (coords_list : list point) (alternatives : bool)
| ReqOverpass (radius_meters : Z) (points : list point).

Inductive widget :=
| st_error | st_warning | st_info | st_code
| st_sidebar_error | st_sidebar_warning.

(** The messages of the program, by the line that builds them. *)
Inductive message :=
| MsgNominatimError (e : exn)               (* line 35 *)
| MsgNoCoordinates (place_name : string)    (* line 37 *)
| MsgOsrmError (e : exn)                    (* line 52 *)
| MsgNoRouteCheckCoordinates                (* line 54 *)
| MsgEmptyGeometry                          (* line 62 *)
| MsgFoundStations (n : nat) (radius_meters : Z) (* line 84 *)
| MsgServerBusy                             (* line 89 *)
| MsgFuelHttpError (reason : string) (status_code : Z) (* line 91 *)
| MsgResponseText (text : string)           (* line 92 *)
| MsgFuelNetworkIssue (e : exn)             (* line 95 *)
| MsgEnterDestination                       (* line 241 *)
| MsgPlaceNotFound (place : string)         (* line 288 *)
| MsgNoRoutesFound                          (* line 306 *)
| MsgNeedStartAndEnd.                       (* line 308 *)

Inductive event :=
| Call (r : request)
| Display (w : widget) (m : message).

Definition is_routing_call (ev : event) : bool :=
  match ev with Call (ReqOsrm _ _) => true | _ => false end.

Inductive outcome (A : Type) :=
| Return (a : A)
| Raise (e : exn).
Arguments Return {A} a.
Arguments Raise {A} e.

Section Monad.
(** [S] is the mutable state the computation runs against
    ([st.session_state] for [main]; the clients never touch it). *)
Context {S : Type}.

Definition M (A : Type) : Type := S -> outcome A * S * list event.

Definition ret {A} (a : A) : M A := fun s => (Return a, s, []).

Definition bind {A B} (m : M A) (f : A -> M B) : M B :=
  fun s =>
    match m s with
    | (Return a, s1, log1) =>
        let '(r, s2, log2) := f a s1 in (r, s2, (log1 ++ log2)%list)
    | (Raise e, s1, log1) => (Raise e, s1, log1)
    end.

Definition raise {A} (e : exn) : M A := fun s => (Raise e, s, []).

Definition emit (ev : event) : M unit := fun s => (Return tt, s, [ev]).

Definition get : M S := fun s => (Return s, s, []).

Definition modify (f : S -> S) : M unit := fun s => (Return tt, f s, []).

(** [try: body except <catches> as e: handler e] *)
Definition try_except {A} (body : M A) (catches : exn -> bool)
    (handler : exn -> M A) : M A :=
  fun s =>
    match body s with
    | (Raise e, s1, log1) =>
        if catches e
        then let '(r, s2, log2) := handler e s1 in (r, s2, (log1 ++ log2)%list)
        else (Raise e, s1, log1)
    | r => r
    end.

(** [d[key]] on a dictionary whose entry may be missing. *)
Definition subscript {A} (key : string) (entry : option A) : M A :=
  match entry with Some a => ret a | None => raise (KeyError key) end.

(** [l[i]] *)
Definition item {A} (l : list A) (i : Z) : M A :=
  match Py.index l i with Some a => ret a | None => raise IndexError end.

(** [obj.attr] on an object whose attribute may not be set. *)
Definition attribute {A} (attr : string) (value : option A) : M A :=
  match value with Some a => ret a | None => raise (AttributeError attr) end.

(** [x / y] *)
Definition truediv (x y : Q) : M Q :=
  if Qnum y =? 0 then raise ZeroDivisionError else ret (x / y)%Q.
End Monad.
Arguments M : clear implicits.

(** The three components of a finished run. *)
Definition result_of {S A} (r : outcome A * S * list event) : outcome A :=
  fst (fst r).
Definition state_after {S A} (r : outcome A * S * list event) : S :=
  snd (fst r).
Definition log_of {S A} (r : outcome A * S * list event) : list event :=
  snd r.

Declare Scope monad_scope.
Delimit Scope monad_scope with monad.
Notation "x <- m ;; k" := (bind m (fun x => k))
  (at level 61, m at next level, right associativity) : monad_scope.
Notation "m ;;; k" := (bind m (fun _ => k))
  (at level 61, right associativity) : monad_scope.
Open Scope monad_scope.

(* ================================================================= *)
(** ** The web services *)

(** What [requests.get] / [requests.post] hands back. [json] is [None] when
    the body does not parse ([response.json()] then raises the requests
    [JSONDecodeError], a [RequestException]). *)
Record response (J : Type) := {
  status_code : Z;
  reason : string;
  text : string;
  json : option J
}.
Arguments status_code {J} r.
Arguments reason {J} r.
Arguments text {J} r.
Arguments json {J} r.

(** A field of a Nominatim candidate, read with [float(d[key])]: the key is
    missing; the value is text that is not a number; the value is a number
    or the text of one; the value is of a type [float] does not take (a JSON
    null, list or object). *)
Inductive decimal_field :=
| Absent
| Malformed
| Decimal (q : Q)
| NotText.

Record candidate := { cand_lat : decimal_field; cand_lon : decimal_field }.

Record maneuver := {
  m_type : option string;
  m_modifier : option string;
  m_instruction : option string
}.

(** Entries the program reads with [d[key]] and that the routing service
    always sends are record fields; entries read with [.get] are options. *)
Record step := {
  step_name : option string;
  step_maneuver : option maneuver;
  step_distance : Q;
  step_duration : Q
}.

Record leg := { steps : list step }.

Record route := {
  geometry : option string;
  distance : option Q;
  duration : option Q;
  legs : list leg
}.

Record center := { center_lat : option Q; center_lon : option Q }.
Record tags := { tag_name : option string }.

(** An element of the Overpass answer. *)
Record station := {
  st_lat : option Q;
  st_lon : option Q;
  st_center : option center;
  st_tags : option tags
}.

(** One run of the script sees the services as functions of the request;
    [inl msg] is a transport failure raised by [requests] itself.
    [decode] is [polyline.decode] of the polyline package: the points of an
    encoded path, or [None] for a string that is not a complete encoding, on
    which the decoder raises [IndexError]. *)
Record services := {
  nominatim : string -> string + response (list candidate);
  osrm : list point -> bool -> string + response (option (list route));
  overpass : Z -> list point -> string + response (option (list station));
  decode : string -> option (list point)
}.

Section Clients.
Context {S : Type}.
Variable svc : services.

Definition send {J} (r : request) (answer : string + response J)
    : M S (response J) :=
  emit (Call r) ;;;
  match answer with
  | inl msg => raise (RequestException msg)
  | inr resp => ret resp
  end.

Definition raise_for_status {J} (resp : response J) : M S unit :=
  if (400 <=? status_code resp) && (status_code resp <? 600)
  then raise (HTTPError (status_code resp) (reason resp) (text resp))
  else ret tt.

Definition json_of {J} (resp : response J) : M S J :=
  match json resp with
  | Some j => ret j
  | None => raise (RequestException "JSONDecodeError")
  end.

(** [float(d[key])] *)
Definition float_field (key : string) (f : decimal_field) : M S Q :=
  match f with
  | Absent => raise (KeyError key)
  | Malformed => raise ValueError
  | Decimal q => ret q
  | NotText => raise TypeError
  end.

(** [get_coords] (lines 23-38). The [try] body yields [Some v] when it
    executes [return v] and [None] when control falls out of it. *)
Definition get_coords (place_name : string) : M S (option Q * option Q) :=
  if negb (Py.nonempty place_name) then ret (None, None) else
  r <- try_except
         (response <- send (ReqNominatim place_name) (nominatim svc place_name) ;;
          raise_for_status response ;;;
          data <- json_of response ;;
          match data with
          | first :: _ =>
              lat <- float_field "lat" (cand_lat first) ;;
              lon <- float_field "lon" (cand_lon first) ;;
              ret (Some (Some lat, Some lon))
          | [] => ret None
          end)
         (fun e => is_RequestException e || is_Key_or_IndexError e)
         (fun e =>
            (if is_RequestException e
             then emit (Display st_error (MsgNominatimError e))
             else emit (Display st_error (MsgNoCoordinates place_name))) ;;;
            ret None) ;;
  match r with
  | Some v => ret v
  | None => ret (None, None)
  end.

(** [get_route] (lines 40-55). *)
Definition get_route (coords_list : list point) (alternatives : bool)
    : M S (option (list route)) :=
  r <- try_except
         (response <- send (ReqOsrm coords_list alternatives)
                           (osrm svc coords_list alternatives) ;;
          raise_for_status response ;;;
          data <- json_of response ;;
          match data with
          | Some (r :: rs) => ret (Some (r :: rs))
          | _ => ret None
          end)
         (fun e => is_RequestException e || is_Key_or_IndexError e)
         (fun e =>
            (if is_RequestException e
             then emit (Display st_error (MsgOsrmError e))
             else emit (Display st_error MsgNoRouteCheckCoordinates)) ;;;
            ret None) ;;
  ret r.

(** [polyline.decode(geometry)] (lines 60 and 131). *)
Definition polyline_decode (geometry : string) : M S (list point) :=
  match decode svc geometry with
  | Some points => ret points
  | None => raise IndexError
  end.
End Clients.

(* ================================================================= *)
(** ** [get_fuel_stations_along_route] (lines 57-97) *)

Definition MAX_QUERY_POINTS : Z := 50.

Section FuelStations.
Context {S : Type}.
Variable svc : services.

(** Lines 65-68: the points that go into the query. *)
Definition downsample_points (points : list point) : M S (list point) :=
  if MAX_QUERY_POINTS <? Py.len points then
    let step := Py.len points / MAX_QUERY_POINTS in
    match Py.slice_step points step with
    | Some sampled => ret sampled
    | None => raise ValueError
    end
  else ret points.

Definition get_fuel_stations_along_route (route_geometry : string)
    (radius_meters : Z) : M S (list station) :=
  try_except
    (points <- polyline_decode svc route_geometry ;;
     match points with
     | [] => emit (Display st_warning MsgEmptyGeometry) ;;; ret []
     | _ =>
         points <- downsample_points points ;;
         response <- send (ReqOverpass radius_meters points)
                          (overpass svc radius_meters points) ;;
         raise_for_status response ;;;
         data <- json_of response ;;
         let elements := match data with Some l => l | None => [] end in
         emit (Display st_info (MsgFoundStations (List.length elements) radius_meters)) ;;;
         ret elements
     end)
    is_RequestException
    (fun e =>
       match e with
       | HTTPError status_code reason text =>
           (if status_code =? 504
            then emit (Display st_warning MsgServerBusy)
            else emit (Display st_error (MsgFuelHttpError reason status_code)) ;;;
                 emit (Display st_code (MsgResponseText text))) ;;;
           ret []
       | _ =>
           emit (Display st_warning (MsgFuelNetworkIssue e)) ;;;
           ret []
       end).
End FuelStations.

(* ================================================================= *)
(** ** [create_map] (lines 111-152)

    The markers and lines put on the map, in the order in which the function
    makes them; the initial centre and zoom are left out, the corners of the
    final [fit_bounds] follow the function. *)

Record marker := {
  location : point;          (* [lat, lon] *)
  popup : string;
  color : string;
  icon : string
}.

Record line := {
  locations : list point;
  selected : bool;           (* emphasised style or the muted one *)
  line_popup : string
}.

Record folium_map := { markers : list marker; lines : list line }.

(** Line 142: [station.get('lat') or station.get('center', {}).get('lat')] *)
Definition resolved_lat (station : station) : option Q :=
  Py.or_ (st_lat station)
         (match st_center station with Some c => center_lat c | None => None end).

(** Line 143. *)
Definition resolved_lon (station : station) : option Q :=
  Py.or_ (st_lon station)
         (match st_center station with Some c => center_lon c | None => None end).

(** Line 145: [station.get('tags', {}).get('name', 'Fuel Station')] *)
Definition station_name (station : station) : string :=
  match st_tags station with
  | Some t => or_default (tag_name t) "Fuel Station"
  | None => "Fuel Station"
  end.

(** Lines 142-146: the marker of one fuel station, if it gets one. *)
Definition station_marker (station : station) : option marker :=
  let lat := resolved_lat station in
  let lon := resolved_lon station in
  if Py.truthy_opt lat && Py.truthy_opt lon then
    match lat, lon with
    | Some la, Some lo =>
        Some {| location := (la, lo); popup := station_name station;
                color := "orange"; icon := "gas-pump" |}
    | _, _ => None
    end
  else None.

(** Lines 140-146. *)
Fixpoint fuel_station_markers (fuel_stations : list station) : list marker :=
  match fuel_stations with
  | [] => []
  | station :: rest =>
      match station_marker station with
      | Some m => m :: fuel_station_markers rest
      | None => fuel_station_markers rest
      end
  end.

Section CreateMap.
Context {S : Type}.
Variable svc : services.

(** Lines 124-126. *)
Fixpoint waypoint_markers (place_names : list string)
    (waypoints : list (Z * point)) : M S (list marker) :=
  match waypoints with
  | [] => ret []
  | (i, (lon, lat)) :: rest =>
      popup_text <- item place_names (i + 1) ;;
      ms <- waypoint_markers place_names rest ;;
      ret ({| location := (lat, lon); popup := popup_text;
              color := "blue"; icon := "map-marker" |} :: ms)
  end.

(** Line 138: [folium.PolyLine(locations=..., ...)], which refuses an empty
    list of locations with [ValueError]. *)
Definition PolyLine (route_points : list point) (is_selected : bool)
    (popup_text : string) : M S line :=
  match route_points with
  | [] => raise ValueError
  | _ => ret {| locations := route_points; selected := is_selected;
                line_popup := popup_text |}
  end.

(** Lines 129-138. *)
Fixpoint route_lines (selected_index : Z) (routes : list (Z * route))
    : M S (list line) :=
  match routes with
  | [] => ret []
  | (i, route) :: rest =>
      match geometry route with
      | Some g =>
          route_points <- polyline_decode svc g ;;
          l <- PolyLine route_points (i =? selected_index)
                 ((if i =? selected_index then "Selected Route: " else "Alternative: ")
                  ++ format_duration (duration route)) ;;
          ls <- route_lines selected_index rest ;;
          ret (l :: ls)
      | None => route_lines selected_index rest
      end
  end.

Definition create_map (routes : list route) (coords_list : list point)
    (place_names : list string) (selected_index : Z)
    (fuel_stations : list station) : M S folium_map :=
  start_coords <- item coords_list 0 ;;
  end_coords <- item coords_list (-1) ;;
  start_name <- item place_names 0 ;;
  end_name <- item place_names (-1) ;;
  let start_marker :=
    {| location := (snd start_coords, fst start_coords); popup := start_name;
       color := "green"; icon := "car" |} in
  let end_marker :=
    {| location := (snd end_coords, fst end_coords); popup := end_name;
       color := "red"; icon := "flag-checkered" |} in
  waypoints <- waypoint_markers place_names
                 (Py.enumerate (Py.middle coords_list)) ;;
  route_lines <- route_lines selected_index (Py.enumerate routes) ;;
  ret {| markers := (start_marker :: end_marker :: waypoints
                     ++ fuel_station_markers fuel_stations)%list;
         lines := route_lines |}.
End CreateMap.

(** *** The view of the map (lines 128-132 and 148-150)

    [create_map] collects the points of the lines it draws and, when there
    are any, hands their bounding box to [m.fit_bounds]. *)

(** [min(...)] and [max(...)] over a first number and the rest: the running
    value is replaced by a later one only when that is smaller (larger). *)
Definition min_from (x : Q) (l : list Q) : Q :=
  fold_left (fun m y => if Py.ltb y m then y else m) l x.

Definition max_from (x : Q) (l : list Q) : Q :=
  fold_left (fun m y => if Py.ltb m y then y else m) l x.

(** Lines 128-132 of [create_map]: [all_points] once the loop over the
    routes has run through, the decoded points of the routes that have a
    geometry, in the order of the routes. *)
Definition all_points (svc : services) (routes : list route) : list point :=
  flat_map (fun route => match geometry route with
                         | Some g => or_default (decode svc g) []
                         | None => []
                         end) routes.

(** Lines 148-150 of [create_map]: the two corners handed to [m.fit_bounds],
    or [None] when [all_points] is empty and the view is left alone. *)
Definition fit_bounds (all_points : list point) : option (point * point) :=
  match all_points with
  | [] => None
  | p :: ps =>
      Some ((min_from (fst p) (map fst ps), min_from (snd p) (map snd ps)),
            (max_from (fst p) (map fst ps), max_from (snd p) (map snd ps)))
  end.

(** The point lies in the box with the corners [lo] and [hi]. *)
Definition in_box (lo hi p : point) : Prop :=
  (fst lo <= fst p)%Q /\ (fst p <= fst hi)%Q /\
  (snd lo <= snd p)%Q /\ (snd p <= snd hi)%Q.

(* ================================================================= *)
(** ** [create_route_details_df] (lines 154-188) *)

Record row := {
  Step : Z;
  Instruction : string;
  Distance_km : Q;     (* the quotient, before it is formatted with [:.2f] *)
  Time : string
}.

(** Lines 160-178: the instruction of one step of leg [leg_index] of a route
    with [n_legs] legs. *)
Definition final_instruction (leg_index n_legs : Z) (step : step) : string :=
  let maneuver := step_maneuver step in
  let maneuver_type :=
    Py.title (Py.replace_char "_" " "
      (or_default (match maneuver with Some m => m_type m | None => None end) "unknown")) in
  let modifier :=
    Py.title (Py.replace_char "_" " "
      (or_default (match maneuver with Some m => m_modifier m | None => None end) "")) in
  let road_name := or_default (step_name step) "" in
  if String.eqb maneuver_type "Depart" then
    if Py.nonempty road_name then "Depart on " ++ road_name else "Depart"
  else if String.eqb maneuver_type "New Name" then
    "Continue onto " ++ road_name
  else if String.eqb maneuver_type "Arrive" && (leg_index <? n_legs - 1) then
    "You have arrived at Waypoint " ++ Py.str_int (leg_index + 1) ++ "."
  else if String.eqb maneuver_type "Arrive" then
    or_default (match maneuver with Some m => m_instruction m | None => None end)
               "You have arrived at your final destination."
  else
    let instruction_parts := [maneuver_type; modifier] in
    let instruction_parts :=
      if Py.nonempty road_name
      then (instruction_parts ++ [("onto " ++ road_name)%string])%list
      else instruction_parts in
    Py.join " " (filter Py.nonempty instruction_parts).

(** The inner loop: the rows of one leg, and the counter after it. *)
Fixpoint leg_rows (leg_index n_legs : Z) (steps : list step) (total_steps : Z)
    : list row * Z :=
  match steps with
  | [] => ([], total_steps)
  | step :: rest =>
      let r := {| Step := total_steps;
                  Instruction := final_instruction leg_index n_legs step;
                  Distance_km := (step_distance step / 1000)%Q;
                  Time := format_duration (Some (step_duration step)) |} in
      let '(rs, total_steps) := leg_rows leg_index n_legs rest (total_steps + 1) in
      (r :: rs, total_steps)
  end.

(** The outer loop over [enumerate(route['legs'])]. *)
Fixpoint legs_rows (n_legs : Z) (legs : list (Z * leg)) (total_steps : Z)
    : list row :=
  match legs with
  | [] => []
  | (leg_index, leg) :: rest =>
      let '(rs, total_steps) := leg_rows leg_index n_legs (steps leg) total_steps in
      (rs ++ legs_rows n_legs rest total_steps)%list
  end.

Definition create_route_details_df (route : route) : list row :=
  legs_rows (Py.len (legs route)) (Py.enumerate (legs route)) 1.

(* ================================================================= *)
(** ** The session controller: [main] (lines 10-20 and 190-354)

    [st.session_state] holds the fields below; a key that is not set yet is
    [None]. The departure date and time (and the ETA computed from them) are
    left out. *)

Record session := {
  routes : list route;
  selected_route_index : Z;
  destinations : list string;
  show_add_destination_input : option bool;
  all_places : option (list string);
  all_coords : option (list point)
}.

(** Lines 11-20. *)
Definition initial_session : session :=
  {| routes := []; selected_route_index := 0; destinations := [];
     show_add_destination_input := None;
     all_places := None; all_coords := None |}.

Definition set_routes (v : list route) (s : session) : session :=
  {| routes := v; selected_route_index := selected_route_index s;
     destinations := destinations s;
     show_add_destination_input := show_add_destination_input s;
     all_places := all_places s; all_coords := all_coords s |}.

Definition set_selected_route_index (v : Z) (s : session) : session :=
  {| routes := routes s; selected_route_index := v;
     destinations := destinations s;
     show_add_destination_input := show_add_destination_input s;
     all_places := all_places s; all_coords := all_coords s |}.

Definition set_destinations (v : list string) (s : session) : session :=
  {| routes := routes s; selected_route_index := selected_route_index s;
     destinations := v;
     show_add_destination_input := show_add_destination_input s;
     all_places := all_places s; all_coords := all_coords s |}.

Definition set_show_add_destination_input (v : bool) (s : session) : session :=
  {| routes := routes s; selected_route_index := selected_route_index s;
     destinations := destinations s;
     show_add_destination_input := Some v;
     all_places := all_places s; all_coords := all_coords s |}.

Definition set_all_places (v : list string) (s : session) : session :=
  {| routes := routes s; selected_route_index := selected_route_index s;
     destinations := destinations s;
     show_add_destination_input := show_add_destination_input s;
     all_places := Some v; all_coords := all_coords s |}.

Definition set_all_coords (v : list point) (s : session) : session :=
  {| routes := routes s; selected_route_index := selected_route_index s;
     destinations := destinations s;
     show_add_destination_input := show_add_destination_input s;
     all_places := all_places s; all_coords := Some v |}.

Inductive input_method := PlaceName | Coordinates.

(** The buttons of the page; at most one is pressed in a run. *)
Inductive button :=
| BtnDelete (i : nat)       (* "del_i", line 215 *)
| BtnAddDestination         (* line 225 *)
| BtnAdd                    (* "confirm_add_dest", line 234 *)
| BtnCancel                 (* "cancel_add_dest", line 244 *)
| BtnGetRoute.              (* line 277 *)

(** The widget values of one run of the script. *)
Record inputs := {
  method : input_method;
  start_place : string;
  end_place : string;
  new_destination : string;
  start_lat : Q; start_lon : Q; end_lat : Q; end_lon : Q;
  show_alternatives : bool;
  show_fuel : bool;
  fuel_radius_slider : Z;
  fuel_efficiency : Q;
  fuel_price : Q;
  pressed : option button;
  route_choice : option nat   (* the option picked in "Choose a route:" *)
}.

Definition is_pressed (inp : inputs) (b : button) : bool :=
  match pressed inp, b with
  | Some (BtnDelete i), BtnDelete j => Nat.eqb i j
  | Some BtnAddDestination, BtnAddDestination => true
  | Some BtnAdd, BtnAdd => true
  | Some BtnCancel, BtnCancel => true
  | Some BtnGetRoute, BtnGetRoute => true
  | _, _ => false
  end.

(** The sort key of line 300: [r.get('duration', float('inf'))]. *)
Inductive sort_key :=
| Finite (q : Q)
| Infinity.

Definition key_lt (a b : sort_key) : bool :=
  match a, b with
  | Finite x, Finite y => Py.ltb x y
  | Finite _, Infinity => true
  | Infinity, _ => false
  end.

Definition duration_key (r : route) : sort_key :=
  match duration r with Some d => Finite d | None => Infinity end.

(** [st.radio(label, options=range(n), index=index)]: the option the user
    picked when it is one of the options, the option at [index] otherwise. *)
Definition radio (n : Z) (index : Z) (choice : option nat) : M session Z :=
  if (0 <=? index) && (index <? n) then
    match choice with
    | Some k => if Z.of_nat k <? n then ret (Z.of_nat k) else ret index
    | None => ret index
    end
  else raise StreamlitAPIException.

(** The page below the sidebar (lines 329-354). *)
Record page := {
  pg_duration : string;
  pg_distance_km : Q;
  pg_fuel_needed : Q;
  pg_estimated_cost : Q;
  pg_map : folium_map;
  pg_details : list row
}.

Section Main.
Variable svc : services.
Variable inp : inputs.

(** Lines 212-217. *)
Fixpoint delete_buttons (dests : list (Z * string)) : M session unit :=
  match dests with
  | [] => ret tt
  | (i, dest) :: rest =>
      (if is_pressed inp (BtnDelete (Z.to_nat i))
       then modify (fun s => set_destinations (Py.pop (destinations s) (Z.to_nat i)) s) ;;;
            raise Rerun
       else ret tt) ;;;
      delete_buttons rest
  end.

(** Lines 205-261. *)
Definition sidebar : M session unit :=
  match method inp with
  | PlaceName =>
      s <- get ;;
      delete_buttons (Py.enumerate (destinations s)) ;;;
      s <- get ;;
      (match show_add_destination_input s with
       | None => modify (set_show_add_destination_input false)
       | Some _ => ret tt
       end) ;;;
      s <- get ;;
      if negb (or_default (show_add_destination_input s) false) then
        if is_pressed inp BtnAddDestination
        then modify (set_show_add_destination_input true) ;;; raise Rerun
        else ret tt
      else
        (if is_pressed inp BtnAdd then
           if Py.nonempty (new_destination inp)
           then modify (fun s => set_destinations
                                   (destinations s ++ [new_destination inp])%list s) ;;;
                modify (set_show_add_destination_input false) ;;;
                raise Rerun
           else emit (Display st_sidebar_warning MsgEnterDestination)
         else ret tt) ;;;
        (if is_pressed inp BtnCancel
         then modify (set_show_add_destination_input false) ;;; raise Rerun
         else ret tt)
  | Coordinates =>
      modify (set_destinations [])
  end.

(** Lines 283-290: the geocoding loop; yields [valid_trip] and [all_coords]. *)
Fixpoint geocode_places (places : list string) (all_coords : list point)
    : M session (bool * list point) :=
  match places with
  | [] => ret (true, all_coords)
  | place :: rest =>
      r <- get_coords svc place ;;
      match r with
      | (Some lat, Some lon) =>
          geocode_places rest (all_coords ++ [(lon, lat)])%list
      | _ =>
          emit (Display st_sidebar_error (MsgPlaceNotFound place)) ;;;
          ret (false, all_coords)
      end
  end.

(** Lines 278-294: the coordinates of the trip, [[]] when a place was not
    found. *)
Definition collect_coords : M session (list point) :=
  match method inp with
  | PlaceName =>
      s <- get ;;
      let places_to_geocode :=
        ([start_place inp] ++ destinations s ++ [end_place inp])%list in
      modify (set_all_places places_to_geocode) ;;;
      r <- geocode_places places_to_geocode [] ;;
      let '(valid_trip, all_coords) := r in
      if negb valid_trip then ret [] else ret all_coords
  | Coordinates =>
      modify (set_all_places ["Start"; "End"]) ;;;
      ret [(start_lon inp, start_lat inp); (end_lon inp, end_lat inp)]
  end.

(** Lines 277-308: the body of [if st.sidebar.button("Get Route")]. *)
Definition on_get_route : M session unit :=
  all_coords <- collect_coords ;;
  if 2 <=? Py.len all_coords then
    routes <- get_route svc all_coords (show_alternatives inp) ;;
    match routes with
    | Some (r :: rs) =>
        let routes := Py.sort key_lt duration_key (r :: rs) in
        modify (set_routes routes) ;;;
        modify (set_selected_route_index 0) ;;;
        modify (set_all_coords all_coords)
    | _ =>
        modify (set_routes []) ;;;
        emit (Display st_error MsgNoRoutesFound)
    end
  else
    emit (Display st_sidebar_warning MsgNeedStartAndEnd).

(** Lines 266-268. *)
Definition fuel_search_radius_km : Z :=
  if show_fuel inp then fuel_radius_slider inp else 0.

(** Lines 322-327: distance in kilometres, fuel needed, estimated cost. *)
Definition trip_estimation (selected_route : route)
    : M session (Q * Q * Q) :=
  distance_km <- truediv (or_default (distance selected_route) 0%Q) 1000%Q ;;
  fuel_needed <-
    (if Py.ltb 0 (fuel_efficiency inp)
     then truediv distance_km (fuel_efficiency inp)
     else ret 0%Q) ;;
  let estimated_cost := (fuel_needed * fuel_price inp)%Q in
  ret (distance_km, fuel_needed, estimated_cost).

(** Lines 316-318: the route selector, shown when there is a choice. *)
Definition choose_route (routes : list route) : M session unit :=
  if 1 <? Py.len routes then
    s <- get ;;
    i <- radio (Py.len routes) (selected_route_index s) (route_choice inp) ;;
    modify (set_selected_route_index i)
  else ret tt.

(** Lines 320-354: summary, map and itinerary of the selected route. The
    estimated time of arrival (line 325) is not part of the page record. *)
Definition show_page (routes : list route) (all_coords : list point)
    (all_places : list string) : M session page :=
  s <- get ;;
  selected_route <- item routes (selected_route_index s) ;;
  let duration_seconds := or_default (duration selected_route) 0%Q in
  est <- trip_estimation selected_route ;;
  let '(distance_km, fuel_needed, estimated_cost) := est in
  fuel_stations_data <-
    (if show_fuel inp then
       g <- subscript "geometry" (geometry selected_route) ;;
       get_fuel_stations_along_route svc g (fuel_search_radius_km * 1000)
     else ret []) ;;
  folium_map <- create_map svc routes all_coords all_places
                  (selected_route_index s) fuel_stations_data ;;
  let df := create_route_details_df selected_route in
  ret {| pg_duration := format_duration (Some duration_seconds);
         pg_distance_km := distance_km;
         pg_fuel_needed := fuel_needed;
         pg_estimated_cost := estimated_cost;
         pg_map := folium_map;
         pg_details := df |}.

(** Lines 311-354. *)
Definition render : M session (option page) :=
  s <- get ;;
  match routes s with
  | [] => ret None
  | _ =>
      let routes := routes s in
      all_coords <- attribute "all_coords" (all_coords s) ;;
      all_places <- attribute "all_places" (all_places s) ;;
      choose_route routes ;;;
      p <- show_page routes all_coords all_places ;;
      ret (Some p)
  end.

Definition main : M session (option page) :=
  sidebar ;;;
  (if is_pressed inp BtnGetRoute then on_get_route else ret tt) ;;;
  render.
End Main.

(** The button of a run is released in the run that [st.rerun()] starts. *)
Definition released (inp : inputs) : inputs :=
  {| method := method inp; start_place := start_place inp;
     end_place := end_place inp; new_destination := new_destination inp;
     start_lat := start_lat inp; start_lon := start_lon inp;
     end_lat := end_lat inp; end_lon := end_lon inp;
     show_alternatives := show_alternatives inp; show_fuel := show_fuel inp;
     fuel_radius_slider := fuel_radius_slider inp;
     fuel_efficiency := fuel_efficiency inp; fuel_price := fuel_price inp;
     pressed := None; route_choice := route_choice inp |}.

(** One user interaction: the script runs, and runs once more from the top
    when it asked for a rerun. *)
Definition script_run (svc : services) (inp : inputs) : M session (option page) :=
  fun s =>
    match main svc inp s with
    | (Raise Rerun, s1, log1) =>
        let '(r, s2, log2) := main svc (released inp) s1 in
        (r, s2, (log1 ++ log2)%list)
    | r => r
    end.

(** The session states the application can be in. *)
Inductive reachable : session -> Prop :=
| reachable_initial : reachable initial_session
| reachable_run (svc : services) (inp : inputs) (s : session) :
    reachable s -> reachable (state_after (script_run svc inp s)).

(* ================================================================= *)
(** ** Notions used to state the properties *)

(** [x] does not come after [y] in ascending order of [key]. *)
Definition not_after {A K} (lt : K -> K -> bool) (key : A -> K) (x y : A) : Prop :=
  lt (key y) (key x) = false.

(** [x] has the key [k]: neither is smaller than the other. *)
Definition same_key {A K} (lt : K -> K -> bool) (key : A -> K) (k : K) (x : A)
    : bool :=
  negb (lt (key x) k) && negb (lt k (key x)).

(** The order of durations, a missing duration counting as infinite. *)
Definition key_le (a b : sort_key) : Prop :=
  match a, b with
  | Finite x, Finite y => (x <= y)%Q
  | _, Infinity => True
  | Infinity, Finite _ => False
  end.

Definition key_eqb (a b : sort_key) : bool :=
  match a, b with
  | Finite x, Finite y => Qeq_bool x y
  | Infinity, Infinity => true
  | _, _ => false
  end.

(** The order of the routes, read off the field [duration]: [a] takes no
    longer than [b]; a route without duration counts as taking infinitely
    long. *)
Definition no_longer (a b : route) : Prop :=
  match duration a, duration b with
  | Some x, Some y => (x <= y)%Q
  | _, None => True
  | None, Some _ => False
  end.

(** The route has the duration [d]; [None]: it has none. *)
Definition has_duration (d : option Q) (r : route) : bool :=
  match d, duration r with
  | Some x, Some y => Qeq_bool y x
  | None, None => true
  | _, _ => false
  end.

(** Durations never decrease along the list. *)
Definition ascending : list route -> Prop := StronglySorted no_longer.

(** The routes whose sort key is [k]. *)
Definition with_duration (k : sort_key) (r : route) : bool :=
  key_eqb (duration_key r) k.

(** A run [m] relates the state before and after by [I] and logs only events
    that satisfy [P]. *)
Definition obeys {S A} (I : S -> S -> Prop) (P : event -> Prop) (m : M S A) : Prop :=
  forall s, I s (state_after (m s)) /\ Forall P (log_of (m s)).

(** The selected index is valid whenever there is a route to select. *)
Definition index_valid (s : session) : Prop :=
  routes s <> [] -> 0 <= selected_route_index s < Py.len (routes s).

Definition keeps_index_valid (s s' : session) : Prop :=
  index_valid s -> index_valid s'.

Definition any_event (ev : event) : Prop := True.

(** The route part of the session is the same in [s] and [s']. *)
Definition same_route_state (s s' : session) : Prop :=
  routes s' = routes s /\
  selected_route_index s' = selected_route_index s /\
  all_coords s' = all_coords s.

Definition not_routing_call (ev : event) : Prop := is_routing_call ev = false.

(** The stored routes are the same in [s] and [s']. *)
Definition same_routes (s s' : session) : Prop := routes s' = routes s.

(** Also the waypoints are the same. *)
Definition same_destinations (s s' : session) : Prop :=
  destinations s' = destinations s /\ same_route_state s s'.

(** A maneuver type or modifier as the itinerary shows it. *)
Definition shown (raw : option string) (default : string) : string :=
  Py.title (Py.replace_char "_" " " (or_default raw default)).

Definition maneuver_type_of (st : step) : string :=
  shown (match step_maneuver st with Some m => m_type m | None => None end) "unknown".

Definition modifier_of (st : step) : string :=
  shown (match step_maneuver st with Some m => m_modifier m | None => None end) "".

Definition instruction_of (st : step) : option string :=
  match step_maneuver st with Some m => m_instruction m | None => None end.

Definition road_name_of (st : step) : string := or_default (step_name st) "".

(** The steps of the legs, each with the index of its leg, in itinerary
    order. *)
Definition steps_of_legs (ls : list (Z * leg)) : list (Z * step) :=
  flat_map (fun '(i, l) => map (fun st => (i, st)) (steps l)) ls.

(** [start, start + 1, ...], [n] numbers. *)
Fixpoint count_from (start : Z) (n : nat) : list Z :=
  match n with
  | O => []
  | Datatypes.S k => start :: count_from (start + 1) k
  end.

(** *** The position and the label of a station, read off its fields *)

(** A coordinate of an element: its own, or that of its centre when it has
    none of its own; a zero of its own counts as none. *)
Definition own_or_centre (own centre : option Q) : option Q :=
  match own with
  | Some x => if Qeq_bool x 0 then centre else Some x
  | None => centre
  end.

Definition centre_lat (st : station) : option Q :=
  match st_center st with Some c => center_lat c | None => None end.

Definition centre_lon (st : station) : option Q :=
  match st_center st with Some c => center_lon c | None => None end.

(** Where the station is drawn, if it is drawn: both coordinates are found
    and neither is zero. *)
Definition position_of (st : station) : option point :=
  match own_or_centre (st_lat st) (centre_lat st),
        own_or_centre (st_lon st) (centre_lon st) with
  | Some la, Some lo => if Qeq_bool la 0 || Qeq_bool lo 0 then None else Some (la, lo)
  | _, _ => None
  end.

Definition label_of (st : station) : string :=
  match st_tags st with
  | Some {| tag_name := Some name |} => name
  | _ => "Fuel Station"
  end.

Definition station_marker_at (p : point) (label : string) : marker :=
  {| location := p; popup := label; color := "orange"; icon := "gas-pump" |}.

Definition positioned (st : station) : bool :=
  match position_of st with Some _ => true | None => false end.

(** *** The rows of the itinerary, counted from the legs *)

(** The number of steps of the legs before leg [k]. *)
Definition steps_before (ls : list leg) (k : nat) : nat :=
  List.length (List.concat (map steps (firstn k ls))).

(** The number of steps of the route. *)
Definition total_steps (r : route) : nat :=
  List.length (List.concat (map steps (legs r))).

(** *** Notions for the further properties *)

(** A request to one of the services. *)
Definition is_call (ev : event) : bool :=
  match ev with Call _ => true | Display _ _ => false end.

(** The response passes [raise_for_status]. *)
Definition status_ok {J} (resp : response J) : Prop :=
  ~ (400 <= status_code resp < 600).

(** The run [m] raises only exceptions in [E], from any state. *)
Definition throws {S A} (E : exn -> Prop) (m : M S A) : Prop :=
  forall s, match result_of (m s) with Raise e => E e | Return _ => True end.

Definition no_exception (e : exn) : Prop := False.

(** What the page is drawn from: the stored routes, the selected index and
    the coordinates and names of the trip. *)
Definition trip_of (s : session)
    : list route * Z * option (list point) * option (list string) :=
  (routes s, selected_route_index s, all_coords s, all_places s).

Definition same_trip (s s' : session) : Prop := trip_of s' = trip_of s.

(** Only the selected index may differ between [s] and [s']. *)
Definition same_but_index (s s' : session) : Prop :=
  routes s' = routes s /\ all_coords s' = all_coords s /\
  all_places s' = all_places s /\ destinations s' = destinations s /\
  show_add_destination_input s' = show_add_destination_input s.

(** The stored trip is consistent: the routes are in ascending order of
    duration; coordinates and names, once stored, have a start and an end;
    and with a route to show, the selected index is valid and coordinates and
    names are stored. *)
Definition trip_consistent (s : session) : Prop :=
  ascending (routes s) /\
  (forall c, all_coords s = Some c -> 2 <= Py.len c) /\
  (forall p, all_places s = Some p -> 2 <= Py.len p) /\
  (routes s <> [] ->
   0 <= selected_route_index s < Py.len (routes s) /\
   all_coords s <> None /\ all_places s <> None).

Definition keeps_trip_consistent (s s' : session) : Prop :=
  trip_consistent s -> trip_consistent s'.

(** Names, once stored, stay stored. *)
Definition keeps_places (s s' : session) : Prop :=
  all_places s <> None -> all_places s' <> None.

(** The exceptions of the page below the sidebar that are modelled here. *)
Definition page_error (e : exn) : Prop :=
  e = IndexError \/ e = ValueError \/ e = KeyError "geometry".

Definition only_IndexError (e : exn) : Prop := e = IndexError.

(** There is a name for the start, for the end and for every waypoint in
    between: what [create_map] needs of its two lists. *)
Definition names_cover (coords_list : list point) (place_names : list string) : Prop :=
  coords_list <> [] /\ place_names <> [] /\
  Py.len coords_list <= Py.len place_names + 1.

(** The line [create_map] draws for a route that has a geometry. *)
Definition line_of (svc : services) (selected_index i : Z) (r : route) (g : string)
    : line :=
  {| locations := or_default (decode svc g) [];
     selected := (i =? selected_index);
     line_popup :=
       (if i =? selected_index then "Selected Route: " else "Alternative: ")
       ++ format_duration (duration r) |}.

Definition has_geometry (r : route) : bool :=
  match geometry r with Some _ => true | None => false end.

(** The lines of the routes that have a geometry, in the order of the
    routes: what the loop of lines 129-138 draws when it runs through. *)
Fixpoint drawn_lines (svc : services) (selected_index : Z)
    (routes : list (Z * route)) : list line :=
  match routes with
  | [] => []
  | (i, r) :: rest =>
      match geometry r with
      | Some g => line_of svc selected_index i r g :: drawn_lines svc selected_index rest
      | None => drawn_lines svc selected_index rest
      end
  end.

(** A line can be drawn for the route: it has no geometry and gets none, or
    its geometry decodes, to at least one point. *)
Definition drawable (svc : services) (r : route) : Prop :=
  match geometry r with
  | Some g => exists points, decode svc g = Some points /\ points <> []
  | None => True
  end.

(** The exceptions of the loop of lines 129-138: of the decoder and of
    [folium.PolyLine]. *)
Definition line_error (e : exn) : Prop := e = IndexError \/ e = ValueError.

(** Routes, coordinates and names are stored as before. *)
Definition same_stored (s s' : session) : Prop :=
  routes s' = routes s /\ all_coords s' = all_coords s /\
  all_places s' = all_places s.

(** The event is not a request to the geocoder or to the routing service. *)
Definition no_trip_request (ev : event) : Prop :=
  match ev with
  | Call (ReqNominatim _) | Call (ReqOsrm _ _) => False
  | _ => True
  end.

Definition is_overpass_call (ev : event) : bool :=
  match ev with Call (ReqOverpass _ _) => true | _ => false end.

Definition not_overpass_call (ev : event) : Prop := is_overpass_call ev = false.

Definition is_trip_request (ev : event) : bool :=
  match ev with
  | Call (ReqNominatim _) | Call (ReqOsrm _ _) => true
  | _ => false
  end.
Definition any_change (s s' : session) : Prop := True.

Definition not_Rerun (e : exn) : Prop := e <> Rerun.

(** The geocoder finds [place] at the point [c], a pair (lon, lat). *)
Definition found_at (svc : services) (place : string) (c : point) : Prop :=
  result_of (get_coords svc place tt) = Return (Some (snd c), Some (fst c)).

Definition geocoding_call (place : string) : event := Call (ReqNominatim place).

(** The answer of the routing client for [coords], whatever the state. *)
Definition routing_answer (svc : services) (coords : list point) (alt : bool)
    : outcome (option (list route)) :=
  result_of (get_route svc coords alt tt).

(** The stride of the sample: 1 up to the cap, [len // 50] past it. *)
Definition stride_of (n : Z) : Z :=
  if MAX_QUERY_POINTS <? n then n / MAX_QUERY_POINTS else 1.

(* ================================================================= *)
(** ** Sample data for the examples *)

Definition ok {J} (j : J) : response J :=
  {| status_code := 200; reason := "OK"; text := ""; json := Some j |}.

Definition sample_route (name : string) (seconds : Q) : route :=
  {| geometry := Some name; distance := Some 12000%Q;
     duration := Some seconds; legs := [] |}.

Definition sample_routes : list route :=
  [sample_route "a" 300; sample_route "b" 100;
   sample_route "c" 100; sample_route "d" 50].

(** The encoded path of the documentation of the polyline format, and its
    three points (lat, lon). *)
Definition sample_geometry : string := "_p~iF~ps|U_ulLnnqC_mqNvxq`@".

Definition sample_decoded : list point :=
  [(385 # 10, -1202 # 10); (407 # 10, -12095 # 100); (43252 # 1000, -126453 # 1000)]%Q.

Definition sample_path (n : nat) : list point :=
  map (fun i => (inject_Z (Z.of_nat i), 0%Q)) (seq 0 n).

(** The services of the examples. The decoder rejects "abc", which breaks
    off in the middle of a number, finds no point in the empty string, and
    decodes [sample_geometry]; any other name stands for a path of 120
    points. *)
Definition sample_services : services :=
  {| nominatim := fun place =>
       if String.eqb place "Atlantis" then inr (ok [])
       else inr (ok [{| cand_lat := Decimal 35; cand_lon := Decimal 139 |}]);
     osrm := fun _ _ => inr (ok (Some sample_routes));
     overpass := fun _ _ =>
       inr {| status_code := 504; reason := "Gateway Timeout";
              text := ""; json := None |};
     decode := fun g =>
       if String.eqb g "abc" then None
       else if String.eqb g "" then Some []
       else if String.eqb g sample_geometry then Some sample_decoded
       else Some (sample_path 120) |}.

Definition offline_services : services :=
  {| nominatim := nominatim sample_services;
     osrm := fun _ _ => inl "connection refused";
     overpass := overpass sample_services;
     decode := decode sample_services |}.

Definition sample_inputs (m : input_method) : inputs :=
  {| method := m;
     start_place := "Tokyo Station"; end_place := "Shibuya Crossing";
     new_destination := "";
     start_lat := 35; start_lon := 139; end_lat := 36; end_lon := 140;
     show_alternatives := true; show_fuel := false; fuel_radius_slider := 5;
     fuel_efficiency := 15; fuel_price := 175;
     pressed := Some BtnGetRoute; route_choice := Some 1%nat |}.

(** The same form on a first visit: no option picked in the route selector. *)
Definition sample_first_visit : inputs :=
  {| method := Coordinates;
     start_place := "Tokyo Station"; end_place := "Shibuya Crossing";
     new_destination := "";
     start_lat := 35; start_lon := 139; end_lat := 36; end_lon := 140;
     show_alternatives := true; show_fuel := false; fuel_radius_slider := 5;
     fuel_efficiency := 15; fuel_price := 175;
     pressed := Some BtnGetRoute; route_choice := None |}.

Definition sample_session : session := set_destinations ["Atlantis"] initial_session.

Definition sample_step (type : string) : step :=
  {| step_name := Some "Main St";
     step_maneuver := Some {| m_type := Some type; m_modifier := Some "left";
                              m_instruction := None |};
     step_distance := 120; step_duration := 65 |}.

(** A route of two legs, of three and two steps. *)
Definition two_leg_route : route :=
  {| geometry := Some "ab"; distance := Some 600%Q; duration := Some 325%Q;
     legs := [ {| steps := [sample_step "depart"; sample_step "turn";
                            sample_step "arrive"] |};
               {| steps := [sample_step "new_name"; sample_step "arrive"] |} ] |}.

(** The sample form with another button pressed and another name typed into
    the add-destination input. *)
Definition sample_press (b : button) (new_dest : string) : inputs :=
  {| method := PlaceName;
     start_place := "Tokyo Station"; end_place := "Shibuya Crossing";
     new_destination := new_dest;
     start_lat := 35; start_lon := 139; end_lat := 36; end_lon := 140;
     show_alternatives := true; show_fuel := false; fuel_radius_slider := 5;
     fuel_efficiency := 15; fuel_price := 175;
     pressed := Some b; route_choice := None |}.

(** The sample form with the start the geocoder does not know. *)
Definition sample_unknown_start : inputs :=
  {| method := PlaceName;
     start_place := "Atlantis"; end_place := "Shibuya Crossing";
     new_destination := "";
     start_lat := 35; start_lon := 139; end_lat := 36; end_lon := 140;
     show_alternatives := true; show_fuel := false; fuel_radius_slider := 5;
     fuel_efficiency := 15; fuel_price := 175;
     pressed := Some BtnGetRoute; route_choice := None |}.

(** The sample form with the station search switched on. *)
Definition sample_fuel_inputs : inputs :=
  {| method := Coordinates;
     start_place := "Tokyo Station"; end_place := "Shibuya Crossing";
     new_destination := "";
     start_lat := 35; start_lon := 139; end_lat := 36; end_lon := 140;
     show_alternatives := true; show_fuel := true; fuel_radius_slider := 5;
     fuel_efficiency := 15; fuel_price := 175;
     pressed := None; route_choice := None |}.

Definition sample_run (inp : inputs) (s : session) : session :=
  state_after (script_run sample_services inp s).

(** After one submission of the sample form. *)
Definition sample_trip : session :=
  sample_run (sample_inputs PlaceName) initial_session.

(** A trip through two waypoints, both deleted after the routes were stored. *)
Definition sample_stale_trip : session :=
  sample_run (sample_press (BtnDelete 0) "")
    (sample_run (sample_press (BtnDelete 0) "")
       (sample_run (sample_inputs PlaceName)
          (sample_run (sample_press BtnAdd "Osaka")
             (sample_run (sample_press BtnAddDestination "")
                (sample_run (sample_press BtnAdd "Kyoto")
                   (sample_run (sample_press BtnAddDestination "")
                      initial_session)))))).

(** A route whose answer came without a geometry. *)
Definition bare_route : route :=
  {| geometry := None; distance := Some 12000%Q; duration := Some 300%Q; legs := [] |}.

(** The map of two routes between two places. *)
Definition sample_map : folium_map :=
  match result_of (create_map sample_services
                     [sample_route sample_geometry 100; bare_route]
                     [(139, 35); (140, 36)]%Q ["Start"; "End"] 0 [] tt) with
  | Return m => m
  | Raise _ => {| markers := []; lines := [] |}
  end.

(* ================================================================= *)
(** * Properties *)

(** ** Examples *)

Example format_duration_float : format_duration (Some (36004 # 10)%Q) = "1h 0s".
Proof. reflexivity. Qed.
Example format_duration_neg : format_duration (Some (-5)%Q) = "59m 55s".
Proof. reflexivity. Qed.
Example title_new_name : Py.title (Py.replace_char "_" " " "new_name") = "New Name".
Proof. reflexivity. Qed.

(** *** Strings *)

Lemma app_assoc_string (a b c : string) : (a ++ b) ++ c = a ++ (b ++ c).
Proof. induction a as [|x a IH]; simpl; [reflexivity | now rewrite IH]. Qed.

Lemma app_nonempty_r (a b : string) : b <> "" -> a ++ b <> "".
Proof. destruct a; simpl; [trivial | discriminate]. Qed.

Lemma rstrip_app (a b : string) :
  Py.rstrip b <> "" -> Py.rstrip (a ++ b) = a ++ Py.rstrip b.
Proof.
  intros Hb. induction a as [|x a IH]; simpl; [reflexivity|].
  rewrite IH. destruct (a ++ Py.rstrip b) eqn:E; [|reflexivity].
  exfalso. revert E. now apply app_nonempty_r.
Qed.

Lemma last_char_app (a b : string) :
  b <> "" -> last_char (a ++ b) = last_char b.
Proof.
  intros Hb. induction a as [|x a IH]; simpl; [reflexivity|].
  destruct (a ++ b) eqn:E; [|exact IH].
  exfalso. revert E. now apply app_nonempty_r.
Qed.

Lemma string_of_uint_solid (d : Decimal.uint) :
  d <> Decimal.Nil -> starts_solid (NilEmpty.string_of_uint d).
Proof.
  destruct d; intros H; try (now elim H); simpl;
    eexists _, _; (split; [reflexivity | reflexivity]).
Qed.

Lemma str_int_solid (z : Z) : 0 <= z -> starts_solid (Py.str_int z).
Proof.
  intros Hz. unfold Py.str_int. destruct z as [|p|p]; simpl.
  - eexists _, _; split; reflexivity.
  - apply string_of_uint_solid, Unsigned.to_uint_nonnil.
  - lia.
Qed.

(** *** Whole numbers in the number model *)

Lemma int_inject_Z (z : Z) : Py.int (inject_Z z) = z.
Proof. unfold Py.int; simpl. apply Z.quot_1_r. Qed.

Lemma ltb_0_inject_Z (z : Z) : Py.ltb 0 (inject_Z z) = (0 <? z).
Proof. unfold Py.ltb; simpl. now rewrite Z.mul_1_r. Qed.

Lemma truthy_inject_Z (z : Z) : Py.truthy (inject_Z z) = negb (z =? 0).
Proof. reflexivity. Qed.

Lemma divmod_60_inject_Z (n : Z) :
  exists r : Q,
    Py.divmod (inject_Z n) 60 = (inject_Z (n / 60), r) /\
    Py.int r = n mod 60 /\ Py.ltb 0 r = (0 <? n mod 60).
Proof.
  unfold Py.divmod. change 60%Q with (inject_Z 60).
  rewrite <- Zdiv_Qdiv. eexists; split; [reflexivity|].
  assert (E : n mod 60 = n * 1 + - (n / 60 * 60) * 1)
    by (rewrite Z.mod_eq by lia; lia).
  unfold Py.int, Py.ltb; simpl. rewrite Z.quot_1_r.
  split; [lia | f_equal; lia].
Qed.

Lemma format_duration_whole (n : Z) :
  n <> 0 ->
  format_duration (Some (inject_Z n)) =
  Py.strip (duration_str_of (n / 3600) ((n / 60) mod 60) (n mod 60)).
Proof.
  intros Hn. unfold format_duration.
  rewrite truthy_inject_Z.
  destruct (n =? 0) eqn:E; [apply Z.eqb_eq in E; contradiction|]. 
  cbn [negb].
  destruct (divmod_60_inject_Z n) as (s & -> & Hs1 & Hs2).
  destruct (divmod_60_inject_Z (n / 60)) as (m & -> & Hm1 & Hm2).
  rewrite Hs1, Hs2, Hm1, Hm2, ltb_0_inject_Z, int_inject_Z.
  rewrite Z.div_div by lia. reflexivity.
Qed.

Lemma rstrip_cons (c : ascii) (b : string) :
  Py.rstrip b <> "" -> Py.rstrip (String c b) = String c (Py.rstrip b).
Proof. intros Hb. simpl. destruct (Py.rstrip b); [now elim Hb | reflexivity]. Qed.

Lemma rstrip_cons_nonempty (c : ascii) (b : string) :
  Py.rstrip b <> "" -> Py.rstrip (String c b) <> "".
Proof. intros Hb. rewrite rstrip_cons by exact Hb. discriminate. Qed.

Lemma rstrip_app_nonempty (a b : string) :
  Py.rstrip b <> "" -> Py.rstrip (a ++ b) <> "".
Proof. intros Hb. rewrite rstrip_app by exact Hb. now apply app_nonempty_r. Qed.

Lemma last_char_cons (c : ascii) (b : string) :
  b <> "" -> last_char (String c b) = last_char b.
Proof. destruct b; [intros H; now elim H | reflexivity]. Qed.

Lemma solid_not_space (c : ascii) : Py.isspace c = false -> Some c <> Some " "%char.
Proof. intros Hc [= ->]. discriminate Hc. Qed.

Ltac rstrip_nonempty :=
  repeat first [ solve [cbn; discriminate]
               | apply rstrip_app_nonempty
               | apply rstrip_cons_nonempty ].

Ltac string_nonempty :=
  first [ discriminate | apply app_nonempty_r; discriminate ].

Lemma strip_duration_str_of (h m s : Z) :
  0 <= h -> 0 <= m -> 0 <= s ->
  Py.strip (duration_str_of h m s) = Py.join " " (unit_parts h m s) /\
  first_char (Py.join " " (unit_parts h m s)) <> Some " "%char /\
  last_char (Py.join " " (unit_parts h m s)) <> Some " "%char.
Proof.
  intros Hh Hm Hs.
  destruct (str_int_solid h Hh) as (ch & rh & Eh & Nh).
  destruct (str_int_solid m Hm) as (cm & rm & Em & Nm).
  destruct (str_int_solid s Hs) as (cs & rs & Es & Ns).
  unfold duration_str_of, Py.strip, unit_parts. rewrite Eh, Em, Es.
  destruct (0 <? h), (0 <? m), (0 <? s);
    cbn [orb andb negb List.app Py.join String.append Py.nonempty];
    repeat first [ rewrite app_assoc_string | progress cbn [String.append] ];
    cbn [Py.lstrip first_char]; rewrite ?Nh, ?Nm, ?Ns.
  all: repeat split; try (apply solid_not_space; assumption).
  all: try (repeat first [ rewrite rstrip_cons by rstrip_nonempty
                         | rewrite rstrip_app by rstrip_nonempty ];
            reflexivity).
  all: repeat first [ rewrite last_char_cons by string_nonempty
                    | rewrite last_char_app by string_nonempty ];
       cbn; discriminate.
Qed.

(** C2. [format_duration] of an absent value is "0s"; of a whole number
    [n >= 0] of seconds it is the text of the specification: "0s" for zero,
    else the hours, minutes and seconds components that are not zero (the
    seconds also when no larger one is there) separated by single spaces.
    The result neither starts nor ends with a space. The five examples of
    the specification are part of the statement. *)
Theorem format_duration_spec :
  format_duration None = "0s" /\
  (forall n, 0 <= n ->
     format_duration (Some (inject_Z n)) = duration_text n /\
     first_char (format_duration (Some (inject_Z n))) <> Some " "%char /\
     last_char (format_duration (Some (inject_Z n))) <> Some " "%char) /\
  format_duration (Some 3725%Q) = "1h 2m 5s" /\
  format_duration (Some 65%Q) = "1m 5s" /\
  format_duration (Some 45%Q) = "45s" /\
  format_duration (Some 3600%Q) = "1h" /\
  format_duration (Some 0%Q) = "0s".
Proof.
  split; [reflexivity|]. split; [|repeat split].
  intros n Hn. destruct (Z.eq_dec n 0) as [->|Hn0].
  - repeat split; discriminate.
  - rewrite format_duration_whole by exact Hn0.
    unfold duration_text, duration_parts.
    destruct (n =? 0) eqn:E; [apply Z.eqb_eq in E; contradiction|].
    destruct (strip_duration_str_of (n / 3600) ((n / 60) mod 60) (n mod 60))
      as (E1 & E2 & E3).
    + apply Z.div_pos; lia.
    + apply Z.mod_pos_bound; lia.
    + apply Z.mod_pos_bound; lia.
    + rewrite E1. auto.
Qed.

Lemma format_duration_spec_witness :
  0 <= 7384 /\
  format_duration (Some (inject_Z 7384)) = duration_text 7384 /\
  first_char (format_duration (Some (inject_Z 7384))) <> Some " "%char /\
  last_char (format_duration (Some (inject_Z 7384))) <> Some " "%char.
Proof.
  split; [lia | apply (proj1 (proj2 format_duration_spec) 7384); lia].
Defined.

(** *** [list.sort]: permutation, order, stability *)

Section SortFacts.
Context {A K : Type}.
Variable lt : K -> K -> bool.
Variable key : A -> K.

(** [<] on keys is a strict weak order: it is asymmetric and "not smaller
    than" is transitive. *)
Hypothesis lt_asym : forall a b, lt a b = true -> lt b a = false.
Hypothesis ge_trans : forall a b c, lt b a = false -> lt c b = false -> lt c a = false.

Lemma insert_perm (x : A) (l : list A) : Permutation (Py.insert lt key x l) (x :: l).
Proof.
  induction l as [|y l IH]; simpl; [reflexivity|].
  destruct (lt (key y) (key x)); [|reflexivity].
  rewrite IH. apply perm_swap.
Qed.

Lemma sort_perm (l : list A) : Permutation (Py.sort lt key l) l.
Proof.
  induction l as [|x l IH]; simpl; [reflexivity|].
  rewrite insert_perm. now constructor.
Qed.

Lemma insert_sorted (x : A) (l : list A) :
  StronglySorted (not_after lt key) l -> StronglySorted (not_after lt key) (Py.insert lt key x l).
Proof.
  induction 1 as [|y l Hl IH Hy]; simpl.
  - repeat constructor.
  - destruct (lt (key y) (key x)) eqn:E.
    + constructor; [exact IH|].
      apply (@Permutation_Forall _ _ (x :: l)).
      * symmetry. apply insert_perm.
      * constructor; [|exact Hy]. unfold not_after. now apply lt_asym.
    + constructor; [now constructor|].
      constructor; [exact E|].
      revert Hy. apply Forall_impl. intros z Hz. unfold not_after in *.
      now apply ge_trans with (key y).
Qed.

Lemma sort_sorted (l : list A) : StronglySorted (not_after lt key) (Py.sort lt key l).
Proof.
  induction l as [|x l IH]; simpl; [constructor | now apply insert_sorted].
Qed.

Lemma insert_filter (k : K) (x : A) (l : list A) :
  filter (same_key lt key k) (Py.insert lt key x l) = filter (same_key lt key k) (x :: l).
Proof.
  induction l as [|y l IH]; [reflexivity|].
  cbn [Py.insert]. destruct (lt (key y) (key x)) eqn:E; [|reflexivity].
  cbn [filter] in *. rewrite IH.
  destruct (same_key lt key k x) eqn:Ex; [|reflexivity].
  destruct (same_key lt key k y) eqn:Ey; [|reflexivity].
  exfalso. unfold same_key in Ex, Ey.
  apply andb_prop in Ex as [Ex1 Ex2], Ey as [Ey1 Ey2].
  apply negb_true_iff in Ex1, Ex2, Ey1, Ey2.
  (* x <= k <= y contradicts y < x *)
  rewrite (ge_trans (key x) k (key y)) in E; [discriminate | assumption | assumption].
Qed.

Lemma sort_stable (k : K) (l : list A) :
  filter (same_key lt key k) (Py.sort lt key l) = filter (same_key lt key k) l.
Proof.
  induction l as [|x l IH]; [reflexivity|].
  cbn [Py.sort]. rewrite insert_filter. cbn [filter]. now rewrite IH.
Qed.

End SortFacts.

(** *** The sort key of line 300 *)

Lemma ltb_lt (x y : Q) : Py.ltb x y = true <-> (x < y)%Q.
Proof. unfold Py.ltb, Qlt. apply Z.ltb_lt. Qed.

Lemma ltb_ge (x y : Q) : Py.ltb x y = false <-> (y <= x)%Q.
Proof. unfold Py.ltb, Qle. apply Z.ltb_ge. Qed.

Lemma key_lt_ge (a b : sort_key) : key_lt b a = false <-> key_le a b.
Proof.
  destruct a as [x|], b as [y|]; simpl; try apply ltb_ge; intuition discriminate.
Qed.

Lemma key_lt_asym (a b : sort_key) : key_lt a b = true -> key_lt b a = false.
Proof.
  destruct a as [x|], b as [y|]; simpl; try easy.
  rewrite ltb_lt, ltb_ge. apply Qlt_le_weak.
Qed.

Lemma key_ge_trans (a b c : sort_key) :
  key_lt b a = false -> key_lt c b = false -> key_lt c a = false.
Proof.
  rewrite !key_lt_ge.
  destruct a as [x|], b as [y|], c as [z|]; simpl; try easy.
  apply Qle_trans.
Qed.

Lemma same_key_eqb (k : sort_key) (r : route) :
  same_key key_lt duration_key k r = with_duration k r.
Proof.
  unfold same_key, with_duration. destruct (duration_key r) as [x|], k as [y|]; simpl; try reflexivity.
  destruct (Qeq_bool x y) eqn:E.
  - apply Qeq_bool_iff in E. apply andb_true_intro. rewrite !negb_true_iff, !ltb_ge.
    split; rewrite E; apply Qle_refl.
  - apply not_true_iff_false. intros H. apply andb_prop in H as [H1 H2].
    rewrite negb_true_iff, ltb_ge in H1, H2.
    apply Qeq_bool_neq in E. apply E. now apply Qle_antisym.
Qed.

Lemma StronglySorted_weaken {A} (R R' : A -> A -> Prop) (l : list A) :
  (forall a b, R a b -> R' a b) -> StronglySorted R l -> StronglySorted R' l.
Proof.
  intros HR. induction 1 as [|x l Hl IH Hx]; constructor; [exact IH|].
  revert Hx. apply Forall_impl. intros y. apply HR.
Qed.

Lemma sort_routes_perm (rs : list route) :
  Permutation (Py.sort key_lt duration_key rs) rs.
Proof. apply sort_perm. Qed.

(** The sort key of line 300 orders the routes by their field [duration]. *)
Lemma no_longer_key (a b : route) :
  key_le (duration_key a) (duration_key b) <-> no_longer a b.
Proof.
  unfold no_longer, duration_key. destruct (duration a), (duration b); reflexivity.
Qed.

Lemma has_duration_key (d : option Q) (r : route) :
  with_duration (match d with Some x => Finite x | None => Infinity end) r =
  has_duration d r.
Proof.
  unfold with_duration, has_duration, duration_key.
  destruct d, (duration r); reflexivity.
Qed.

Lemma no_longer_refl (a : route) : no_longer a a.
Proof. unfold no_longer. destruct (duration a); [apply Qle_refl | exact I]. Qed.

Lemma sort_routes_ascending (rs : list route) :
  ascending (Py.sort key_lt duration_key rs).
Proof.
  unfold ascending.
  eapply StronglySorted_weaken;
    [| apply (sort_sorted key_lt duration_key key_lt_asym key_ge_trans)].
  intros a b H. apply no_longer_key. now apply key_lt_ge.
Qed.

Lemma sort_routes_stable (d : option Q) (rs : list route) :
  filter (has_duration d) (Py.sort key_lt duration_key rs) =
  filter (has_duration d) rs.
Proof.
  rewrite <- !(filter_ext _ _ (has_duration_key d)).
  rewrite <- !(filter_ext _ _ (same_key_eqb _)).
  apply sort_stable. exact key_ge_trans.
Qed.

(** What [on_get_route] does once the coordinates are there and the routing
    client has answered with a non-empty route set. *)
Lemma on_get_route_success svc inp s coords s1 log1 r rs s2 log2 :
  collect_coords svc inp s = (Return coords, s1, log1) ->
  2 <= Py.len coords ->
  get_route svc coords (show_alternatives inp) s1 = (Return (Some (r :: rs)), s2, log2) ->
  on_get_route svc inp s =
  (Return tt,
   set_all_coords coords
     (set_selected_route_index 0
        (set_routes (Py.sort key_lt duration_key (r :: rs)) s2)),
   (log1 ++ log2)%list).
Proof.
  intros Hc Hlen Hr. unfold on_get_route, bind.
  rewrite Hc. destruct (2 <=? Py.len coords) eqn:E; [|apply Z.leb_gt in E; lia].
  rewrite Hr. unfold modify. cbn. now rewrite !app_nil_r.
Qed.

(** *** Slices with a stride *)

Lemma every_from_nth {A} (step : nat) (l : list A) :
  (0 < step)%nat ->
  forall k i, nth_error (Py.every_from step k l) i = nth_error l (k + i * step).
Proof.
  intros Hstep. induction l as [|x l IH]; intros k i.
  - simpl. now rewrite !nth_error_nil.
  - destruct k as [|k]; simpl.
    + destruct i as [|i]; simpl; [reflexivity|].
      rewrite IH. destruct step as [|step]; [lia|]. simpl.
      f_equal. lia.
    + apply IH.
Qed.

Lemma downsample_points_returns {S} (points : list point) (s : S) :
  exists sampled, downsample_points points s = (Return sampled, s, []).
Proof.
  unfold downsample_points. destruct (MAX_QUERY_POINTS <? Py.len points) eqn:E.
  - apply Z.ltb_lt in E. unfold MAX_QUERY_POINTS in *.
    assert (Hs : 0 < Py.len points / 50) by (apply Z.div_str_pos; lia).
    unfold Py.slice_step.
    destruct (Py.len points / 50 =? 0) eqn:E0; [apply Z.eqb_eq in E0; lia|].
    destruct (0 <? Py.len points / 50) eqn:E1; [|apply Z.ltb_ge in E1; lia].
    eexists; reflexivity.
  - eexists; reflexivity.
Qed.

(** Past the cap, the sample is the points at the multiples of
    [step = len // 50]. *)
Lemma downsample_points_stride {S} (points : list point) (s : S) :
  MAX_QUERY_POINTS < Py.len points ->
  let step := Z.to_nat (Py.len points / MAX_QUERY_POINTS) in
  exists sampled,
    downsample_points points s = (Return sampled, s, []) /\
    (0 < step)%nat /\
    forall i, nth_error sampled i = nth_error points (i * step).
Proof.
  intros Hlen step. unfold downsample_points.
  destruct (MAX_QUERY_POINTS <? Py.len points) eqn:E; [|apply Z.ltb_ge in E; lia].
  unfold MAX_QUERY_POINTS in *.
  assert (Hs : 0 < Py.len points / 50) by (apply Z.div_str_pos; lia).
  unfold Py.slice_step.
  destruct (Py.len points / 50 =? 0) eqn:E0; [apply Z.eqb_eq in E0; lia|].
  destruct (0 <? Py.len points / 50) eqn:E1; [|apply Z.ltb_ge in E1; lia].
  eexists; split; [reflexivity|]. split; [unfold step; lia|].
  intros i. unfold step, MAX_QUERY_POINTS.
  apply (every_from_nth (Z.to_nat (Py.len points / 50)) points) with (k := 0%nat). lia.
Qed.

(** Past the cap the sample has [ceil(len / step)] points, which is fewer
    than twice the cap but can be more than the cap. *)
Lemma downsample_points_count {S} (points : list point) (s : S) :
  MAX_QUERY_POINTS < Py.len points ->
  let step := Py.len points / MAX_QUERY_POINTS in
  exists sampled,
    downsample_points points s = (Return sampled, s, []) /\
    Py.len sampled = (Py.len points + step - 1) / step /\
    Py.len sampled < 2 * MAX_QUERY_POINTS.
Proof.
  intros Hlen step.
  destruct (downsample_points_stride points s Hlen) as (sampled & Hd & Hstep & Hnth).
  exists sampled. split; [exact Hd|].
  unfold MAX_QUERY_POINTS in *. fold step in Hstep, Hnth.
  assert (Hs : 1 <= step) by (unfold step; lia).
  pose proof (Z.div_mod (Py.len points) 50 ltac:(lia)) as Hdm.
  pose proof (Z.mod_pos_bound (Py.len points) 50 ltac:(lia)) as Hmb.
  fold step in Hdm.
  set (n := (Py.len points + step - 1) / step).
  pose proof (Z.div_mod (Py.len points + step - 1) step ltac:(lia)) as Hn.
  pose proof (Z.mod_pos_bound (Py.len points + step - 1) step ltac:(lia)) as Hnb.
  fold n in Hn.
  assert (Hn1 : 1 <= n) by nia.
  assert (HL : List.length sampled = Z.to_nat n).
  { assert (N1 : nth_error sampled (Z.to_nat n - 1) <> None).
    { rewrite Hnth. apply nth_error_Some. unfold Py.len in *. nia. }
    assert (N2 : nth_error sampled (Z.to_nat n) = None).
    { rewrite Hnth. apply nth_error_None. unfold Py.len in *. nia. }
    apply nth_error_Some in N1. apply nth_error_None in N2. lia. }
  split.
  - unfold Py.len at 1. rewrite HL. lia.
  - unfold Py.len at 1. rewrite HL. nia.
Qed.

(** C4. A decoded path of 120 points is sampled with the stride
    [120 // 50 = 2]: the sample has 60 points, its [i]-th point is the
    [2 * i]-th point of the path (so it starts with the first point and keeps
    the order), and when no point occurs twice in the path its last point
    is not in the sample. *)
Theorem downsample_120 {S} (points : list point) (s : S) :
  List.length points = 120%nat ->
  Py.len points / MAX_QUERY_POINTS = 2 /\
  exists sampled,
    downsample_points points s = (Return sampled, s, []) /\
    List.length sampled = 60%nat /\
    (forall i, (i < 60)%nat -> nth_error sampled i = nth_error points (2 * i)) /\
    hd_error sampled = hd_error points /\
    (NoDup points -> forall p, nth_error points 119 = Some p -> ~ In p sampled).
Proof.
  intros Hlen.
  assert (EL : Py.len points = 120) by (unfold Py.len; rewrite Hlen; reflexivity).
  split; [rewrite EL; reflexivity|].
  destruct (downsample_points_stride points s) as (sampled & Hd & _ & Hnth).
  { rewrite EL. reflexivity. }
  rewrite EL in Hnth. change (Z.to_nat (120 / MAX_QUERY_POINTS)) with 2%nat in Hnth.
  assert (HL : List.length sampled = 60%nat).
  { assert (N1 : nth_error sampled 59 <> None)
      by (rewrite Hnth; apply nth_error_Some; lia).
    assert (N2 : nth_error sampled 60 = None)
      by (rewrite Hnth; apply nth_error_None; lia).
    apply nth_error_Some in N1. apply nth_error_None in N2. lia. }
  exists sampled. repeat split; try assumption.
  - intros i _. rewrite Hnth. f_equal. lia.
  - specialize (Hnth 0%nat). simpl in Hnth.
    destruct sampled, points; simpl in *; congruence.
  - intros Hnd p Hp Hin.
    apply In_nth_error in Hin as [i Hi].
    rewrite Hnth in Hi.
    assert (Hi' : (i * 2 < 120)%nat)
      by (rewrite <- Hlen; apply nth_error_Some; congruence).
    assert (i * 2 = 119)%nat; [|lia].
    apply (proj1 (NoDup_nth_error points) Hnd); [lia | congruence].
Qed.

Lemma downsample_120_witness :
  Py.len (sample_path 120) / MAX_QUERY_POINTS = 2 /\
  exists sampled,
    downsample_points (sample_path 120) tt = (Return sampled, tt, []) /\
    List.length sampled = 60%nat /\
    (forall i, (i < 60)%nat -> nth_error sampled i = nth_error (sample_path 120) (2 * i)) /\
    hd_error sampled = hd_error (sample_path 120) /\
    (NoDup (sample_path 120) -> forall p, nth_error (sample_path 120) 119 = Some p -> ~ In p sampled).
Proof. apply (downsample_120 (sample_path 120) tt). reflexivity. Defined.

(** C3. The sample is not held to the cap: a decoded path of 120 points is
    sampled to 60 points and one of 99 points is kept whole, both above
    [MAX_QUERY_POINTS]. (That the sample is taken with one fixed stride is
    [downsample_points_stride]; its size in general is
    [downsample_points_count].) *)
Theorem downsample_exceeds_cap :
  (exists sampled,
     MAX_QUERY_POINTS < Py.len (sample_path 120) /\
     downsample_points (sample_path 120) tt = (Return sampled, tt, []) /\
     Py.len sampled = 60) /\
  (exists sampled,
     MAX_QUERY_POINTS < Py.len (sample_path 99) /\
     downsample_points (sample_path 99) tt = (Return sampled, tt, []) /\
     Py.len sampled = 99).
Proof.
  split;
    [exists (Py.every_from 2 0 (sample_path 120))
    |exists (Py.every_from 1 0 (sample_path 99))];
    repeat split; vm_compute; reflexivity.
Qed.

(** *** Reasoning about runs: a relation between the state before and after,
    and a property of every logged event *)

Section Obeys.
Context {S : Type}.
Variable I : S -> S -> Prop.
Variable P : event -> Prop.
Hypothesis I_refl : forall s, I s s.
Hypothesis I_trans : forall s1 s2 s3, I s1 s2 -> I s2 s3 -> I s1 s3.

Lemma obeys_ret {A} (a : A) : obeys I P (ret a).
Proof. intros s; cbn; auto. Qed.

Lemma obeys_raise {A} (e : exn) : obeys I P (raise (A := A) e).
Proof. intros s; cbn; auto. Qed.

Lemma obeys_get : obeys I P get.
Proof. intros s; cbn; auto. Qed.

Lemma obeys_emit (ev : event) : P ev -> obeys I P (emit ev).
Proof. intros H s; simpl; auto. Qed.

Lemma obeys_modify (f : S -> S) : (forall s, I s (f s)) -> obeys I P (modify f).
Proof. intros H s; simpl; auto. Qed.

Lemma obeys_bind {A B} (m : M S A) (f : A -> M S B) :
  obeys I P m -> (forall a, obeys I P (f a)) -> obeys I P (bind m f).
Proof.
  intros Hm Hf s. unfold bind. specialize (Hm s).
  destruct (m s) as [[[a|e] s1] log1]; simpl in *; [|exact Hm].
  specialize (Hf a s1). destruct (f a s1) as [[r s2] log2]; simpl in *.
  destruct Hm, Hf. split; [eauto | now apply Forall_app].
Qed.

Lemma obeys_try_except {A} (body : M S A) catches handler :
  obeys I P body -> (forall e, obeys I P (handler e)) -> obeys I P (try_except body catches handler).
Proof.
  intros Hm Hh s. unfold try_except. specialize (Hm s).
  destruct (body s) as [[[a|e] s1] log1]; simpl in *; [exact Hm|].
  destruct (catches e); [|exact Hm].
  specialize (Hh e s1). destruct (handler e s1) as [[r s2] log2]; simpl in *.
  destruct Hm, Hh. split; [eauto | now apply Forall_app].
Qed.

Lemma obeys_subscript {A} key (entry : option A) : obeys I P (subscript key entry).
Proof. destruct entry; [apply obeys_ret | apply obeys_raise]. Qed.

Lemma obeys_item {A} (l : list A) i : obeys I P (item l i).
Proof. unfold item. destruct (Py.index l i); [apply obeys_ret | apply obeys_raise]. Qed.

Lemma obeys_attribute {A} attr (v : option A) : obeys I P (attribute attr v).
Proof. destruct v; [apply obeys_ret | apply obeys_raise]. Qed.

Lemma obeys_truediv x y : obeys I P (truediv x y).
Proof. unfold truediv. destruct (Qnum y =? 0); [apply obeys_raise | apply obeys_ret]. Qed.
End Obeys.

Ltac obey_side := solve [assumption | eauto].

Ltac obey_step :=
  match goal with
  | |- obeys _ _ (bind _ _) => apply obeys_bind; [obey_side .. | | intros ?]
  | |- obeys _ _ (try_except _ _ _) =>
      apply obeys_try_except; [obey_side .. | | intros ?]
  | |- obeys _ _ (ret _) => apply obeys_ret; obey_side
  | |- obeys _ _ (raise _) => apply obeys_raise; obey_side
  | |- obeys _ _ get => apply obeys_get; obey_side
  | |- obeys _ _ (emit _) => apply obeys_emit; obey_side
  | |- obeys _ _ (subscript _ _) => apply obeys_subscript; obey_side
  | |- obeys _ _ (item _ _) => apply obeys_item; obey_side
  | |- obeys _ _ (attribute _ _) => apply obeys_attribute; obey_side
  | |- obeys _ _ (truediv _ _) => apply obeys_truediv; obey_side
  | |- obeys _ _ (match ?x with _ => _ end) => destruct x
  | |- obeys _ _ (if ?x then _ else _) => destruct x
  | |- obeys _ _ (let '(_, _) := ?x in _) => destruct x
  end.

Section ClientsObey.
Context {S : Type}.
Variable I : S -> S -> Prop.
Variable P : event -> Prop.
Hypothesis I_refl : forall s, I s s.
Hypothesis I_trans : forall s1 s2 s3, I s1 s2 -> I s2 s3 -> I s1 s3.
Variable svc : services.
(** every message widget call and every request to a service is allowed *)
Hypothesis P_show : forall w m, P (Display w m).

Lemma obeys_get_coords place :
  P (Call (ReqNominatim place)) -> obeys I P (get_coords svc place).
Proof.
  intros HP. unfold get_coords, send, raise_for_status, json_of, float_field.
  repeat obey_step.
Qed.

Lemma obeys_get_route coords alt :
  P (Call (ReqOsrm coords alt)) -> obeys I P (get_route svc coords alt).
Proof.
  intros HP. unfold get_route, send, raise_for_status, json_of.
  repeat obey_step.
Qed.

Lemma obeys_downsample_points points : obeys I P (downsample_points points).
Proof. unfold downsample_points. repeat obey_step. Qed.

Lemma obeys_polyline_decode g : obeys I P (polyline_decode svc g).
Proof. unfold polyline_decode. repeat obey_step. Qed.

Lemma obeys_get_fuel_stations g radius :
  (forall pts, P (Call (ReqOverpass radius pts))) ->
  obeys I P (get_fuel_stations_along_route svc g radius).
Proof.
  intros HP. unfold get_fuel_stations_along_route, send, raise_for_status, json_of.
  repeat first [ obey_step
               | apply obeys_downsample_points; assumption
               | apply obeys_polyline_decode ].
Qed.

Lemma obeys_waypoint_markers names wps : obeys I P (waypoint_markers names wps).
Proof.
  induction wps as [|[i [lon lat]] wps IH]; simpl; repeat first [exact IH | obey_step].
Qed.

Lemma obeys_route_lines idx rs : obeys I P (route_lines svc idx rs).
Proof.
  induction rs as [|[i r] rs IH]; cbn [route_lines]; unfold PolyLine;
    repeat first [exact IH | apply obeys_polyline_decode | obey_step].
Qed.

Lemma obeys_create_map routes coords names idx st :
  obeys I P (create_map svc routes coords names idx st).
Proof.
  unfold create_map.
  repeat first [ apply obeys_waypoint_markers; assumption
               | apply obeys_route_lines
               | obey_step ].
Qed.
End ClientsObey.

(** *** The clients leave the session alone *)

Lemma get_coords_run {S} svc place (s : S) :
  get_coords svc place s =
  (result_of (get_coords svc place tt), s, log_of (get_coords svc place tt)).
Proof.
  unfold result_of, log_of, get_coords, try_except, bind, send, raise_for_status, json_of, float_field, emit, ret, raise.
  destruct (Py.nonempty place); cbn [negb]; [|reflexivity].
  destruct (nominatim svc place) as [msg|resp]; cbn; [reflexivity|].
  destruct ((400 <=? status_code resp) && (status_code resp <? 600)); cbn;
    [reflexivity|].
  destruct (json resp) as [[|c cs]|]; cbn; try reflexivity.
  destruct (cand_lat c), (cand_lon c); reflexivity.
Qed.

Lemma get_coords_result {S S'} svc place (s : S) (s' : S') :
  result_of (get_coords svc place s) = result_of (get_coords svc place s').
Proof.
  unfold result_of.
  rewrite (get_coords_run svc place s), (get_coords_run svc place s'). reflexivity.
Qed.

(** *** A submission whose geocoding fails *)

Lemma same_route_state_refl s : same_route_state s s.
Proof. repeat split. Qed.

Lemma same_route_state_trans s1 s2 s3 :
  same_route_state s1 s2 -> same_route_state s2 s3 -> same_route_state s1 s3.
Proof. unfold same_route_state. intuition congruence. Qed.

Lemma not_routing_show w m : not_routing_call (Display w m).
Proof. reflexivity. Qed.

#[local] Hint Resolve same_route_state_refl same_route_state_trans
  not_routing_show : core.

Lemma geocode_places_quiet svc places acc :
  obeys same_route_state not_routing_call (geocode_places svc places acc).
Proof.
  revert acc. induction places as [|place rest IH]; intros acc; cbn [geocode_places].
  - apply obeys_ret; auto.
  - apply obeys_bind; eauto.
    + apply obeys_get_coords; eauto. reflexivity.
    + intros [[lat|] [lon|]]; auto;
        repeat obey_step.
Qed.

Lemma collect_coords_quiet svc inp :
  obeys same_route_state not_routing_call (collect_coords svc inp).
Proof.
  unfold collect_coords.
  repeat first [ obey_step
               | apply geocode_places_quiet
               | apply obeys_modify; [obey_side .. | intros ?; repeat split] ].
Qed.

(** The loop does not report a valid trip when one of the places fails. *)
Lemma geocode_places_fail svc places acc (s : session) place :
  In place places ->
  result_of (get_coords svc place s) = Return (None, None) ->
  match result_of (geocode_places svc places acc s) with
  | Return (true, _) => False
  | Return (false, _) =>
      exists p, In p places /\
        In (Display st_sidebar_error (MsgPlaceNotFound p))
           (log_of (geocode_places svc places acc s))
  | Raise _ => True
  end.
Proof.
  revert acc. induction places as [|p rest IH]; intros acc Hin Hfail; [elim Hin|].
  cbn [geocode_places]. unfold bind.
  rewrite (get_coords_run svc p s).
  destruct (result_of (get_coords svc p tt)) as [[[lat|] [lon|]]|e] eqn:E;
    try exact I.
  - (* this place was found: the failing one comes later *)
    destruct Hin as [->|Hin].
    { rewrite (get_coords_result svc place s tt), E in Hfail. discriminate. }
    specialize (IH (acc ++ [(lon, lat)])%list Hin Hfail).
    destruct (geocode_places svc rest (acc ++ [(lon, lat)])%list s)
      as [[[[[] coords]|e] s1] log1]; cbn in *; auto.
    destruct IH as (q & Hq & Hlog). exists q. split; [auto|].
    apply in_or_app. now right.
  - cbn. exists p. split; [now left|]. apply in_or_app. right. now left.
  - cbn. exists p. split; [now left|]. apply in_or_app. right. now left.
  - cbn. exists p. split; [now left|]. apply in_or_app. right. now left.
Qed.

Lemma collect_coords_name svc inp s :
  method inp = PlaceName ->
  let places := ([start_place inp] ++ destinations s ++ [end_place inp])%list in
  collect_coords svc inp s =
  match geocode_places svc places [] (set_all_places places s) with
  | (Return (valid_trip, coords), s1, log1) =>
      (Return (if negb valid_trip then [] else coords), s1, log1)
  | (Raise e, s1, log1) => (Raise e, s1, log1)
  end.
Proof.
  intros Hm places. subst places. unfold collect_coords. rewrite Hm.
  unfold bind, get, modify. cbv beta iota zeta.
  destruct (geocode_places svc _ [] _) as [[[[[] coords]|e] s1] log1];
    cbn; rewrite ?app_nil_r; reflexivity.
Qed.

Lemma on_get_route_failed_geocoding svc inp s place :
  method inp = PlaceName ->
  In place ([start_place inp] ++ destinations s ++ [end_place inp])%list ->
  result_of (get_coords svc place s) = Return (None, None) ->
  let run := on_get_route svc inp s in
  filter is_routing_call (log_of run) = [] /\
  routes (state_after run) = routes s /\
  selected_route_index (state_after run) = selected_route_index s /\
  all_coords (state_after run) = all_coords s /\
  (result_of run = Return tt ->
   In (Display st_sidebar_warning MsgNeedStartAndEnd) (log_of run) /\
   exists p, In p ([start_place inp] ++ destinations s ++ [end_place inp])%list /\
             In (Display st_sidebar_error (MsgPlaceNotFound p)) (log_of run)).
Proof.
  intros Hm Hin Hfail run.
  pose proof (collect_coords_quiet svc inp s) as [HI HP].
  assert (Hc : match result_of (collect_coords svc inp s) with
               | Return [] =>
                   exists p, In p ([start_place inp] ++ destinations s ++ [end_place inp])%list /\
                     In (Display st_sidebar_error (MsgPlaceNotFound p))
                        (log_of (collect_coords svc inp s))
               | Return (_ :: _) => False
               | Raise _ => True
               end).
  { rewrite (collect_coords_name svc inp s Hm).
    pose proof (geocode_places_fail svc _ [] (set_all_places
      ([start_place inp] ++ destinations s ++ [end_place inp])%list s) place Hin) as H.
    rewrite (get_coords_result svc place _ s) in H. specialize (H Hfail).
    destruct (geocode_places svc _ [] _) as [[[[[] coords]|e] s1] log1];
      cbn in *; [contradiction | exact H | exact I]. }
  subst run. unfold on_get_route, bind.
  destruct (collect_coords svc inp s) as [[[[|c cs]|e] s1] log1];
    cbn in *; try contradiction.
  - (* no coordinates: the warning, and nothing else *)
    destruct HI as (H1 & H2 & H3).
    repeat split; auto.
    + rewrite filter_app. cbn. rewrite app_nil_r.
      clear - HP. induction HP as [|ev l Hev _ IH]; [reflexivity|].
      cbn. unfold not_routing_call in Hev. now rewrite Hev.
    + apply in_or_app. right. now left.
    + destruct Hc as (p & Hp & Hlog). exists p. split; [exact Hp|].
      apply in_or_app. now left.
  - (* the run was aborted by an exception *)
    destruct HI as (H1 & H2 & H3).
    repeat split; auto; try discriminate.
    clear - HP. induction HP as [|ev l Hev _ IH]; [reflexivity|].
    cbn. unfold not_routing_call in Hev. now rewrite Hev.
Qed.

(** *** The whole run of a submission whose geocoding fails *)

Lemma same_routes_refl s : same_routes s s.
Proof. reflexivity. Qed.

Lemma same_routes_trans s1 s2 s3 :
  same_routes s1 s2 -> same_routes s2 s3 -> same_routes s1 s3.
Proof. unfold same_routes. congruence. Qed.

Lemma not_routing_nominatim p : not_routing_call (Call (ReqNominatim p)).
Proof. reflexivity. Qed.

Lemma not_routing_overpass r pts : not_routing_call (Call (ReqOverpass r pts)).
Proof. reflexivity. Qed.

#[local] Hint Resolve same_routes_refl same_routes_trans not_routing_show
  not_routing_nominatim not_routing_overpass : core.

Lemma delete_buttons_same_routes inp dests :
  obeys same_routes not_routing_call (delete_buttons inp dests).
Proof.
  induction dests as [|[i d] rest IH]; cbn [delete_buttons].
  - obey_step.
  - repeat first [ exact IH
                 | apply obeys_modify; [obey_side .. | intros s; reflexivity]
                 | obey_step ].
Qed.

Lemma sidebar_same_routes inp :
  obeys same_routes not_routing_call (sidebar inp).
Proof.
  unfold sidebar.
  repeat first [ apply delete_buttons_same_routes
               | apply obeys_modify; [obey_side .. | intros s; reflexivity]
               | obey_step ].
Qed.

Lemma render_same_routes svc inp :
  obeys same_routes not_routing_call (render svc inp).
Proof.
  unfold render, choose_route, radio, show_page, trip_estimation.
  repeat first [ apply obeys_get_fuel_stations; obey_side
               | apply obeys_create_map; obey_side
               | apply obeys_modify; [obey_side .. | intros s; reflexivity]
               | obey_step ].
Qed.

(** A run in which "Get Route" is not pressed keeps the stored routes and
    sends nothing to the routing service. *)
Lemma main_without_submit svc inp :
  is_pressed inp BtnGetRoute = false ->
  obeys same_routes not_routing_call (main svc inp).
Proof.
  intros H. unfold main. rewrite H.
  repeat first [ apply sidebar_same_routes | apply render_same_routes | obey_step ].
Qed.

Lemma delete_buttons_idle inp dests (s : session) :
  (forall i, is_pressed inp (BtnDelete i) = false) ->
  delete_buttons inp dests s = (Return tt, s, []).
Proof.
  intros H. induction dests as [|[i d] rest IH]; [reflexivity|].
  cbn [delete_buttons]. rewrite H. unfold bind, ret. rewrite IH. reflexivity.
Qed.

(** With "Get Route" pressed, the sidebar of name mode only initialises the
    flag of the add-destination input. *)
Lemma sidebar_on_submit inp (s : session) :
  pressed inp = Some BtnGetRoute -> method inp = PlaceName ->
  exists s1, sidebar inp s = (Return tt, s1, []) /\ same_destinations s s1.
Proof.
  intros Hp Hm. unfold sidebar. rewrite Hm.
  assert (Hb : forall b, b <> BtnGetRoute -> is_pressed inp b = false).
  { intros b Hb. unfold is_pressed. rewrite Hp. destruct b; congruence. }
  unfold bind at 1. unfold get at 1. cbv beta iota zeta.
  unfold bind at 1. rewrite delete_buttons_idle by (intros; apply Hb; discriminate).
  cbv beta iota zeta. unfold bind, get, modify, ret, raise.
  rewrite !Hb by discriminate. cbv beta iota zeta.
  destruct (show_add_destination_input s) as [[]|] eqn:E; cbn; rewrite ?E; cbn;
    eexists; (split; [reflexivity | repeat split]).
Qed.

Lemma script_run_failed_geocoding svc inp s place :
  method inp = PlaceName ->
  pressed inp = Some BtnGetRoute ->
  In place ([start_place inp] ++ destinations s ++ [end_place inp])%list ->
  result_of (get_coords svc place s) = Return (None, None) ->
  let run := script_run svc inp s in
  filter is_routing_call (log_of run) = [] /\
  routes (state_after run) = routes s.
Proof.
  intros Hm Hp Hin Hfail run.
  assert (Q : forall l, Forall not_routing_call l -> filter is_routing_call l = []).
  { induction 1 as [|ev l Hev _ IH]; [reflexivity|].
    cbn. unfold not_routing_call in Hev. now rewrite Hev. }
  assert (G : is_pressed inp BtnGetRoute = true) by (unfold is_pressed; now rewrite Hp).
  (* the first run of the script *)
  assert (H1 : same_routes s (state_after (main svc inp s)) /\
               Forall not_routing_call (log_of (main svc inp s))).
  { unfold main. rewrite G.
    destruct (sidebar_on_submit inp s Hp Hm) as (s1 & Hs & Hd & Hr1 & _).
    unfold bind. rewrite Hs. cbv beta iota zeta.
    assert (Hin1 : In place ([start_place inp] ++ destinations s1 ++ [end_place inp])%list)
      by now rewrite Hd.
    rewrite (get_coords_result svc place s s1) in Hfail.
    destruct (on_get_route_failed_geocoding svc inp s1 place Hm Hin1 Hfail)
      as (L & R & _).
    pose proof (render_same_routes svc inp) as Hrender.
    destruct (on_get_route svc inp s1) as [[[[]|e] s2] log2]; cbn in L, R;
      cbv beta iota zeta.
    - specialize (Hrender s2). destruct (render svc inp s2) as [[r s3] log3].
      cbn in *. destruct Hrender as [Hr3 Hl3]. split.
      + unfold same_routes in *. congruence.
      + apply Forall_app. split; [|exact Hl3].
        clear - L. induction log2 as [|ev l IH]; [constructor|].
        cbn in L. destruct (is_routing_call ev) eqn:E; [discriminate|].
        constructor; [exact E | auto].
    - cbn. split; [unfold same_routes; congruence|].
      clear - L. induction log2 as [|ev l IH]; [constructor|].
      cbn in L. destruct (is_routing_call ev) eqn:E; [discriminate|].
      constructor; [exact E | auto]. }
  subst run. unfold script_run.
  destruct (main svc inp s) as [[[p|e] s1] log1]; cbn in H1; destruct H1 as [R1 L1];
    [split; [now apply Q | exact R1]|].
  destruct e; try (split; [now apply Q | exact R1]).
  destruct (main_without_submit svc (released inp) eq_refl s1) as [R2 L2].
  destruct (main svc (released inp) s1) as [[r s2] log2]. cbn in *.
  split; [apply Q, Forall_app; now split | unfold same_routes in *; congruence].
Qed.

(** C6. In name mode, when one of the places of the trip (start, waypoints,
    end) is not found by [get_coords], the handler of "Get Route" issues no routing
    request and leaves the stored routes, the selected index and the stored
    coordinates as they were; when the run ends normally, the place that was
    not found is reported in the sidebar together with the notice that a
    start and an end are needed.
    The same holds of the whole run of the script in which the button is
    pressed: no routing request, and the stored routes as before. *)
Theorem geocoding_failure_cancels_trip svc inp s place :
  method inp = PlaceName ->
  In place ([start_place inp] ++ destinations s ++ [end_place inp])%list ->
  result_of (get_coords svc place s) = Return (None, None) ->
  (let run := on_get_route svc inp s in
   filter is_routing_call (log_of run) = [] /\
   routes (state_after run) = routes s /\
   selected_route_index (state_after run) = selected_route_index s /\
   all_coords (state_after run) = all_coords s /\
   (result_of run = Return tt ->
    In (Display st_sidebar_warning MsgNeedStartAndEnd) (log_of run) /\
    exists p, In p ([start_place inp] ++ destinations s ++ [end_place inp])%list /\
              In (Display st_sidebar_error (MsgPlaceNotFound p)) (log_of run))) /\
  (pressed inp = Some BtnGetRoute ->
   let run := script_run svc inp s in
   filter is_routing_call (log_of run) = [] /\
   routes (state_after run) = routes s).
Proof.
  intros Hm Hin Hfail. split.
  - now apply on_get_route_failed_geocoding with place.
  - intros Hp. now apply script_run_failed_geocoding with place.
Qed.

Lemma geocoding_failure_cancels_trip_witness :
  (let run := on_get_route sample_services (sample_inputs PlaceName) sample_session in
   filter is_routing_call (log_of run) = [] /\
   routes (state_after run) = routes sample_session /\
   selected_route_index (state_after run) = selected_route_index sample_session /\
   all_coords (state_after run) = all_coords sample_session /\
   (result_of run = Return tt ->
    In (Display st_sidebar_warning MsgNeedStartAndEnd) (log_of run) /\
    exists p, In p ([start_place (sample_inputs PlaceName)]
                    ++ destinations sample_session
                    ++ [end_place (sample_inputs PlaceName)])%list /\
              In (Display st_sidebar_error (MsgPlaceNotFound p)) (log_of run))) /\
  (let run := script_run sample_services (sample_inputs PlaceName) sample_session in
   filter is_routing_call (log_of run) = [] /\
   routes (state_after run) = routes sample_session).
Proof.
  destruct (geocoding_failure_cancels_trip sample_services (sample_inputs PlaceName)
              sample_session "Atlantis") as [H1 H2].
  - reflexivity.
  - simpl. auto.
  - reflexivity.
  - split; [exact H1 | apply H2; reflexivity].
Defined.

Example geocoding_failure_log :
  log_of (on_get_route sample_services (sample_inputs PlaceName) sample_session) =
  [Call (ReqNominatim "Tokyo Station"); Call (ReqNominatim "Atlantis");
   Display st_sidebar_error (MsgPlaceNotFound "Atlantis");
   Display st_sidebar_warning MsgNeedStartAndEnd].
Proof. reflexivity. Qed.

(** *** The selected index stays valid *)

Lemma keeps_index_valid_refl s : keeps_index_valid s s.
Proof. intros H; exact H. Qed.

Lemma keeps_index_valid_trans s1 s2 s3 :
  keeps_index_valid s1 s2 -> keeps_index_valid s2 s3 -> keeps_index_valid s1 s3.
Proof. unfold keeps_index_valid. auto. Qed.

Lemma any_event_holds ev : any_event ev.
Proof. exact I. Qed.

#[local] Hint Resolve keeps_index_valid_refl keeps_index_valid_trans
  any_event_holds : core.

Lemma sort_length {A K} (lt : K -> K -> bool) (key : A -> K) (l : list A) :
  List.length (Py.sort lt key l) = List.length l.
Proof.
  induction l as [|x l IH]; [reflexivity|]. cbn [Py.sort].
  assert (H : forall m, List.length (Py.insert lt key x m) = Datatypes.S (List.length m)).
  { induction m as [|y m IHm]; [reflexivity|]. cbn [Py.insert].
    destruct (lt (key y) (key x)); cbn; [now rewrite IHm | reflexivity]. }
  rewrite H, IH. reflexivity.
Qed.

(** Lines 300-303 as one step. *)
Lemma store_routes_index_valid r rs coords :
  obeys keeps_index_valid any_event
    (modify (set_routes (Py.sort key_lt duration_key (r :: rs))) ;;;
     modify (set_selected_route_index 0) ;;;
     modify (set_all_coords coords)).
Proof.
  intros s. split; [|repeat constructor].
  intros _ _. cbn -[Py.sort Py.len]. unfold Py.len. rewrite sort_length.
  cbn [List.length]. lia.
Qed.

Lemma on_get_route_index_valid svc inp :
  obeys keeps_index_valid any_event (on_get_route svc inp).
Proof.
  unfold on_get_route, collect_coords.
  assert (G : forall places acc,
             obeys keeps_index_valid any_event (geocode_places svc places acc)).
  { induction places as [|p rest IH]; intros acc; cbn [geocode_places].
    - obey_step.
    - apply obeys_bind; eauto.
      + apply obeys_get_coords; eauto.
      + intros [[lat|] [lon|]]; auto; repeat obey_step. }
  repeat first
    [ apply store_routes_index_valid
    | apply G
    | apply obeys_get_route; obey_side
    | apply obeys_modify; [obey_side .. | intros s Hs; exact Hs]
    | apply obeys_modify; [obey_side .. | intros s Hs Hr; now elim Hr]
    | obey_step ].
Qed.

Lemma delete_buttons_index_valid inp dests :
  obeys keeps_index_valid any_event (delete_buttons inp dests).
Proof.
  induction dests as [|[i d] rest IH]; cbn [delete_buttons].
  - obey_step.
  - repeat first [ exact IH
                 | apply obeys_modify; [obey_side .. | intros s Hs; exact Hs]
                 | obey_step ].
Qed.

Lemma sidebar_index_valid inp :
  obeys keeps_index_valid any_event (sidebar inp).
Proof.
  unfold sidebar.
  repeat first [ apply delete_buttons_index_valid
               | apply obeys_modify; [obey_side .. | intros s Hs; exact Hs]
               | obey_step ].
Qed.

(** The page below the selector does not write to the session. *)
Lemma show_page_pure svc inp routes coords places :
  obeys eq any_event (show_page svc inp routes coords places).
Proof.
  assert (R : forall s : session, s = s) by reflexivity.
  assert (T : forall s1 s2 s3 : session, s1 = s2 -> s2 = s3 -> s1 = s3)
    by (intros; congruence).
  unfold show_page, trip_estimation.
  repeat first [ apply obeys_get_fuel_stations; obey_side
               | apply obeys_create_map; obey_side
               | obey_step ].
Qed.

Lemma choose_route_index_valid inp (s : session) :
  index_valid s ->
  index_valid (state_after (choose_route inp (routes s) s)).
Proof.
  intros Hs. unfold choose_route, radio.
  destruct (1 <? Py.len (routes s)); [|exact Hs].
  unfold bind, get, modify. cbv beta iota zeta.
  destruct ((0 <=? selected_route_index s) &&
            (selected_route_index s <? Py.len (routes s))) eqn:E; [|exact Hs].
  apply andb_prop in E as [E1 E2]. apply Z.leb_le in E1. apply Z.ltb_lt in E2.
  destruct (route_choice inp) as [k|]; [|cbn; intros _; cbn; lia].
  destruct (Z.of_nat k <? Py.len (routes s)) eqn:Ek; cbn; intros _; cbn; [|lia].
  apply Z.ltb_lt in Ek. lia.
Qed.

Lemma render_index_valid svc inp (s : session) :
  index_valid s -> index_valid (state_after (render svc inp s)).
Proof.
  intros Hs. unfold render. unfold bind at 1. unfold get at 1. cbv beta iota zeta.
  destruct (routes s) as [|r rs] eqn:Er; [exact Hs|]. rewrite <- Er.
  destruct (all_coords s) as [coords|]; [|exact Hs].
  destruct (all_places s) as [places|]; [|exact Hs].
  cbn [attribute]. unfold bind, ret. cbv beta iota zeta.
  pose proof (choose_route_index_valid inp s Hs) as Hc.
  destruct (choose_route inp (routes s) s) as [[[[]|e] s1] log1]; [|exact Hc].
  pose proof (show_page_pure svc inp (routes s) coords places s1) as [Hp _].
  destruct (show_page svc inp (routes s) coords places s1) as [[[p|e] s2] log2];
    cbn in *; now subst.
Qed.

Lemma main_index_valid svc inp (s : session) :
  index_valid s -> index_valid (state_after (main svc inp s)).
Proof.
  intros Hs. unfold main. unfold bind.
  pose proof (sidebar_index_valid inp s) as [H1 _]. specialize (H1 Hs).
  destruct (sidebar inp s) as [[[[]|e] s1] log1]; [|exact H1].
  cbn in H1.
  assert (H2 : index_valid
                 (state_after ((if is_pressed inp BtnGetRoute
                                then on_get_route svc inp else ret tt) s1))).
  { destruct (is_pressed inp BtnGetRoute); [|exact H1].
    now apply (on_get_route_index_valid svc inp s1). }
  destruct ((if is_pressed inp BtnGetRoute then on_get_route svc inp else ret tt) s1)
    as [[[[]|e] s2] log2]; [|exact H2].
  cbn in H2. pose proof (render_index_valid svc inp s2 H2) as H3.
  destruct (render svc inp s2) as [[r s3] log3]. exact H3.
Qed.

Lemma script_run_index_valid svc inp (s : session) :
  index_valid s -> index_valid (state_after (script_run svc inp s)).
Proof.
  intros Hs. unfold script_run.
  pose proof (main_index_valid svc inp s Hs) as H1.
  destruct (main svc inp s) as [[[p|e] s1] log1]; [exact H1|].
  destruct e; try exact H1.
  pose proof (main_index_valid svc (released inp) s1 H1) as H2.
  destruct (main svc (released inp) s1) as [[r s2] log2]. exact H2.
Qed.

(** C5, amended. In every reachable session state with a non-empty route
    set the selected index is valid for that set. (What becomes of the index
    when a new set replaces the old one is left out: see
    [resubmission_keeps_selection] below.) *)
Theorem selected_index_valid (s : session) :
  reachable s -> routes s <> [] ->
  0 <= selected_route_index s < Py.len (routes s).
Proof.
  intros Hr. change (index_valid s).
  induction Hr as [|svc inp s Hr IH].
  - intros H. now elim H.
  - now apply script_run_index_valid.
Qed.

Lemma selected_index_valid_witness :
  let s1 := state_after (script_run sample_services (sample_inputs Coordinates)
                           initial_session) in
  (reachable s1 /\ routes s1 <> []) /\
  0 <= selected_route_index s1 < Py.len (routes s1).
Proof.
  intros s1.
  assert (R : reachable s1) by (apply reachable_run, reachable_initial).
  assert (N : routes s1 <> []) by (vm_compute; discriminate).
  split; [split; [exact R | exact N]|].
  exact (selected_index_valid s1 R N).
Defined.

(** C5 as stated does not hold: after a submission that returned four
    routes, the choice of the second one, and a submission whose routing
    request failed, the stored set is empty, the selected index is still 1,
    and no index is valid for the empty set. *)
Lemma index_not_always_valid :
  let s1 := state_after (script_run sample_services (sample_inputs Coordinates)
                           initial_session) in
  let s2 := state_after (script_run offline_services (sample_inputs Coordinates) s1) in
  reachable s2 /\
  List.length (routes s1) = 4%nat /\ selected_route_index s1 = 1 /\
  routes s2 = [] /\ selected_route_index s2 = 1 /\
  ~ (0 <= selected_route_index s2 < Py.len (routes s2)).
Proof.
  intros s1 s2. split; [do 2 apply reachable_run; apply reachable_initial|].
  vm_compute. repeat split; intros [_ H]; discriminate H.
Qed.

(** The reset of line 302 does not last to the end of the run: the route
    selector of line 318 runs after it and stores the option it holds. With
    the second route picked in the selector, a submission that stores a new
    set of four routes sets the index to 0 and ends with the index 1. *)
Example resubmission_keeps_selection :
  let inp := sample_inputs Coordinates in
  let s1 := state_after (script_run sample_services inp initial_session) in
  route_choice inp = Some 1%nat /\
  selected_route_index (state_after (on_get_route sample_services inp s1)) = 0 /\
  List.length (routes (state_after (script_run sample_services inp s1))) = 4%nat /\
  selected_route_index (state_after (script_run sample_services inp s1)) = 1.
Proof. vm_compute. repeat split. Qed.

(** *** The routes a submission stores *)

(** [render] never writes the routes, and with no option picked in the
    selector of line 318 it leaves a selected index of 0 as it is. *)
Lemma render_default_selection svc inp (s : session) :
  let s' := state_after (render svc inp s) in
  routes s' = routes s /\
  (selected_route_index s = 0 -> route_choice inp = None ->
   selected_route_index s' = 0).
Proof.
  cbv zeta. unfold render, bind, get, attribute, ret, raise. cbv beta iota zeta.
  destruct (routes s) as [|r rs] eqn:Er; [now split|]. rewrite <- Er.
  destruct (all_coords s) as [coords|]; [|now split].
  destruct (all_places s) as [places|]; [|now split].
  cbv beta iota zeta.
  assert (C : exists r1 s1 log1,
            choose_route inp (routes s) s = (r1, s1, log1) /\
            routes s1 = routes s /\
            (selected_route_index s = 0 -> route_choice inp = None ->
             r1 = Return tt /\ selected_route_index s1 = 0)).
  { unfold choose_route, radio.
    destruct (1 <? Py.len (routes s)) eqn:E1.
    - unfold bind, get, modify. cbv beta iota zeta.
      destruct ((0 <=? selected_route_index s) &&
                (selected_route_index s <? Py.len (routes s))) eqn:E.
      + destruct (route_choice inp) as [k|] eqn:Ek.
        * destruct (Z.of_nat k <? Py.len (routes s));
            eexists _, _, _; (split; [reflexivity|]); (split; [reflexivity|]);
            intros _ H; discriminate H.
        * eexists _, _, _. split; [reflexivity|]. split; [reflexivity|].
          intros H0 _. split; [reflexivity | exact H0].
      + eexists _, _, _. split; [reflexivity|]. split; [reflexivity|].
        intros H0 _. rewrite H0 in E. apply Z.ltb_lt in E1.
        assert (E2 : (0 <? Py.len (routes s)) = true) by (apply Z.ltb_lt; lia).
        rewrite E2 in E. discriminate E.
    - eexists _, _, _. split; [reflexivity|]. split; [reflexivity|].
      intros H0 _. split; [reflexivity | exact H0]. }
  destruct C as (r1 & s1 & log1 & E & R1 & D1). rewrite E.
  destruct r1 as [[]|e].
  - pose proof (show_page_pure svc inp (routes s) coords places s1) as [Hp _].
    destruct (show_page svc inp (routes s) coords places s1) as [[[p|e] s2] log2];
      unfold state_after in *; cbn [fst snd] in *; subst s2;
      (split; [exact R1 | intros H0 Hc; now apply D1]).
  - unfold state_after. cbn [fst snd]. split; [exact R1|].
    intros H0 Hc. destruct (D1 H0 Hc) as [H _]. discriminate H.
Qed.

(** C1. When the routing client has answered a submission with a route set
    (here of more than one route), the set stored in the session is that set
    sorted by duration with ties in the order of the service: it is a
    permutation of the answer; the durations, as the field [duration] of the
    routes gives them, never decrease along it (a route without duration
    counting as infinitely long); the routes of any one duration keep their
    relative order; the selected index is set to 0; and the route at that
    index takes no longer than any route of the answer. The page drawn after
    that keeps the stored set, and with no option picked in the route
    selector the selected index is still 0 when the run ends: the first
    route is the default selection. *)
Theorem submit_stores_stable_sort svc inp s coords s1 log1 rs s2 log2 :
  collect_coords svc inp s = (Return coords, s1, log1) ->
  2 <= Py.len coords ->
  get_route svc coords (show_alternatives inp) s1 = (Return (Some rs), s2, log2) ->
  (1 < List.length rs)%nat ->
  let s' := state_after (on_get_route svc inp s) in
  let s'' := state_after (render svc inp s') in
  Permutation (routes s') rs /\
  StronglySorted no_longer (routes s') /\
  (forall d, filter (has_duration d) (routes s') = filter (has_duration d) rs) /\
  selected_route_index s' = 0 /\
  (exists first,
     Py.index (routes s') (selected_route_index s') = Some first /\
     Forall (no_longer first) rs) /\
  routes s'' = routes s' /\
  (route_choice inp = None -> selected_route_index s'' = 0).
Proof.
  intros Hc Hlen Hr Hn s' s''.
  destruct rs as [|r rs]; [simpl in Hn; lia|].
  assert (Es : routes s' = Py.sort key_lt duration_key (r :: rs) /\
               selected_route_index s' = 0).
  { unfold s'. rewrite (on_get_route_success _ _ _ _ _ _ _ _ _ _ Hc Hlen Hr).
    split; reflexivity. }
  destruct Es as [Er Ei].
  destruct (render_default_selection svc inp s') as [K1 K2]. fold s'' in K1, K2.
  split; [|split; [|split; [|split; [|split; [|split]]]]].
  - rewrite Er. apply sort_routes_perm.
  - rewrite Er. apply sort_routes_ascending.
  - intros d. rewrite Er. apply sort_routes_stable.
  - exact Ei.
  - rewrite Er, Ei.
    pose proof (sort_routes_perm (r :: rs)) as HP.
    pose proof (sort_routes_ascending (r :: rs)) as HS.
    destruct (Py.sort key_lt duration_key (r :: rs)) as [|f l] eqn:E.
    + apply Permutation_nil in HP. discriminate HP.
    + exists f. split; [reflexivity|].
      apply (Permutation_Forall HP). inversion HS; subst.
      constructor; [apply no_longer_refl | assumption].
  - exact K1.
  - intros Hn0. now apply K2.
Qed.

Lemma submit_stores_stable_sort_witness :
  let s' := state_after (on_get_route sample_services sample_first_visit
                           initial_session) in
  let s'' := state_after (render sample_services sample_first_visit s') in
  Permutation (routes s') sample_routes /\
  StronglySorted no_longer (routes s') /\
  (forall d, filter (has_duration d) (routes s') = filter (has_duration d) sample_routes) /\
  selected_route_index s' = 0 /\
  (exists first,
     Py.index (routes s') (selected_route_index s') = Some first /\
     Forall (no_longer first) sample_routes) /\
  routes s'' = routes s' /\
  selected_route_index s'' = 0.
Proof.
  intros s' s''.
  edestruct (submit_stores_stable_sort sample_services sample_first_visit initial_session)
    as (H1 & H2 & H3 & H4 & H5 & H6 & H7);
    [reflexivity | vm_compute; discriminate | reflexivity | simpl; lia |].
  split; [exact H1|]. split; [exact H2|]. split; [exact H3|]. split; [exact H4|].
  split; [exact H5|]. split; [exact H6|]. exact (H7 eq_refl).
Defined.

(** The example of the specification: durations 300, 100, 100, 50 are stored
    as 50, 100, 100, 300, the two routes of duration 100 in the order of the
    answer. *)
Example sample_routes_sorted :
  map (fun r => (geometry r, duration r))
      (routes (state_after (on_get_route sample_services (sample_inputs Coordinates)
                              initial_session))) =
  [(Some "d", Some 50%Q); (Some "b", Some 100%Q);
   (Some "c", Some 100%Q); (Some "a", Some 300%Q)].
Proof. reflexivity. Qed.

(** *** [get_fuel_stations_along_route] *)

(** The run once the query points are known. *)
Lemma get_fuel_stations_run {S} svc g radius (s : S) path pts :
  decode svc g = Some path -> path <> [] ->
  downsample_points path s = (Return pts, s, []) ->
  get_fuel_stations_along_route svc g radius s =
  match overpass svc radius pts with
  | inl msg =>
      (Return [], s,
       [Call (ReqOverpass radius pts);
        Display st_warning (MsgFuelNetworkIssue (RequestException msg))])
  | inr resp =>
      if (400 <=? status_code resp) && (status_code resp <? 600) then
        if status_code resp =? 504 then
          (Return [], s, [Call (ReqOverpass radius pts); Display st_warning MsgServerBusy])
        else
          (Return [], s,
           [Call (ReqOverpass radius pts);
            Display st_error (MsgFuelHttpError (reason resp) (status_code resp));
            Display st_code (MsgResponseText (text resp))])
      else
        match json resp with
        | None =>
            (Return [], s,
             [Call (ReqOverpass radius pts);
              Display st_warning
                (MsgFuelNetworkIssue (RequestException "JSONDecodeError"))])
        | Some data =>
            let elements := match data with Some l => l | None => [] end in
            (Return elements, s,
             [Call (ReqOverpass radius pts);
              Display st_info (MsgFoundStations (List.length elements) radius)])
        end
  end.
Proof.
  intros Hdec Hne Hd. unfold get_fuel_stations_along_route, polyline_decode.
  rewrite Hdec. destruct path as [|p ps] eqn:E; [now elim Hne|].
  unfold try_except, bind, ret. cbv beta iota zeta. unfold bind. rewrite Hd.
  unfold send, raise_for_status, json_of, bind, emit, ret, raise.
  destruct (overpass svc radius pts) as [msg|resp]; cbn; [reflexivity|].
  destruct ((400 <=? status_code resp) && (status_code resp <? 600)); cbn.
  - destruct (status_code resp =? 504); reflexivity.
  - destruct (json resp) as [[l|]|]; reflexivity.
Qed.

(** A geometry the decoder rejects: the exception leaves the function. *)
Lemma get_fuel_stations_undecoded {S} svc g radius (s : S) :
  decode svc g = None ->
  get_fuel_stations_along_route svc g radius s = (Raise IndexError, s, []).
Proof.
  intros E. unfold get_fuel_stations_along_route, polyline_decode, try_except, bind.
  rewrite E. reflexivity.
Qed.



(** *** Trip estimation *)

Lemma truthy_Qeq (x : Q) : Py.truthy x = negb (Qeq_bool x 0).
Proof.
  unfold Py.truthy. destruct (Qeq_bool x 0) eqn:E.
  - apply Qeq_bool_iff in E. unfold Qeq in E. simpl in E.
    replace (Qnum x) with 0 by lia. reflexivity.
  - apply Qeq_bool_neq in E. cbn [negb]. apply negb_true_iff, Z.eqb_neq.
    intros H. apply E. unfold Qeq. simpl. lia.
Qed.

(** C9. The estimation never raises [ZeroDivisionError]: with a fuel
    efficiency above 0 the fuel needed is the distance in kilometres divided
    by the efficiency (so fuel times efficiency gives back the distance);
    otherwise the fuel needed is 0, and so is the cost. The cost is the fuel
    needed times the fuel price. *)
Theorem fuel_needed_guarded (inp : inputs) (r : route) (s : session) :
  let distance_km := (or_default (distance r) 0 / 1000)%Q in
  let efficiency := fuel_efficiency inp in
  ((0 < efficiency)%Q ->
   trip_estimation inp r s =
     (Return (distance_km, (distance_km / efficiency)%Q,
              (distance_km / efficiency * fuel_price inp)%Q), s, []) /\
   (distance_km / efficiency * efficiency == distance_km)%Q) /\
  (~ (0 < efficiency)%Q ->
   trip_estimation inp r s =
     (Return (distance_km, 0%Q, (0 * fuel_price inp)%Q), s, []) /\
   (0 * fuel_price inp == 0)%Q).
Proof.
  intros distance_km efficiency. unfold trip_estimation, truediv, bind, ret, raise.
  fold efficiency. cbn [Qnum Z.eqb]. split.
  - intros H. pose proof H as Hb. apply ltb_lt in Hb. rewrite Hb.
    assert (Hn : (Qnum efficiency =? 0) = false).
    { apply Z.eqb_neq. unfold Qlt in H. simpl in H. lia. }
    rewrite Hn. split; [reflexivity|].
    rewrite Qmult_comm. apply Qmult_div_r. intros E. rewrite E in H. discriminate H.
  - intros H. destruct (Py.ltb 0 efficiency) eqn:Hb.
    + apply ltb_lt in Hb. contradiction.
    + split; [reflexivity | apply Qmult_0_l].
Qed.

Lemma fuel_needed_guarded_witness :
  trip_estimation (sample_inputs Coordinates) (sample_route "a" 300) initial_session =
  (Return ((12000 / 1000)%Q, (12000 / 1000 / 15)%Q, (12000 / 1000 / 15 * 175)%Q),
   initial_session, []) /\
  (12000 / 1000 / 15 * 15 == 12000 / 1000)%Q.
Proof.
  apply (proj1 (fuel_needed_guarded (sample_inputs Coordinates) (sample_route "a" 300)
                  initial_session)).
  reflexivity.
Defined.

(** *** Fuel-station markers *)

(** [lat or center.lat] of lines 142-143, in terms of the fields. *)
Lemma or_own_or_centre (own centre : option Q) :
  Py.or_ own centre = own_or_centre own centre.
Proof.
  unfold Py.or_, own_or_centre. destruct own as [x|]; [|reflexivity].
  rewrite truthy_Qeq. now destruct (Qeq_bool x 0).
Qed.

Lemma station_name_label (st : station) : station_name st = label_of st.
Proof. unfold station_name, label_of. destruct (st_tags st) as [[[name|]]|]; reflexivity. Qed.

Lemma station_marker_position (st : station) :
  station_marker st =
  match position_of st with
  | Some p => Some (station_marker_at p (label_of st))
  | None => None
  end.
Proof.
  unfold station_marker, position_of, resolved_lat, resolved_lon, station_marker_at.
  fold (centre_lat st) (centre_lon st).
  rewrite !or_own_or_centre, station_name_label.
  destruct (own_or_centre (st_lat st) (centre_lat st)) as [la|],
           (own_or_centre (st_lon st) (centre_lon st)) as [lo|];
    cbn [Py.truthy_opt andb]; rewrite ?truthy_Qeq, ?andb_false_r; try reflexivity.
  destruct (Qeq_bool la 0), (Qeq_bool lo 0); reflexivity.
Qed.




(** An element with a zero latitude of its own and a centre is drawn at the
    latitude of the centre: [or] falls back on a zero as on a missing value. *)
Example zero_latitude_with_centre :
  station_marker {| st_lat := Some 0%Q; st_lon := Some 139%Q;
                    st_center := Some {| center_lat := Some 35%Q;
                                         center_lon := Some 140%Q |};
                    st_tags := Some {| tag_name := Some "Eneos" |} |} =
  Some {| location := (35%Q, 139%Q); popup := "Eneos";
          color := "orange"; icon := "gas-pump" |}.
Proof. reflexivity. Qed.

(** *** The itinerary *)

Lemma count_from_app (start : Z) (n m : nat) :
  count_from start (n + m) =
  (count_from start n ++ count_from (start + Z.of_nat n) m)%list.
Proof.
  revert start. induction n as [|n IH]; intros start.
  - cbn. now rewrite Z.add_0_r.
  - cbn [count_from Nat.add List.app]. rewrite IH. do 3 f_equal. lia.
Qed.

Lemma leg_rows_spec leg_index n_legs sts total :
  map Step (fst (leg_rows leg_index n_legs sts total)) =
    count_from total (List.length sts) /\
  map Instruction (fst (leg_rows leg_index n_legs sts total)) =
    map (final_instruction leg_index n_legs) sts /\
  snd (leg_rows leg_index n_legs sts total) = total + Z.of_nat (List.length sts).
Proof.
  revert total. induction sts as [|st rest IH]; intros total.
  - cbn. repeat split. lia.
  - cbn [leg_rows]. specialize (IH (total + 1)).
    destruct (leg_rows leg_index n_legs rest (total + 1)) as [rs t].
    cbn [fst snd map List.length count_from Step Instruction] in *.
    destruct IH as (-> & -> & ->). repeat split. lia.
Qed.

Lemma legs_rows_spec n_legs ls total :
  map Step (legs_rows n_legs ls total) =
    count_from total (List.length (steps_of_legs ls)) /\
  map Instruction (legs_rows n_legs ls total) =
    map (fun '(i, st) => final_instruction i n_legs st) (steps_of_legs ls).
Proof.
  revert total. induction ls as [|[i l] rest IH]; intros total; [split; reflexivity|].
  cbn [legs_rows steps_of_legs flat_map].
  destruct (leg_rows_spec i n_legs (steps l) total) as (H1 & H2 & H3).
  destruct (leg_rows i n_legs (steps l) total) as [rs t]. cbn [fst snd] in *.
  destruct (IH t) as [IH1 IH2].
  rewrite !map_app, H1, H2, IH1, IH2, H3. split.
  - rewrite length_app, length_map, count_from_app. reflexivity.
  - rewrite map_map. reflexivity.
Qed.

Lemma steps_before_cons (l : leg) (ls : list leg) (k : nat) :
  steps_before (l :: ls) (Datatypes.S k) =
  (List.length (steps l) + steps_before ls k)%nat.
Proof. unfold steps_before. cbn [firstn map List.concat]. apply length_app. Qed.

(** The [j]-th step of the [k]-th leg, counted from 0, is paired with the
    index of its leg, at the position of the steps before it. *)
Lemma nth_steps_of_legs (ls : list leg) : forall (i0 : Z) (k : nat) leg j st,
  nth_error ls k = Some leg -> nth_error (steps leg) j = Some st ->
  nth_error (steps_of_legs (Py.enumerate_from i0 ls)) (steps_before ls k + j) =
  Some (i0 + Z.of_nat k, st).
Proof.
  induction ls as [|l ls IH]; intros i0 k leg j st Hk Hj.
  - destruct k; discriminate Hk.
  - cbn [Py.enumerate_from steps_of_legs flat_map].
    fold (steps_of_legs (Py.enumerate_from (i0 + 1) ls)).
    destruct k as [|k].
    + injection Hk as <-. unfold steps_before. cbn [firstn map List.concat List.length Nat.add].
      rewrite nth_error_app1 by (rewrite length_map; apply nth_error_Some; congruence).
      rewrite nth_error_map, Hj. cbn. do 2 f_equal. lia.
    + cbn [nth_error] in Hk. rewrite steps_before_cons.
      rewrite nth_error_app2 by (rewrite length_map; lia).
      rewrite length_map.
      replace (List.length (steps l) + steps_before ls k + j - List.length (steps l))%nat
        with (steps_before ls k + j)%nat by lia.
      rewrite (IH (i0 + 1) k leg j st Hk Hj). do 2 f_equal. lia.
Qed.

Lemma length_steps_of_legs (ls : list leg) (i0 : Z) :
  List.length (steps_of_legs (Py.enumerate_from i0 ls)) =
  List.length (List.concat (map steps ls)).
Proof.
  revert i0. induction ls as [|l ls IH]; intros i0; [reflexivity|].
  cbn [Py.enumerate_from steps_of_legs flat_map map List.concat].
  fold (steps_of_legs (Py.enumerate_from (i0 + 1) ls)).
  now rewrite !length_app, length_map, IH.
Qed.

(** C7. The step numbers of the itinerary are 1, 2, ... through all legs,
    one row for each step of each leg, and the instruction in the row of the
    [j]-th step of the [k]-th leg (both counted from 0) is
    [final_instruction] of that step with the leg index [k] and the number
    of legs of the route. With the type as shown ("depart", "new name" and
    "arrive" are shown as "Depart", "New Name" and "Arrive"): a departure
    reads "Depart on <road>", or "Depart" without a road name; a new name
    reads "Continue onto <road>";
    an arrival on a leg before the last reads "You have arrived at Waypoint
    <leg index + 1>."; an arrival on the last leg reads the instruction of
    the service, or "You have arrived at your final destination." without
    one; any other maneuver reads type, modifier and "onto <road>", the empty
    ones left out, joined by spaces. *)
Theorem itinerary_instructions :
  (forall r,
     map Step (create_route_details_df r) = count_from 1 (total_steps r) /\
     forall k leg j st,
       nth_error (legs r) k = Some leg -> nth_error (steps leg) j = Some st ->
       option_map Instruction
         (nth_error (create_route_details_df r) (steps_before (legs r) k + j)) =
       Some (final_instruction (Z.of_nat k) (Z.of_nat (List.length (legs r))) st)) /\
  (shown (Some "depart") "unknown" = "Depart" /\
   shown (Some "new name") "unknown" = "New Name" /\
   shown (Some "arrive") "unknown" = "Arrive") /\
  (forall i n st,
     maneuver_type_of st = "Depart" ->
     final_instruction i n st =
       if Py.nonempty (road_name_of st)
       then "Depart on " ++ road_name_of st else "Depart") /\
  (forall i n st,
     maneuver_type_of st = "New Name" ->
     final_instruction i n st = "Continue onto " ++ road_name_of st) /\
  (forall i n st,
     maneuver_type_of st = "Arrive" -> i < n - 1 ->
     final_instruction i n st =
       "You have arrived at Waypoint " ++ Py.str_int (i + 1) ++ ".") /\
  (forall i n st,
     maneuver_type_of st = "Arrive" -> n - 1 <= i ->
     final_instruction i n st =
       or_default (instruction_of st)
                  "You have arrived at your final destination.") /\
  (forall i n st,
     maneuver_type_of st <> "Depart" ->
     maneuver_type_of st <> "New Name" ->
     maneuver_type_of st <> "Arrive" ->
     final_instruction i n st =
       Py.join " "
         (filter Py.nonempty
            [maneuver_type_of st; modifier_of st;
             if Py.nonempty (road_name_of st)
             then "onto " ++ road_name_of st else ""])).
Proof.
  split; [|split; [|repeat split]].
  - intros r.
    destruct (legs_rows_spec (Py.len (legs r)) (Py.enumerate (legs r)) 1) as [H1 H2].
    fold (create_route_details_df r) in H1, H2. split.
    + rewrite H1. unfold Py.enumerate, total_steps. now rewrite length_steps_of_legs.
    + intros k leg j st Hk Hj. rewrite <- nth_error_map, H2, nth_error_map.
      unfold Py.enumerate. rewrite (nth_steps_of_legs (legs r) 0 k leg j st Hk Hj).
      reflexivity.
  - repeat split.
  - intros i n st H. unfold final_instruction. fold (maneuver_type_of st) (road_name_of st).
    unfold maneuver_type_of, shown in *. now rewrite H.
  - intros i n st H. unfold final_instruction.
    unfold maneuver_type_of, shown in *. now rewrite H.
  - intros i n st H Hi. unfold final_instruction.
    unfold maneuver_type_of, shown in *. rewrite H. cbn.
    apply Z.ltb_lt in Hi. now rewrite Hi.
  - intros i n st H Hi. unfold final_instruction.
    unfold maneuver_type_of, shown in *. rewrite H. cbn.
    apply Z.ltb_ge in Hi. now rewrite Hi.
  - intros i n st H1 H2 H3. unfold final_instruction.
    change (Py.title (Py.replace_char "_" " " (or_default
      match step_maneuver st with Some m => m_type m | None => None end "unknown")))
      with (maneuver_type_of st).
    change (Py.title (Py.replace_char "_" " " (or_default
      match step_maneuver st with Some m => m_modifier m | None => None end "")))
      with (modifier_of st).
    change (or_default (step_name st) "") with (road_name_of st).
    apply String.eqb_neq in H1, H2, H3. rewrite H1, H2, H3. cbn [andb].
    destruct (Py.nonempty (road_name_of st)) eqn:E;
      cbn [filter List.app]; [|destruct (Py.nonempty (modifier_of st)), (Py.nonempty (maneuver_type_of st)); reflexivity].
    destruct (road_name_of st); [discriminate E|]. reflexivity.
Qed.

Lemma itinerary_instructions_witness :
  map Step (create_route_details_df two_leg_route) = [1; 2; 3; 4; 5] /\
  option_map Instruction (nth_error (create_route_details_df two_leg_route) 2) =
    Some "You have arrived at Waypoint 1." /\
  option_map Instruction (nth_error (create_route_details_df two_leg_route) 4) =
    Some "You have arrived at your final destination." /\
  final_instruction 0 2 (sample_step "arrive") = "You have arrived at Waypoint 1." /\
  final_instruction 1 2 (sample_step "arrive") = "You have arrived at your final destination." /\
  final_instruction 0 1 (sample_step "depart") = "Depart on Main St" /\
  final_instruction 0 1 (sample_step "new name") = "Continue onto Main St" /\
  final_instruction 0 1 (sample_step "turn") = "Turn Left onto Main St".
Proof.
  destruct itinerary_instructions as (Hr & _ & Hd & Hn & Hw & Hf & Ho).
  destruct (Hr two_leg_route) as [Hsteps Hrows].
  split; [exact Hsteps|].
  split; [exact (Hrows 0%nat _ 2%nat (sample_step "arrive") eq_refl eq_refl)|].
  split; [exact (Hrows 1%nat _ 1%nat (sample_step "arrive") eq_refl eq_refl)|].
  split; [|split; [|split; [|split]]].
  - apply (Hw 0 2 (sample_step "arrive")); [reflexivity | lia].
  - apply (Hf 1 2 (sample_step "arrive")); [reflexivity | lia].
  - apply (Hd 0 1 (sample_step "depart")); reflexivity.
  - apply (Hn 0 1 (sample_step "new name")); reflexivity.
  - apply (Ho 0 1 (sample_step "turn")); discriminate.
Defined.

Example itinerary_two_legs :
  map (fun r => (Step r, Instruction r, Time r)) (create_route_details_df two_leg_route) =
  [(1, "Depart on Main St", "1m 5s");
   (2, "Turn Left onto Main St", "1m 5s");
   (3, "You have arrived at Waypoint 1.", "1m 5s");
   (4, "Continue onto Main St", "1m 5s");
   (5, "You have arrived at your final destination.", "1m 5s")].
Proof. reflexivity. Qed.

(* ================================================================= *)
(** ** Further properties of the program *)

(** *** The geocoding client *)

Lemma status_ok_test {J} (resp : response J) :
  (400 <=? status_code resp) && (status_code resp <? 600) = false <-> status_ok resp.
Proof.
  unfold status_ok. rewrite andb_false_iff, Z.leb_gt, Z.ltb_ge. lia.
Qed.

Ltac split_get_coords svc place :=
  unfold get_coords, try_except, bind, send, raise_for_status, json_of,
    float_field, emit, ret, raise;
  destruct (Py.nonempty place) eqn:?; cbn [negb];
  [ destruct (nominatim svc place) as [?msg|?resp] eqn:?; cbn;
    [ | destruct ((400 <=? status_code resp) && (status_code resp <? 600)) eqn:?; cbn;
        [ | destruct (json resp) as [[|?c ?cs]|] eqn:?; cbn;
            [ | destruct (cand_lat c) eqn:?, (cand_lon c) eqn:?; cbn | ] ] ]
  | ].

(** X1. [get_coords] leaves the state alone. For the empty place name it
    returns [(None, None)] without any request or message. For any other
    name its log starts with exactly one request to the geocoder for that
    name, followed by no further request and by at most one message. *)
Theorem get_coords_outcome {S} svc place (s : S) :
  let run := get_coords svc place s in
  state_after run = s /\
  (place = "" -> run = (Return (None, None), s, [])) /\
  (place <> "" ->
   exists shown,
     log_of run = Call (ReqNominatim place) :: shown /\
     filter is_call shown = [] /\ (List.length shown <= 1)%nat).
Proof.
  intros run. subst run. split; [|split].
  - split_get_coords svc place; reflexivity.
  - intros ->. reflexivity.
  - intros Hne. split_get_coords svc place;
      try (eexists; split; [reflexivity | split; [reflexivity | cbn; lia]]).
    destruct place; [now elim Hne | discriminate].
Qed.

(** X2. [get_coords] returns a latitude and a longitude exactly when the place
    name is not empty, the geocoder answered with a status outside 400-599
    and a non-empty list of candidates, and the first candidate carries a
    latitude and a longitude that read as numbers; the pair returned is that
    of the first candidate. *)
Theorem get_coords_found {S} svc place (s : S) lat lon :
  result_of (get_coords svc place s) = Return (Some lat, Some lon) <->
  place <> "" /\
  exists resp c cs,
    nominatim svc place = inr resp /\ status_ok resp /\
    json resp = Some (c :: cs) /\
    cand_lat c = Decimal lat /\ cand_lon c = Decimal lon.
Proof.
  split.
  - intros H. assert (Hne : place <> "").
    { intros ->. discriminate H. }
    split; [exact Hne|]. revert H.
    split_get_coords svc place; try discriminate.
    intros [= <- <-]. eexists _, _, _. repeat split; eauto.
    now apply status_ok_test.
  - intros (Hne & resp & c & cs & Hn & Hs & Hj & Hla & Hlo).
    apply status_ok_test in Hs.
    unfold get_coords, try_except, bind, send, raise_for_status, json_of,
      float_field, emit, ret, raise.
    destruct place; [now elim Hne|]. cbn [Py.nonempty negb].
    rewrite Hn. cbn. rewrite Hs. cbn. rewrite Hj. cbn. rewrite Hla, Hlo. reflexivity.
Qed.

(** X3. [get_coords] lets the errors of [float(...)] through, which neither
    [except] clause catches. It ends with [ValueError] exactly when the
    geocoder answered well and the latitude of the first candidate is text
    that does not read as a number, or its latitude reads as a number and
    its longitude is such text. And when the latitude of the first candidate
    is of a type [float] does not take (a JSON null, say), or its latitude
    reads as a number and its longitude is of such a type, it ends with
    [TypeError]. In both cases the request has been sent and no message is
    shown. *)
Theorem get_coords_raises {S} svc place (s : S) :
  (result_of (get_coords svc place s) = Raise ValueError <->
   place <> "" /\
   exists resp c cs,
     nominatim svc place = inr resp /\ status_ok resp /\
     json resp = Some (c :: cs) /\
     (cand_lat c = Malformed \/
      (exists lat, cand_lat c = Decimal lat) /\ cand_lon c = Malformed)) /\
  (result_of (get_coords svc place s) = Raise ValueError ->
   log_of (get_coords svc place s) = [Call (ReqNominatim place)]) /\
  (forall resp c cs,
     place <> "" ->
     nominatim svc place = inr resp -> status_ok resp ->
     json resp = Some (c :: cs) ->
     cand_lat c = NotText \/
     (exists lat, cand_lat c = Decimal lat) /\ cand_lon c = NotText ->
     get_coords svc place s = (Raise TypeError, s, [Call (ReqNominatim place)])).
Proof.
  split; [split|split].
  - intros H. assert (Hne : place <> "").
    { intros ->. discriminate H. }
    revert H. split_get_coords svc place; try discriminate; intros _;
      (split; [exact Hne|]);
      eexists _, _, _; repeat split; eauto; try (now apply status_ok_test).
  - intros (Hne & resp & c & cs & Hn & Hs & Hj & Hc).
    apply status_ok_test in Hs.
    unfold get_coords, try_except, bind, send, raise_for_status, json_of,
      float_field, emit, ret, raise.
    destruct place; [now elim Hne|]. cbn [Py.nonempty negb].
    rewrite Hn. cbn. rewrite Hs. cbn. rewrite Hj. cbn.
    destruct Hc as [Hla|[[lat Hla] Hlo]]; rewrite Hla; [reflexivity|].
    rewrite Hlo. reflexivity.
  - split_get_coords svc place; try discriminate; intros _; reflexivity.
  - intros resp c cs Hne Hn Hs Hj Hc. apply status_ok_test in Hs.
    unfold get_coords, try_except, bind, send, raise_for_status, json_of,
      float_field, emit, ret, raise.
    destruct place; [now elim Hne|]. cbn [Py.nonempty negb].
    rewrite Hn. cbn. rewrite Hs. cbn. rewrite Hj. cbn.
    destruct Hc as [Hla|[[lat Hla] Hlo]]; rewrite Hla; [reflexivity|].
    rewrite Hlo. reflexivity.
Qed.

(** *** The routing client *)

Ltac split_get_route svc coords alt :=
  unfold get_route, try_except, bind, send, raise_for_status, json_of, emit, ret, raise;
  destruct (osrm svc coords alt) as [?msg|?resp] eqn:?Ho; cbn;
  [ | destruct ((400 <=? status_code resp) && (status_code resp <? 600)) eqn:?Hs; cbn;
      [ | destruct (json resp) as [[[|?r ?rs]|]|] eqn:?Hj; cbn ] ].

(** X4. [get_route] leaves the state alone. It returns a list of routes
    exactly when the routing service answered with a status outside 400-599
    and a non-empty list under 'routes', and that list is the one returned.
    Its log starts with exactly one request for the given coordinates,
    followed by messages only; there is no message when the answer was well
    received and parsed, and the message of the [(KeyError, IndexError)]
    clause is never shown. *)
Theorem get_route_outcome {S} svc coords alt (s : S) :
  let run := get_route svc coords alt s in
  state_after run = s /\
  (forall rs,
     result_of run = Return (Some rs) <->
     rs <> [] /\
     exists resp, osrm svc coords alt = inr resp /\ status_ok resp /\
                  json resp = Some (Some rs)) /\
  (exists shown,
     log_of run = Call (ReqOsrm coords alt) :: shown /\
     filter is_call shown = [] /\
     (forall resp, osrm svc coords alt = inr resp -> status_ok resp ->
                   json resp <> None -> shown = []) /\
     ~ In (Display st_error MsgNoRouteCheckCoordinates) shown).
Proof.
  intros run. subst run. split; [|split].
  - split_get_route svc coords alt; reflexivity.
  - intros rs0. split.
    + split_get_route svc coords alt; try discriminate.
      intros [= <-]. split; [discriminate|]. exists resp.
      repeat split; auto. now apply status_ok_test.
    + intros (Hne & resp & Ho & Hs & Hj). apply status_ok_test in Hs.
      unfold get_route, try_except, bind, send, raise_for_status, json_of,
        emit, ret, raise.
      rewrite Ho. cbn. rewrite Hs. cbn. rewrite Hj.
      destruct rs0; [now elim Hne | reflexivity].
  - split_get_route svc coords alt;
      (eexists; split; [reflexivity|]; split; [reflexivity|]; split;
       [ intros r' E Hok Hjn;
         first [ reflexivity
               | discriminate E
               | injection E as <-;
                 first [ apply status_ok_test in Hok; congruence | congruence ] ]
       | cbn; intuition discriminate ]).
Qed.

(** *** The stored trip stays consistent *)

Lemma same_trip_refl s : same_trip s s.
Proof. reflexivity. Qed.

Lemma same_trip_trans s1 s2 s3 : same_trip s1 s2 -> same_trip s2 s3 -> same_trip s1 s3.
Proof. unfold same_trip. congruence. Qed.

Lemma same_but_index_refl s : same_but_index s s.
Proof. repeat split. Qed.

Lemma same_but_index_trans s1 s2 s3 :
  same_but_index s1 s2 -> same_but_index s2 s3 -> same_but_index s1 s3.
Proof. unfold same_but_index. intuition congruence. Qed.

Lemma keeps_trip_consistent_refl s : keeps_trip_consistent s s.
Proof. intros H; exact H. Qed.

Lemma keeps_trip_consistent_trans s1 s2 s3 :
  keeps_trip_consistent s1 s2 -> keeps_trip_consistent s2 s3 ->
  keeps_trip_consistent s1 s3.
Proof. unfold keeps_trip_consistent. auto. Qed.

Lemma keeps_places_refl s : keeps_places s s.
Proof. intros H; exact H. Qed.

Lemma keeps_places_trans s1 s2 s3 :
  keeps_places s1 s2 -> keeps_places s2 s3 -> keeps_places s1 s3.
Proof. unfold keeps_places. auto. Qed.

#[local] Hint Resolve same_trip_refl same_trip_trans same_but_index_refl
  same_but_index_trans keeps_trip_consistent_refl keeps_trip_consistent_trans
  keeps_places_refl keeps_places_trans any_event_holds : core.

Lemma same_trip_consistent s s' :
  same_trip s s' -> trip_consistent s -> trip_consistent s'.
Proof.
  unfold same_trip, trip_of, trip_consistent. intros [= -> -> -> ->]. auto.
Qed.

Lemma sidebar_same_trip inp : obeys same_trip any_event (sidebar inp).
Proof.
  assert (D : forall dests, obeys same_trip any_event (delete_buttons inp dests)).
  { induction dests as [|[i d] rest IH]; cbn [delete_buttons].
    - obey_step.
    - repeat first [ exact IH
                   | apply obeys_modify; [obey_side .. | intros s; reflexivity]
                   | obey_step ]. }
  unfold sidebar.
  repeat first [ apply D
               | apply obeys_modify; [obey_side .. | intros s; reflexivity]
               | obey_step ].
Qed.

Lemma render_same_but_index svc inp :
  obeys same_but_index any_event (render svc inp).
Proof.
  unfold render, choose_route, radio, show_page, trip_estimation.
  repeat first [ apply obeys_get_fuel_stations; obey_side
               | apply obeys_create_map; obey_side
               | apply obeys_modify; [obey_side .. | intros s; repeat split]
               | obey_step ].
Qed.

Lemma geocode_places_any (I : session -> session -> Prop) svc places acc :
  (forall s, I s s) -> (forall s1 s2 s3, I s1 s2 -> I s2 s3 -> I s1 s3) ->
  obeys I any_event (geocode_places svc places acc).
Proof.
  intros R T. revert acc.
  induction places as [|p rest IH]; intros acc; cbn [geocode_places].
  - obey_step.
  - apply obeys_bind; eauto.
    + apply obeys_get_coords; eauto.
    + intros [[lat|] [lon|]]; auto; repeat obey_step.
Qed.

Lemma len_app {A} (l m : list A) : Py.len (l ++ m) = Py.len l + Py.len m.
Proof. unfold Py.len. rewrite length_app. lia. Qed.

Lemma len_nonneg {A} (l : list A) : 0 <= Py.len l.
Proof. unfold Py.len. lia. Qed.

Lemma set_all_places_consistent v s :
  2 <= Py.len v -> trip_consistent s -> trip_consistent (set_all_places v s).
Proof.
  unfold trip_consistent. cbn. intros Hv (H1 & H2 & H3 & H4).
  split; [exact H1|]. split; [exact H2|]. split.
  - intros p [= <-]. exact Hv.
  - intros Hr. destruct (H4 Hr) as (Hi & Hc & _).
    split; [exact Hi|]. split; [exact Hc | discriminate].
Qed.

Lemma collect_coords_consistent svc inp :
  obeys keeps_trip_consistent any_event (collect_coords svc inp).
Proof.
  unfold collect_coords. destruct (method inp).
  - apply obeys_bind; [obey_side .. | apply obeys_get; obey_side | intros s0].
    apply obeys_bind; [obey_side .. | | intros _].
    + apply obeys_modify; [obey_side .. |].
      intros s Hs. apply set_all_places_consistent; [|exact Hs].
      rewrite !len_app. pose proof (len_nonneg (destinations s0)).
      change (Py.len [start_place inp]) with 1.
      change (Py.len [end_place inp]) with 1. lia.
    + repeat first [ apply geocode_places_any; obey_side | obey_step ].
  - apply obeys_bind; [obey_side .. | | intros _; obey_step].
    apply obeys_modify; [obey_side .. |].
    intros s Hs. apply set_all_places_consistent; [|exact Hs]. cbn. lia.
Qed.

Lemma collect_coords_sets_places svc inp (s : session) :
  all_places (state_after (collect_coords svc inp s)) <> None.
Proof.
  unfold collect_coords. destruct (method inp).
  - unfold bind at 1. unfold get at 1. cbv beta iota zeta.
    unfold bind at 1. unfold modify at 1. cbv beta iota zeta.
    set (s0 := set_all_places _ s).
    match goal with
    | |- context [bind ?m ?f s0] =>
        assert (H : obeys keeps_places any_event (bind m f))
    end.
    { repeat first [ apply geocode_places_any; obey_side | obey_step ]. }
    destruct (H s0) as [H0 _].
    match goal with
    | |- context [bind ?m ?f s0] => destruct (bind m f s0) as [[r s1] log1]
    end.
    cbn in *. apply H0. discriminate.
  - cbn. discriminate.
Qed.

Lemma get_route_pure svc coords alt (s : session) :
  state_after (get_route svc coords alt s) = s.
Proof.
  assert (H : obeys eq any_event (get_route (S := session) svc coords alt)).
  { apply obeys_get_route; try (intros; congruence); intros; exact I. }
  destruct (H s) as [H0 _]. now rewrite <- H0.
Qed.

Lemma stored_routes_consistent r rs coords s :
  2 <= Py.len coords -> trip_consistent s -> all_places s <> None ->
  trip_consistent
    (set_all_coords coords
       (set_selected_route_index 0
          (set_routes (Py.sort key_lt duration_key (r :: rs)) s))).
Proof.
  intros Hc (H1 & H2 & H3 & H4) Hp. unfold trip_consistent.
  cbn -[Py.sort Py.len]. split; [apply sort_routes_ascending|].
  split; [intros c [= <-]; exact Hc|]. split; [exact H3|].
  intros _. split; [|split; [discriminate | exact Hp]].
  unfold Py.len. rewrite sort_length. cbn [List.length]. lia.
Qed.

Lemma cleared_routes_consistent s :
  trip_consistent s -> trip_consistent (set_routes [] s).
Proof.
  intros (H1 & H2 & H3 & H4). unfold trip_consistent. cbn.
  split; [constructor|]. split; [exact H2|]. split; [exact H3|].
  intros H. now elim H.
Qed.

Lemma on_get_route_consistent svc inp (s : session) :
  trip_consistent s -> trip_consistent (state_after (on_get_route svc inp s)).
Proof.
  intros Hs.
  destruct (collect_coords_consistent svc inp s) as [Hk _].
  pose proof (collect_coords_sets_places svc inp s) as Hp.
  unfold on_get_route, bind.
  destruct (collect_coords svc inp s) as [[[coords|e] s1] log1];
    cbn in Hk, Hp; specialize (Hk Hs); [|exact Hk].
  destruct (2 <=? Py.len coords) eqn:E2; [|exact Hk].
  apply Z.leb_le in E2.
  pose proof (get_route_pure svc coords (show_alternatives inp) s1) as Hg.
  destruct (get_route svc coords (show_alternatives inp) s1)
    as [[[[[|r rs]|]|e] s2] log2]; cbn in Hg; subst s2.
  - now apply cleared_routes_consistent.
  - now apply stored_routes_consistent.
  - now apply cleared_routes_consistent.
  - exact Hk.
Qed.

Lemma render_consistent svc inp (s : session) :
  trip_consistent s -> trip_consistent (state_after (render svc inp s)).
Proof.
  intros Hs.
  assert (Hi : index_valid s) by (intros Hr; now apply Hs).
  pose proof (render_index_valid svc inp s Hi) as Hi'.
  destruct (render_same_but_index svc inp s) as [(E1 & E2 & E3 & _) _].
  destruct Hs as (H1 & H2 & H3 & H4).
  unfold trip_consistent. rewrite E1, E2, E3.
  split; [exact H1|]. split; [exact H2|]. split; [exact H3|].
  intros Hr. split; [|now apply H4].
  unfold index_valid in Hi'. rewrite E1 in Hi'. now apply Hi'.
Qed.

Lemma main_consistent svc inp (s : session) :
  trip_consistent s -> trip_consistent (state_after (main svc inp s)).
Proof.
  intros Hs. unfold main, bind.
  destruct (sidebar_same_trip inp s) as [H1 _].
  apply same_trip_consistent in H1; [|exact Hs].
  destruct (sidebar inp s) as [[[[]|e] s1] log1]; [|exact H1].
  cbn in H1.
  assert (H2 : trip_consistent
                 (state_after ((if is_pressed inp BtnGetRoute
                                then on_get_route svc inp else ret tt) s1))).
  { destruct (is_pressed inp BtnGetRoute); [|exact H1].
    now apply on_get_route_consistent. }
  destruct ((if is_pressed inp BtnGetRoute then on_get_route svc inp else ret tt) s1)
    as [[[[]|e] s2] log2]; [|exact H2].
  cbn in H2. pose proof (render_consistent svc inp s2 H2) as H3.
  destruct (render svc inp s2) as [[r s3] log3]. exact H3.
Qed.

Lemma script_run_consistent svc inp (s : session) :
  trip_consistent s -> trip_consistent (state_after (script_run svc inp s)).
Proof.
  intros Hs. unfold script_run.
  pose proof (main_consistent svc inp s Hs) as H1.
  destruct (main svc inp s) as [[[p|e] s1] log1]; [exact H1|].
  destruct e; try exact H1.
  pose proof (main_consistent svc (released inp) s1 H1) as H2.
  destruct (main svc (released inp) s1) as [[r s2] log2]. exact H2.
Qed.

Lemma reachable_consistent (s : session) : reachable s -> trip_consistent s.
Proof.
  induction 1 as [|svc inp s Hr IH].
  - unfold trip_consistent. cbn. split; [constructor|].
    split; [discriminate|]. split; [discriminate|]. intros H. now elim H.
  - now apply script_run_consistent.
Qed.

(** X5. In every state the application can reach, the stored routes are in
    ascending order of their field 'duration': no route takes longer than
    one stored after it, a route without duration counting as infinitely
    long. *)
Theorem stored_routes_ascending (s : session) :
  reachable s -> StronglySorted no_longer (routes s).
Proof. intros H. now apply reachable_consistent. Qed.

(** X6. In every state the application can reach, stored routes come with
    stored coordinates and stored place names, each with at least a start
    and an end: the page never reads a session key that is not set. *)
Theorem route_shown_with_trip (s : session) :
  reachable s -> routes s <> [] ->
  exists coords places,
    all_coords s = Some coords /\ all_places s = Some places /\
    2 <= Py.len coords /\ 2 <= Py.len places.
Proof.
  intros Hr Hn. destruct (reachable_consistent s Hr) as (_ & H2 & H3 & H4).
  destruct (H4 Hn) as (_ & Hc & Hp).
  destruct (all_coords s) as [c|] eqn:Ec; [|now elim Hc].
  destruct (all_places s) as [p|] eqn:Ep; [|now elim Hp].
  exists c, p. repeat split; auto.
Qed.

(** *** The page never asks for a rerun

    The exceptions of the modelled page are followed through its parts for
    one purpose: [st.rerun()] is called in the sidebar only, so a run that
    gets past the sidebar is not started again. *)

Section Throws.
Context {S : Type}.
Variable E : exn -> Prop.

Lemma throws_ret {A} (a : A) : throws (S := S) E (ret a).
Proof. intros s; exact I. Qed.

Lemma throws_get : throws (S := S) E get.
Proof. intros s; exact I. Qed.

Lemma throws_emit ev : throws (S := S) E (emit ev).
Proof. intros s; exact I. Qed.

Lemma throws_modify f : throws (S := S) E (modify f).
Proof. intros s; exact I. Qed.

Lemma throws_raise {A} e : E e -> throws (S := S) (A := A) E (raise e).
Proof. intros H s; exact H. Qed.

Lemma throws_bind {A B} (m : M S A) (f : A -> M S B) :
  throws E m -> (forall a, throws E (f a)) -> throws E (bind m f).
Proof.
  intros Hm Hf s. unfold bind. specialize (Hm s).
  destruct (m s) as [[[a|e] s1] log1]; cbn in *; [|exact Hm].
  specialize (Hf a s1). destruct (f a s1) as [[r s2] log2]. exact Hf.
Qed.

Lemma throws_try_except {A} (E' : exn -> Prop) (body : M S A) catches handler :
  throws E' body ->
  (forall e, E' e -> catches e = false -> E e) ->
  (forall e, throws E (handler e)) ->
  throws E (try_except body catches handler).
Proof.
  intros Hb Hc Hh s. unfold try_except. specialize (Hb s).
  destruct (body s) as [[[a|e] s1] log1]; cbn in *; [exact I|].
  destruct (catches e) eqn:Ec; [|cbn; auto].
  specialize (Hh e s1). destruct (handler e s1) as [[r s2] log2]. exact Hh.
Qed.

Lemma throws_weaken {A} (E' : exn -> Prop) (m : M S A) :
  (forall e, E' e -> E e) -> throws E' m -> throws E m.
Proof.
  intros H Hm s. specialize (Hm s).
  destruct (result_of (m s)); auto.
Qed.
End Throws.

Ltac throw_step :=
  match goal with
  | |- throws _ (bind _ _) => apply throws_bind; [ | intros ?]
  | |- throws _ (ret _) => apply throws_ret
  | |- throws _ get => apply throws_get
  | |- throws _ (emit _) => apply throws_emit
  | |- throws _ (modify _) => apply throws_modify
  | |- throws _ (raise _) => apply throws_raise
  | |- throws _ (match ?x with _ => _ end) => destruct x eqn:?
  | |- throws _ (if ?x then _ else _) => destruct x eqn:?
  | |- throws _ (let '(_, _) := ?x in _) => destruct x
  end.

Lemma throws_downsample_points {S} points :
  throws (S := S) no_exception (downsample_points points).
Proof.
  intros s. destruct (downsample_points_returns points s) as [p ->]. exact I.
Qed.

Lemma throws_get_fuel_stations {S} svc g radius :
  throws (S := S) only_IndexError (get_fuel_stations_along_route svc g radius).
Proof.
  unfold get_fuel_stations_along_route.
  apply throws_try_except with
    (E' := fun e => is_RequestException e = true \/ e = IndexError).
  - unfold send, raise_for_status, json_of, polyline_decode.
    repeat first [ apply (throws_weaken _ no_exception);
                   [intros ? []| apply throws_downsample_points]
                 | throw_step | left; reflexivity | right; reflexivity ].
  - intros e [H|H] Hc; [congruence | exact H].
  - intros e. repeat throw_step.
Qed.

Lemma throws_item {S A} (l : list A) i :
  throws (S := S) only_IndexError (item l i).
Proof. unfold item. destruct (Py.index l i); throw_step. reflexivity. Qed.

Lemma throws_waypoint_markers {S} names wps :
  throws (S := S) only_IndexError (waypoint_markers names wps).
Proof.
  induction wps as [|[i [lon lat]] wps IH]; cbn [waypoint_markers].
  - throw_step.
  - repeat first [ exact IH | apply throws_item | throw_step ].
Qed.

Lemma throws_route_lines {S} svc idx rs :
  throws (S := S) line_error (route_lines svc idx rs).
Proof.
  induction rs as [|[i r] rs IH]; cbn [route_lines]; unfold polyline_decode, PolyLine.
  - throw_step.
  - repeat first [ exact IH | throw_step | left; reflexivity | right; reflexivity ].
Qed.

Lemma throws_create_map {S} svc routes coords names idx st :
  throws (S := S) line_error (create_map svc routes coords names idx st).
Proof.
  unfold create_map.
  repeat first [ apply throws_route_lines
               | apply (throws_weaken _ only_IndexError);
                 [ intros e ->; now left
                 | first [apply throws_waypoint_markers | apply throws_item] ]
               | throw_step ].
Qed.

Lemma throws_trip_estimation inp r :
  throws no_exception (trip_estimation inp r).
Proof.
  unfold trip_estimation, truediv. cbn [Qnum Z.eqb].
  apply throws_bind; [throw_step|intros d].
  apply throws_bind; [|intros f; throw_step].
  destruct (Py.ltb 0 (fuel_efficiency inp)) eqn:E; [|throw_step].
  apply ltb_lt in E. unfold Qlt in E. cbn in E.
  destruct (Qnum (fuel_efficiency inp) =? 0) eqn:E0; [|throw_step].
  apply Z.eqb_eq in E0. lia.
Qed.

Lemma throws_show_page svc inp routes coords places :
  throws page_error (show_page svc inp routes coords places).
Proof.
  unfold show_page.
  apply throws_bind; [throw_step|intros s].
  apply throws_bind;
    [apply (throws_weaken _ only_IndexError); [intros e ->; now left | apply throws_item]|].
  intros r.
  apply throws_bind;
    [apply (throws_weaken _ no_exception); [intros ? [] | apply throws_trip_estimation]|].
  intros [[d f] c].
  apply throws_bind.
  - destruct (show_fuel inp); [|throw_step].
    apply throws_bind.
    + unfold subscript. destruct (geometry r); throw_step. right. now right.
    + intros g. apply (throws_weaken _ only_IndexError); [intros e ->; now left|].
      apply throws_get_fuel_stations.
  - intros st. apply throws_bind; [|intros m; throw_step].
    apply (throws_weaken _ line_error); [intros e [->| ->]; [now left | right; now left]|].
    apply throws_create_map.
Qed.

Lemma choose_route_returns inp (s : session) :
  index_valid s -> routes s <> [] ->
  exists s1 log1, choose_route inp (routes s) s = (Return tt, s1, log1).
Proof.
  intros Hi Hr. specialize (Hi Hr). unfold choose_route, radio.
  destruct (1 <? Py.len (routes s)); [|eexists _, _; reflexivity].
  unfold bind, get, modify. cbv beta iota zeta.
  destruct Hi as [H0 H1]. apply Z.leb_le in H0. apply Z.ltb_lt in H1.
  rewrite H0, H1. cbn [andb].
  destruct (route_choice inp) as [k|]; [|eexists _, _; reflexivity].
  destruct (Z.of_nat k <? Py.len (routes s)); eexists _, _; reflexivity.
Qed.

(** *** [create_map] *)

Lemma index_in_range {A} (l : list A) (i : Z) :
  0 <= i < Py.len l -> Py.index l i = nth_error l (Z.to_nat i) /\ Py.index l i <> None.
Proof.
  intros [H0 H1]. unfold Py.index.
  apply Z.leb_le in H0 as H0'. apply Z.ltb_lt in H1 as H1'. rewrite H0', H1'. cbn.
  split; [reflexivity|]. apply nth_error_Some. unfold Py.len in H1. lia.
Qed.

Lemma index_beyond {A} (l : list A) (i : Z) :
  Py.len l <= i -> Py.index l i = None.
Proof.
  intros H. unfold Py.index. pose proof (len_nonneg l).
  destruct (i <? Py.len l) eqn:E; [apply Z.ltb_lt in E; lia|].
  rewrite andb_false_r.
  destruct (i <? 0) eqn:E0; [apply Z.ltb_lt in E0; lia|].
  now rewrite andb_false_r.
Qed.

Lemma len_cons {A} (x : A) (l : list A) : Py.len (x :: l) = Py.len l + 1.
Proof. unfold Py.len. cbn [List.length]. lia. Qed.

Lemma index_first {A} (x : A) (l : list A) : Py.index (x :: l) 0 = Some x.
Proof.
  destruct (index_in_range (x :: l) 0) as [-> _]; [|reflexivity].
  unfold Py.len. cbn [List.length]. lia.
Qed.

Lemma index_last {A} (l : list A) (x : A) : Py.index (l ++ [x]) (-1) = Some x.
Proof.
  unfold Py.index. cbn [Z.leb Z.ltb Z.compare andb].
  rewrite len_app. change (Py.len [x]) with 1.
  pose proof (len_nonneg l).
  destruct (- (Py.len l + 1) <=? -1) eqn:E; [|apply Z.leb_gt in E; lia].
  cbn. replace (Z.to_nat (Py.len l + 1 + -1)) with (List.length l)
    by (unfold Py.len; lia).
  rewrite nth_error_app2 by lia. now rewrite Nat.sub_diag.
Qed.

Lemma index_empty {A} (i : Z) : Py.index (@nil A) i = None.
Proof.
  unfold Py.index. change (Py.len (@nil A)) with 0. cbn [Z.opp].
  destruct (0 <=? i) eqn:E0, (i <? 0) eqn:E1; cbn; try reflexivity.
  apply Z.leb_le in E0. apply Z.ltb_lt in E1. lia.
Qed.

Lemma len_middle {A} (l : list A) : Py.len (Py.middle l) = Z.max 0 (Py.len l - 2).
Proof.
  unfold Py.middle, Py.len. destruct l as [|x l]; [reflexivity|].
  cbn [tl]. destruct l as [|y l] using rev_ind; [reflexivity|].
  rewrite removelast_last, !length_cons, length_app. cbn [List.length]. lia.
Qed.

(** The loop of lines 124-126 over the waypoints numbered from [k]. *)
Lemma waypoint_markers_run {S} names (l : list point) (k : Z) (s : S) :
  0 <= k ->
  (k + Py.len l < Py.len names \/ l = [] ->
   exists ms, waypoint_markers names (Py.enumerate_from k l) s = (Return ms, s, []) /\
              List.length ms = List.length l) /\
  (Py.len names <= k + Py.len l -> l <> [] ->
   waypoint_markers names (Py.enumerate_from k l) s = (Raise IndexError, s, [])).
Proof.
  revert k. induction l as [|[lon lat] l IH]; intros k Hk.
  - split; [intros _; exists []; split; reflexivity | intros _ H; now elim H].
  - cbn [Py.enumerate_from waypoint_markers]. unfold bind, item.
    pose proof (len_cons (A := point) (lon, lat) l) as EL.
    pose proof (len_nonneg l) as Hl.
    assert (Hk1 : 0 <= k + 1) by lia.
    destruct (IH (k + 1) Hk1) as [IH1 IH2]. split.
    + intros [H|H]; [|discriminate H]. rewrite EL in H.
      destruct (index_in_range names (k + 1)) as [_ Hn]; [lia|].
      destruct (Py.index names (k + 1)) as [name|]; [|now elim Hn].
      cbn. destruct IH1 as (ms & -> & Hms).
      { destruct l; [now right | left; lia]. }
      cbn. eexists. split; [reflexivity|]. cbn. now rewrite Hms.
    + intros H _. rewrite EL in H.
      destruct (Z.lt_ge_cases (k + 1) (Py.len names)) as [Hlt|Hge].
      * destruct (index_in_range names (k + 1)) as [_ Hn]; [lia|].
        destruct (Py.index names (k + 1)) as [name|]; [|now elim Hn].
        cbn. rewrite IH2; [reflexivity | lia |].
        intros ->. change (Py.len (@nil point)) with 0 in H. lia.
      * rewrite index_beyond by lia. reflexivity.
Qed.

(** Whether the names cover the waypoints, and whether every route can be
    drawn, can be told. *)
Lemma classic_names_cover (coords : list point) (names : list string) :
  names_cover coords names \/ ~ names_cover coords names.
Proof.
  unfold names_cover.
  destruct coords as [|c cs]; [right; intros (H & _); now elim H|].
  destruct names as [|n ns]; [right; intros (_ & H & _); now elim H|].
  destruct (Z.le_gt_cases (Py.len (c :: cs)) (Py.len (n :: ns) + 1)) as [H|H].
  - left. repeat split; try discriminate. exact H.
  - right. intros (_ & _ & H'). lia.
Qed.

Lemma classic_drawable svc (routes : list route) :
  Forall (drawable svc) routes \/ ~ Forall (drawable svc) routes.
Proof.
  induction routes as [|r rs IH]; [left; constructor|].
  assert (D : drawable svc r \/ ~ drawable svc r).
  { unfold drawable. destruct (geometry r) as [g|]; [|now left].
    destruct (decode svc g) as [[|p ps]|].
    - right. intros (pts & [= <-] & H). now elim H.
    - left. exists (p :: ps). split; [reflexivity | discriminate].
    - right. intros (pts & H & _). discriminate H. }
  destruct D as [D|D], IH as [IH|IH].
  - left. now constructor.
  - right. intros H. inversion H; subst. contradiction.
  - right. intros H. inversion H; subst. contradiction.
  - right. intros H. inversion H; subst. contradiction.
Qed.

Lemma fuel_station_markers_length stations :
  List.length (fuel_station_markers stations) =
  List.length (filter positioned stations).
Proof.
  induction stations as [|st rest IH]; [reflexivity|].
  cbn [fuel_station_markers filter]. rewrite station_marker_position.
  unfold positioned. destruct (position_of st); cbn; now rewrite IH.
Qed.

Lemma map_snd_enumerate_from {A} (l : list A) (k : Z) :
  map snd (Py.enumerate_from k l) = l.
Proof.
  revert k. induction l as [|x l IH]; intros k; [reflexivity|].
  cbn [Py.enumerate_from map snd]. now rewrite IH.
Qed.

(** The loop of lines 129-138: it runs through exactly when every route can
    be drawn, and then draws [drawn_lines]; it stops with [IndexError] at a
    first geometry the decoder rejects and with [ValueError] at a first one
    without points. *)
Lemma route_lines_run {S} svc idx (rs : list (Z * route)) (s : S) :
  exists r,
    route_lines svc idx rs s = (r, s, []) /\
    (Forall (drawable svc) (map snd rs) -> r = Return (drawn_lines svc idx rs)) /\
    (~ Forall (drawable svc) (map snd rs) ->
     r = Raise IndexError \/ r = Raise ValueError).
Proof.
  induction rs as [|[i r0] rs IH].
  - exists (Return []). split; [reflexivity|]. split; [reflexivity|].
    intros H. elim H. constructor.
  - cbn [route_lines drawn_lines map snd]. destruct IH as (r & E & H1 & H2).
    destruct (geometry r0) as [g|] eqn:Eg.
    + unfold bind at 1. unfold polyline_decode at 1.
      destruct (decode svc g) as [[|p ps]|] eqn:Ed.
      * exists (Raise ValueError). split; [reflexivity|].
        split; [|intros _; now right].
        intros H. inversion H as [|? ? Hd _]; subst. unfold drawable in Hd.
        rewrite Eg in Hd. destruct Hd as (pts & Hp & Hne).
        rewrite Ed in Hp. injection Hp as <-. now elim Hne.
      * assert (D : drawable svc r0).
        { unfold drawable. rewrite Eg. exists (p :: ps). split; [exact Ed | discriminate]. }
        unfold ret at 1. cbv beta iota zeta. unfold bind at 1. unfold PolyLine at 1.
        unfold ret at 1. cbv beta iota zeta. unfold bind at 1. rewrite E.
        destruct r as [ls|e].
        -- exists (Return (line_of svc idx i r0 g :: drawn_lines svc idx rs)).
           unfold line_of. rewrite Ed. cbn [or_default].
           split; [|split; [reflexivity|]].
           ++ assert (Els : ls = drawn_lines svc idx rs).
              { destruct (classic_drawable svc (map snd rs)) as [Hd|Hd].
                - specialize (H1 Hd). now injection H1.
                - destruct (H2 Hd) as [H|H]; discriminate H. }
              subst ls. reflexivity.
           ++ intros H. elim H. constructor; [exact D|].
              destruct (classic_drawable svc (map snd rs)) as [Hd|Hd]; [exact Hd|].
              destruct (H2 Hd) as [H'|H']; discriminate H'.
        -- exists (Raise e). split; [reflexivity|]. split.
           ++ intros H. inversion H as [|? ? _ Hd]; subst.
              specialize (H1 Hd). discriminate H1.
           ++ intros _. destruct (classic_drawable svc (map snd rs)) as [Hd|Hd].
              ** specialize (H1 Hd). discriminate H1.
              ** destruct (H2 Hd) as [H|H]; injection H as ->; auto.
      * exists (Raise IndexError). split; [reflexivity|].
        split; [|intros _; now left].
        intros H. inversion H as [|? ? Hd _]; subst. unfold drawable in Hd.
        rewrite Eg in Hd. destruct Hd as (pts & Hp & _).
        rewrite Ed in Hp. discriminate Hp.
    + exists r. split; [exact E|]. split.
      * intros H. inversion H; subst. auto.
      * intros H. apply H2. intros Hd. apply H. constructor; [|exact Hd].
        unfold drawable. now rewrite Eg.
Qed.

Lemma create_map_run {S} svc routes coords names idx stations (s : S) :
  let run := create_map svc routes coords names idx stations s in
  state_after run = s /\ log_of run = [] /\
  (~ names_cover coords names -> result_of run = Raise IndexError) /\
  (names_cover coords names -> ~ Forall (drawable svc) routes ->
   result_of run = Raise IndexError \/ result_of run = Raise ValueError) /\
  (names_cover coords names -> Forall (drawable svc) routes ->
   exists m first_point last_point first_name last_name,
     result_of run = Return m /\
     hd_error coords = Some first_point /\ Py.index coords (-1) = Some last_point /\
     hd_error names = Some first_name /\ Py.index names (-1) = Some last_name /\
     nth_error (markers m) 0 =
       Some {| location := (snd first_point, fst first_point); popup := first_name;
               color := "green"; icon := "car" |} /\
     nth_error (markers m) 1 =
       Some {| location := (snd last_point, fst last_point); popup := last_name;
               color := "red"; icon := "flag-checkered" |} /\
     Py.len (markers m) =
       2 + Z.max 0 (Py.len coords - 2) + Py.len (filter positioned stations) /\
     lines m = drawn_lines svc idx (Py.enumerate routes)).
Proof.
  intros run. subst run. unfold create_map, names_cover.
  destruct coords as [|c0 coords'] eqn:Ec.
  { cbn. split; [reflexivity|]. split; [reflexivity|].
    split; [intros _; reflexivity|].
    split; [intros (H & _); now elim H | intros (H & _); now elim H]. }
  rewrite <- Ec. assert (E0 : Py.index coords 0 = Some c0) by (subst; apply index_first).
  assert (exists c1, Py.index coords (-1) = Some c1) as [c1 E1].
  { destruct (exists_last (l := coords)) as (l' & c1 & ->); [subst; discriminate|].
    exists c1. apply index_last. }
  unfold bind, item, Py.enumerate. rewrite E0, E1.
  cbv beta iota zeta delta [ret raise].
  destruct names as [|n0 names'] eqn:En.
  { rewrite !index_empty. cbn.
    split; [reflexivity|]. split; [reflexivity|].
    split; [intros _; reflexivity|].
    split; [intros (_ & H & _); now elim H | intros (_ & H & _); now elim H]. }
  rewrite <- En.
  assert (F0 : Py.index names 0 = Some n0) by (subst names; apply index_first).
  assert (exists n1, Py.index names (-1) = Some n1) as [n1 F1].
  { destruct (exists_last (l := names)) as (l' & n1 & ->); [subst; discriminate|].
    exists n1. apply index_last. }
  rewrite F0, F1. cbv beta iota zeta delta [ret raise].
  destruct (waypoint_markers_run names (Py.middle coords) 0 s (Z.le_refl 0)) as [W1 W2].
  assert (Hc : Py.len coords = Py.len coords' + 1)
    by (subst coords; apply len_cons).
  assert (Hn : Py.len names = Py.len names' + 1)
    by (subst names; apply len_cons).
  pose proof (len_nonneg coords'). pose proof (len_nonneg names').
  pose proof (len_middle coords) as Hm.
  destruct (Z.le_gt_cases (Py.len coords) (Py.len names + 1)) as [Hle|Hgt].
  - destruct W1 as (ms & -> & Hms).
    { left. lia. }
    cbv beta iota zeta.
    destruct (route_lines_run svc idx (Py.enumerate routes) s) as (r & Er & R1 & R2).
    unfold Py.enumerate in Er, R1, R2. rewrite map_snd_enumerate_from in R1, R2.
    rewrite Er.
    assert (Hcov : c0 :: coords' <> [] /\ n0 :: names' <> [] /\
                   Py.len coords <= Py.len names + 1).
    { repeat split; try discriminate. exact Hle. }
    destruct (classic_drawable svc routes) as [Hd|Hd].
    + rewrite (R1 Hd). cbv beta iota zeta.
      unfold state_after, log_of, result_of. cbn [fst snd List.app].
      split; [reflexivity|]. split; [reflexivity|].
      split; [intros Hnc; elim Hnc; subst; exact Hcov|].
      split; [intros _ Hnd; now elim Hnd|].
      intros _ _. eexists _, c0, c1, n0, n1.
      split; [reflexivity|]. split; [subst coords; reflexivity|].
      split; [reflexivity|]. split; [subst names; reflexivity|].
      split; [reflexivity|]. split; [reflexivity|]. split; [reflexivity|].
      cbn [markers lines]. split; [|reflexivity].
      rewrite !len_cons, len_app.
      replace (Py.len ms) with (Py.len (Py.middle coords))
        by (unfold Py.len; now rewrite Hms).
      replace (Py.len (fuel_station_markers stations))
        with (Py.len (filter positioned stations))
        by (unfold Py.len; now rewrite fuel_station_markers_length).
      lia.
    + unfold state_after, log_of, result_of.
      destruct (R2 Hd) as [-> | ->]; cbn [fst snd List.app];
        (split; [reflexivity|]; split; [reflexivity|];
         split; [intros Hnc; elim Hnc; subst; exact Hcov|];
         split; [intros _ _; auto | intros _ Hd'; now elim Hd]).
  - rewrite W2.
    + cbn. split; [reflexivity|]. split; [reflexivity|].
      split; [intros _; reflexivity|].
      split; [intros (_ & _ & Hcov); lia | intros (_ & _ & Hcov); lia].
    + lia.
    + intros Em. rewrite Em in Hm. change (Py.len (@nil point)) with 0 in Hm. lia.
Qed.

(** X8. [create_map] changes no state and shows no message. It returns a map
    exactly when neither the coordinates nor the names are empty, the names
    are at most one fewer than the coordinates, so that each waypoint
    between start and end finds the name at its position, and the geometry
    of every route that has one decodes, to at least one point. In the map
    it returns the first marker is the green one at the first coordinate,
    read as [lat, lon], with the first name, the second the red one at the
    last coordinate with the last name, and the number of markers is 2, plus
    the coordinates between start and end, plus the stations that have a
    position. Without a name for a waypoint it raises [IndexError]; with the
    names, it raises the [IndexError] of [polyline.decode] or the
    [ValueError] of [folium.PolyLine] when a geometry does not decode or
    decodes to no point. *)
Theorem create_map_needs_names {S} svc routes coords names idx stations (s : S) :
  let run := create_map svc routes coords names idx stations s in
  state_after run = s /\ log_of run = [] /\
  ((exists m, result_of run = Return m) <->
   names_cover coords names /\ Forall (drawable svc) routes) /\
  (forall m,
     result_of run = Return m ->
     exists first_point last_point first_name last_name,
       hd_error coords = Some first_point /\ Py.index coords (-1) = Some last_point /\
       hd_error names = Some first_name /\ Py.index names (-1) = Some last_name /\
       nth_error (markers m) 0 =
         Some {| location := (snd first_point, fst first_point); popup := first_name;
                 color := "green"; icon := "car" |} /\
       nth_error (markers m) 1 =
         Some {| location := (snd last_point, fst last_point); popup := last_name;
                 color := "red"; icon := "flag-checkered" |} /\
       Py.len (markers m) =
         2 + Z.max 0 (Py.len coords - 2) + Py.len (filter positioned stations)) /\
  (~ names_cover coords names -> result_of run = Raise IndexError) /\
  (names_cover coords names -> ~ Forall (drawable svc) routes ->
   result_of run = Raise IndexError \/ result_of run = Raise ValueError).
Proof.
  intros run.
  destruct (create_map_run svc routes coords names idx stations s)
    as (H1 & H2 & H3 & H4 & H5). fold run in H1, H2, H3, H4, H5.
  split; [exact H1|]. split; [exact H2|].
  destruct (classic_names_cover coords names) as [Hc|Hc];
    [destruct (classic_drawable svc routes) as [Hd|Hd]|].
  - destruct (H5 Hc Hd) as (m & fp & lp & fn & ln & Hm & Hrest).
    split; [split; [intros _; now split | intros _; now exists m]|].
    split; [|split; [intros Hn; now elim Hn | intros _ Hn; now elim Hn]].
    intros m' Hm'. rewrite Hm in Hm'. injection Hm' as <-.
    exists fp, lp, fn, ln.
    destruct Hrest as (A & B & C & D & E & F & G & _). repeat split; assumption.
  - split; [split; [|intros [_ Hd']; now elim Hd]|].
    + intros [m Hm]. destruct (H4 Hc Hd) as [H|H]; rewrite H in Hm; discriminate Hm.
    + split; [|split; [intros Hn; now elim Hn | intros _ _; now apply H4]].
      intros m Hm. destruct (H4 Hc Hd) as [H|H]; rewrite H in Hm; discriminate Hm.
  - specialize (H3 Hc).
    split; [split; [|intros [Hc' _]; now elim Hc]|].
    + intros [m Hm]. rewrite H3 in Hm. discriminate Hm.
    + split; [|split; [intros _; exact H3 | intros Hc'; now elim Hc]].
      intros m Hm. rewrite H3 in Hm. discriminate Hm.
Qed.

Lemma create_map_lines {S} svc routes coords names idx stations (s : S) m :
  result_of (create_map svc routes coords names idx stations s) = Return m ->
  lines m = drawn_lines svc idx (Py.enumerate routes) /\
  Forall (drawable svc) routes.
Proof.
  intros Hm.
  destruct (create_map_run svc routes coords names idx stations s)
    as (_ & _ & H3 & H4 & H5).
  destruct (classic_names_cover coords names) as [Hc|Hc];
    [destruct (classic_drawable svc routes) as [Hd|Hd]|].
  - destruct (H5 Hc Hd) as (m' & fp & lp & fn & ln & Hm' & Hrest).
    rewrite Hm in Hm'. injection Hm' as <-. split; [apply Hrest | exact Hd].
  - destruct (H4 Hc Hd) as [H|H]; rewrite H in Hm; discriminate Hm.
  - rewrite (H3 Hc) in Hm. discriminate Hm.
Qed.

Lemma drawn_lines_count svc idx k rs :
  List.length (drawn_lines svc idx (Py.enumerate_from k rs)) =
  List.length (filter has_geometry rs).
Proof.
  revert k. induction rs as [|r rs IH]; intros k; [reflexivity|].
  cbn [Py.enumerate_from drawn_lines filter]. unfold has_geometry at 1.
  destruct (geometry r); cbn [List.length]; now rewrite IH.
Qed.

Lemma drawn_lines_selected svc idx k rs :
  filter selected (drawn_lines svc idx (Py.enumerate_from k rs)) =
  match (if k <=? idx then nth_error rs (Z.to_nat (idx - k)) else None) with
  | Some r =>
      match geometry r with
      | Some g => [line_of svc idx idx r g]
      | None => []
      end
  | None => []
  end.
Proof.
  revert k. induction rs as [|r rs IH]; intros k.
  - cbn. destruct (k <=? idx); [now rewrite nth_error_nil | reflexivity].
  - cbn [Py.enumerate_from drawn_lines].
    destruct (Z.compare_spec k idx) as [->|Hlt|Hgt].
    + rewrite Z.leb_refl, Z.sub_diag. cbn [Z.to_nat nth_error].
      assert (R : filter selected (drawn_lines svc idx (Py.enumerate_from (idx + 1) rs)) = []).
      { rewrite IH. destruct (idx + 1 <=? idx) eqn:E; [apply Z.leb_le in E; lia|].
        reflexivity. }
      destruct (geometry r) as [g|]; [|exact R].
      cbn [filter]. unfold line_of at 1. cbn [selected]. rewrite Z.eqb_refl, R. reflexivity.
    + assert (E : (k <=? idx) = true) by (apply Z.leb_le; lia). rewrite E.
      replace (Z.to_nat (idx - k)) with (Datatypes.S (Z.to_nat (idx - (k + 1)))) by lia.
      cbn [nth_error].
      assert (E1 : (k + 1 <=? idx) = true) by (apply Z.leb_le; lia).
      specialize (IH (k + 1)). rewrite E1 in IH.
      destruct (geometry r) as [g|]; [|exact IH].
      cbn [filter]. unfold line_of at 1. cbn [selected].
      destruct (k =? idx) eqn:Ek; [apply Z.eqb_eq in Ek; lia | exact IH].
    + assert (E : (k <=? idx) = false) by (apply Z.leb_gt; lia). rewrite E.
      assert (E1 : (k + 1 <=? idx) = false) by (apply Z.leb_gt; lia).
      specialize (IH (k + 1)). rewrite E1 in IH.
      destruct (geometry r) as [g|]; [|exact IH].
      cbn [filter]. unfold line_of at 1. cbn [selected].
      destruct (k =? idx) eqn:Ek; [apply Z.eqb_eq in Ek; lia | exact IH].
Qed.

(** X9. The map [create_map] returns has one line per route that has a
    geometry, and at most one of them has the style of the selected route:
    the line of the route at the selected index, with its decoded geometry
    and the popup 'Selected Route: ' followed by its duration, when that
    route exists and has a geometry. The geometry of every route that has
    one decodes then, to at least one point. *)
Theorem one_line_per_route {S} svc routes coords names idx stations (s : S) m :
  result_of (create_map svc routes coords names idx stations s) = Return m ->
  List.length (lines m) = List.length (filter has_geometry routes) /\
  filter selected (lines m) =
    match (if 0 <=? idx then nth_error routes (Z.to_nat idx) else None) with
    | Some r =>
        match geometry r with
        | Some g =>
            [ {| locations := or_default (decode svc g) []; selected := true;
                 line_popup := "Selected Route: " ++ format_duration (duration r) |} ]
        | None => []
        end
    | None => []
    end /\
  Forall (drawable svc) routes.
Proof.
  intros H. destruct (create_map_lines _ _ _ _ _ _ _ _ H) as [-> Hd].
  unfold Py.enumerate.
  split; [apply drawn_lines_count|]. split; [|exact Hd].
  rewrite drawn_lines_selected, Z.sub_0_r.
  destruct (if 0 <=? idx then nth_error routes (Z.to_nat idx) else None) as [r|];
    [|reflexivity].
  destruct (geometry r); [|reflexivity].
  unfold line_of. now rewrite Z.eqb_refl.
Qed.

(** *** A cancelled submission and the names on the map *)

Lemma get_coords_not_found_run svc place (s : session) :
  result_of (get_coords svc place s) = Return (None, None) ->
  exists log0, get_coords svc place s = (Return (None, None), s, log0).
Proof.
  intros H. rewrite (get_coords_run svc place s) in *. cbn in H.
  rewrite H. eexists. reflexivity.
Qed.

(** The loop stops at a first place that is not found. *)
Lemma geocode_places_first_fails svc place rest acc (s : session) :
  result_of (get_coords svc place s) = Return (None, None) ->
  exists log0,
    geocode_places svc (place :: rest) acc s =
    (Return (false, acc), s,
     (log0 ++ [Display st_sidebar_error (MsgPlaceNotFound place)])%list) /\
    log0 = log_of (get_coords svc place s).
Proof.
  intros H. destruct (get_coords_not_found_run svc place s H) as [log0 E].
  exists log0. cbn [geocode_places]. unfold bind. rewrite E. cbn. split; reflexivity.
Qed.

Lemma on_get_route_start_not_found svc inp (s : session) :
  method inp = PlaceName ->
  result_of (get_coords svc (start_place inp) s) = Return (None, None) ->
  exists log1,
    on_get_route svc inp s =
    (Return tt,
     set_all_places ([start_place inp] ++ destinations s ++ [end_place inp])%list s,
     log1).
Proof.
  intros Hm Hf. unfold on_get_route, bind.
  rewrite (collect_coords_name svc inp s Hm). cbv zeta.
  set (places := ([start_place inp] ++ destinations s ++ [end_place inp])%list).
  rewrite (get_coords_result svc _ s (set_all_places places s)) in Hf.
  destruct (geocode_places_first_fails svc (start_place inp)
              (destinations s ++ [end_place inp])%list [] _ Hf) as (log0 & E & _).
  change places with (start_place inp :: destinations s ++ [end_place inp])%list at 1.
  rewrite E. cbn. eexists. reflexivity.
Qed.

Lemma show_page_uncovered svc inp routes coords places (s : session) :
  show_fuel inp = false ->
  0 <= selected_route_index s < Py.len routes ->
  ~ names_cover coords places ->
  result_of (show_page svc inp routes coords places s) = Raise IndexError.
Proof.
  intros Hf Hi Hn. unfold show_page. unfold bind at 1. unfold get at 1.
  cbv beta iota zeta. unfold bind at 1. unfold item at 1.
  destruct (index_in_range routes (selected_route_index s) Hi) as [_ Hr].
  destruct (Py.index routes (selected_route_index s)) as [r|]; [|now elim Hr].
  cbn [ret]. cbv beta iota zeta. unfold bind at 1.
  pose proof (throws_trip_estimation inp r s) as T.
  assert (P : obeys eq any_event (trip_estimation inp r)).
  { unfold trip_estimation.
    repeat first [ apply obeys_truediv; intros; congruence
                 | apply obeys_bind; [intros; congruence | | intros ?]
                 | apply obeys_ret; intros; congruence
                 | match goal with |- obeys _ _ (if ?x then _ else _) => destruct x end ]. }
  destruct (P s) as [P1 _].
  destruct (trip_estimation inp r s) as [[[[[d f] c]|e] s1] log1]; cbn in T, P1;
    [|now elim T]. subst s1.
  cbv beta iota zeta. rewrite Hf. unfold bind at 1. cbn [ret]. cbv beta iota zeta.
  unfold bind.
  destruct (create_map_run svc routes coords places (selected_route_index s) [] s)
    as (E1 & E2 & E4 & _).
  specialize (E4 Hn).
  destruct (create_map svc routes coords places (selected_route_index s) [] s)
    as [[[m|e] s2] log2]; cbn in E4 |- *; [discriminate E4 | now injection E4 as ->].
Qed.

Lemma render_uncovered svc inp (s : session) coords places :
  trip_consistent s -> routes s <> [] ->
  all_coords s = Some coords -> all_places s = Some places ->
  show_fuel inp = false -> ~ names_cover coords places ->
  result_of (render svc inp s) = Raise IndexError.
Proof.
  intros Hs Hr Hc Hp Hf Hn.
  assert (Hi : index_valid s).
  { intros _. destruct Hs as (_ & _ & _ & H4). now apply H4. }
  unfold render. unfold bind at 1. unfold get at 1.
  cbv beta iota zeta.
  destruct (routes s) as [|r rs] eqn:Er; [now elim Hr|]. rewrite <- Er in *.
  rewrite Hc, Hp. cbn [attribute]. unfold bind, ret. cbv beta iota zeta.
  pose proof (choose_route_index_valid inp s Hi) as Hi'.
  assert (Hsame : routes (state_after (choose_route inp (routes s) s)) = routes s).
  { unfold choose_route, radio. destruct (1 <? Py.len (routes s)); [|reflexivity].
    unfold bind, get, modify. cbv beta iota zeta.
    destruct ((0 <=? selected_route_index s) && (selected_route_index s <? Py.len (routes s)));
      [|reflexivity].
    destruct (route_choice inp) as [k|]; [|reflexivity].
    destruct (Z.of_nat k <? Py.len (routes s)); reflexivity. }
  destruct (choose_route_returns inp s Hi Hr) as (s1 & log1 & E).
  rewrite E in Hi', Hsame |- *. cbn in Hi', Hsame.
  assert (Hv : 0 <= selected_route_index s1 < Py.len (routes s)).
  { rewrite <- Hsame. apply Hi'. rewrite Hsame. exact Hr. }
  pose proof (show_page_uncovered svc inp (routes s) coords places s1 Hf Hv Hn) as Hp'.
  destruct (show_page svc inp (routes s) coords places s1) as [[[p|e] s2] log2];
    cbn in Hp' |- *; [discriminate Hp' | now injection Hp' as ->].
Qed.

(** X10. A failed submission in name mode breaks a page that was showing
    routes. In a reachable state with stored routes, pressing 'Get Route'
    with a start the geocoder does not find stores the names of the new
    request (line 281) but keeps the routes and coordinates of the old one;
    when the old trip has at least two waypoints more than the new request,
    [create_map] then has no name for one of the old waypoints and the run
    ends with [IndexError]. *)
Theorem stale_names_break_page svc inp (s : session) coords :
  reachable s -> routes s <> [] -> all_coords s = Some coords ->
  method inp = PlaceName -> pressed inp = Some BtnGetRoute ->
  show_fuel inp = false ->
  result_of (get_coords svc (start_place inp) s) = Return (None, None) ->
  Py.len (destinations s) + 3 < Py.len coords ->
  let run := script_run svc inp s in
  result_of run = Raise IndexError /\
  routes (state_after run) = routes s /\
  all_coords (state_after run) = Some coords /\
  all_places (state_after run) =
    Some ([start_place inp] ++ destinations s ++ [end_place inp])%list.
Proof.
  intros Hr Hne Hc Hm Hp Hf Hfail Hlen run.
  apply reachable_consistent in Hr.
  destruct (sidebar_on_submit inp s Hp Hm) as (s1 & Es & Hd & Hr1 & Hi1 & Hc1).
  assert (G : is_pressed inp BtnGetRoute = true) by (unfold is_pressed; now rewrite Hp).
  rewrite (get_coords_result svc _ s s1) in Hfail.
  destruct (on_get_route_start_not_found svc inp s1 Hm Hfail) as (log1 & Eg).
  rewrite Hd in Eg.
  set (places := ([start_place inp] ++ destinations s ++ [end_place inp])%list) in *.
  set (s2 := set_all_places places s1) in *.
  assert (C2 : trip_consistent s2).
  { pose proof (on_get_route_consistent svc inp s1) as H. rewrite Eg in H.
    apply H. destruct (sidebar_same_trip inp s) as [H1 _]. rewrite Es in H1.
    now apply (same_trip_consistent s s1). }
  assert (R2 : routes s2 = routes s) by exact Hr1.
  assert (A2 : all_coords s2 = Some coords) by (cbn; now rewrite Hc1).
  assert (P2 : all_places s2 = Some places) by reflexivity.
  assert (N2 : ~ names_cover coords places).
  { intros (_ & _ & H). unfold places in H. rewrite !len_app in H.
    change (Py.len [start_place inp]) with 1 in H.
    change (Py.len [end_place inp]) with 1 in H. lia. }
  assert (Hne2 : routes s2 <> []) by now rewrite R2.
  pose proof (render_uncovered svc inp s2 coords places C2 Hne2 A2 P2 Hf N2) as Hrender.
  destruct (render_same_but_index svc inp s2) as [(B1 & B2 & B3 & _) _].
  assert (Em : exists s3 log3,
             main svc inp s = (Raise IndexError, s3, log3) /\
             routes s3 = routes s /\ all_coords s3 = Some coords /\
             all_places s3 = Some places).
  { unfold main, bind. rewrite Es, G. cbv beta iota zeta. rewrite Eg.
    cbv beta iota zeta.
    destruct (render svc inp s2) as [[r3 s3] log3].
    unfold state_after, result_of in Hrender, B1, B2, B3.
    cbn [fst snd] in Hrender, B1, B2, B3.
    subst r3. eexists _, _. split; [reflexivity|].
    rewrite B1, B2, B3. auto. }
  destruct Em as (s3 & log3 & Em & Q1 & Q2 & Q3).
  subst run. unfold script_run. rewrite Em. cbn. auto.
Qed.

(** *** What a run sends to the services *)

Lemma same_stored_refl s : same_stored s s.
Proof. repeat split. Qed.

Lemma same_stored_trans s1 s2 s3 :
  same_stored s1 s2 -> same_stored s2 s3 -> same_stored s1 s3.
Proof. unfold same_stored. intuition congruence. Qed.

Lemma no_trip_request_display w m : no_trip_request (Display w m).
Proof. exact I. Qed.

Lemma no_trip_request_overpass r p : no_trip_request (Call (ReqOverpass r p)).
Proof. exact I. Qed.

Lemma not_overpass_display w m : not_overpass_call (Display w m).
Proof. reflexivity. Qed.

Lemma not_overpass_nominatim p : not_overpass_call (Call (ReqNominatim p)).
Proof. reflexivity. Qed.

Lemma not_overpass_osrm c a : not_overpass_call (Call (ReqOsrm c a)).
Proof. reflexivity. Qed.

#[local] Hint Resolve same_stored_refl same_stored_trans no_trip_request_display
  no_trip_request_overpass not_overpass_display not_overpass_nominatim
  not_overpass_osrm : core.

Lemma filter_none {A} (f : A -> bool) (P : A -> Prop) (l : list A) :
  (forall a, P a -> f a = false) -> Forall P l -> filter f l = [].
Proof.
  intros H. induction 1 as [|a l Ha _ IH]; [reflexivity|].
  cbn. now rewrite (H a Ha).
Qed.

Lemma sidebar_stored (P : event -> Prop) inp :
  (forall w m, P (Display w m)) -> obeys same_stored P (sidebar inp).
Proof.
  intros HP.
  assert (D : forall dests, obeys same_stored P (delete_buttons inp dests)).
  { induction dests as [|[i d] rest IH]; cbn [delete_buttons].
    - obey_step.
    - repeat first [ exact IH
                   | apply obeys_modify; [obey_side .. | intros s; repeat split]
                   | obey_step ]. }
  unfold sidebar.
  repeat first [ apply D
               | apply obeys_modify; [obey_side .. | intros s; repeat split]
               | obey_step ].
Qed.

Lemma render_stored (P : event -> Prop) svc inp :
  (forall w m, P (Display w m)) ->
  (show_fuel inp = false \/ forall r p, P (Call (ReqOverpass r p))) ->
  obeys same_stored P (render svc inp).
Proof.
  intros HP HO. unfold render, choose_route, radio, show_page, trip_estimation.
  destruct HO as [HO|HO].
  - rewrite HO.
    repeat first [ apply obeys_create_map; obey_side
                 | apply obeys_modify; [obey_side .. | intros s; repeat split]
                 | obey_step ].
  - repeat first [ apply obeys_get_fuel_stations; obey_side
                 | apply obeys_create_map; obey_side
                 | apply obeys_modify; [obey_side .. | intros s; repeat split]
                 | obey_step ].
Qed.

Lemma main_without_submit_stored svc inp :
  is_pressed inp BtnGetRoute = false ->
  obeys same_stored no_trip_request (main svc inp).
Proof.
  intros H. unfold main. rewrite H.
  repeat first [ apply sidebar_stored; obey_side
               | apply render_stored; [obey_side | right; obey_side]
               | obey_step ].
Qed.

(** X11. A run in which 'Get Route' is not pressed sends no request to the
    geocoder or to the routing service, and leaves the stored routes,
    coordinates and place names as they were. *)
Theorem run_without_submit svc inp (s : session) :
  pressed inp <> Some BtnGetRoute ->
  let run := script_run svc inp s in
  routes (state_after run) = routes s /\
  all_coords (state_after run) = all_coords s /\
  all_places (state_after run) = all_places s /\
  filter is_trip_request (log_of run) = [].
Proof.
  intros Hp run.
  assert (G : is_pressed inp BtnGetRoute = false).
  { unfold is_pressed. destruct (pressed inp) as [[]|]; try reflexivity. now elim Hp. }
  assert (Q : forall l, Forall no_trip_request l -> filter is_trip_request l = []).
  { intros l Hl. apply (filter_none _ no_trip_request); [|exact Hl].
    intros [[]|] H; try reflexivity; now elim H. }
  subst run. unfold script_run.
  destruct (main_without_submit_stored svc inp G s) as [(R1 & R2 & R3) L1].
  destruct (main svc inp s) as [[[p|e] s1] log1]; cbn in R1, R2, R3, L1.
  { cbn. auto. }
  destruct e; try (cbn; auto).
  destruct (main_without_submit_stored svc (released inp) eq_refl s1) as [(T1 & T2 & T3) L2].
  destruct (main svc (released inp) s1) as [[r s2] log2]. cbn in *.
  repeat split; try congruence. apply Q, Forall_app. now split.
Qed.



Lemma geocode_places_obeys (I : session -> session -> Prop) (P : event -> Prop)
    svc places acc :
  (forall s, I s s) -> (forall s1 s2 s3, I s1 s2 -> I s2 s3 -> I s1 s3) ->
  (forall w m, P (Display w m)) -> (forall p, P (Call (ReqNominatim p))) ->
  obeys I P (geocode_places svc places acc).
Proof.
  intros R T HD HN. revert acc.
  induction places as [|p rest IH]; intros acc; cbn [geocode_places].
  - obey_step.
  - apply obeys_bind; eauto.
    + apply obeys_get_coords; eauto.
    + intros [[lat|] [lon|]]; auto; repeat obey_step.
Qed.

Lemma sidebar_events (P : event -> Prop) inp :
  (forall w m, P (Display w m)) -> obeys any_change P (sidebar inp).
Proof.
  intros HP.
  assert (R : forall s, any_change s s) by (intros; exact I).
  assert (T : forall s1 s2 s3, any_change s1 s2 -> any_change s2 s3 -> any_change s1 s3)
    by (intros; exact I).
  assert (D : forall dests, obeys any_change P (delete_buttons inp dests)).
  { induction dests as [|[i d] rest IH]; cbn [delete_buttons].
    - obey_step.
    - repeat first [ exact IH
                   | apply obeys_modify; [obey_side .. | intros s; exact I]
                   | obey_step ]. }
  unfold sidebar.
  repeat first [ apply D
               | apply obeys_modify; [obey_side .. | intros s; exact I]
               | obey_step ].
Qed.

Lemma on_get_route_events (P : event -> Prop) svc inp :
  (forall w m, P (Display w m)) -> (forall p, P (Call (ReqNominatim p))) ->
  (forall c a, P (Call (ReqOsrm c a))) ->
  obeys any_change P (on_get_route svc inp).
Proof.
  intros HD HN HO.
  assert (R : forall s, any_change s s) by (intros; exact I).
  assert (T : forall s1 s2 s3, any_change s1 s2 -> any_change s2 s3 -> any_change s1 s3)
    by (intros; exact I).
  unfold on_get_route, collect_coords.
  repeat first [ apply geocode_places_obeys; obey_side
               | apply obeys_get_route; obey_side
               | apply obeys_modify; [obey_side .. | intros s; exact I]
               | obey_step ].
Qed.

Lemma render_events (P : event -> Prop) svc inp :
  (forall w m, P (Display w m)) ->
  (show_fuel inp = false \/ forall r p, P (Call (ReqOverpass r p))) ->
  obeys any_change P (render svc inp).
Proof.
  intros HP HO.
  assert (R : forall s, any_change s s) by (intros; exact I).
  assert (T : forall s1 s2 s3, any_change s1 s2 -> any_change s2 s3 -> any_change s1 s3)
    by (intros; exact I).
  unfold render, choose_route, radio, show_page, trip_estimation.
  destruct HO as [HO|HO].
  - rewrite HO.
    repeat first [ apply obeys_create_map; obey_side
                 | apply obeys_modify; [obey_side .. | intros s; exact I]
                 | obey_step ].
  - repeat first [ apply obeys_get_fuel_stations; obey_side
                 | apply obeys_create_map; obey_side
                 | apply obeys_modify; [obey_side .. | intros s; exact I]
                 | obey_step ].
Qed.

Lemma main_without_fuel svc inp :
  show_fuel inp = false -> obeys any_change not_overpass_call (main svc inp).
Proof.
  intros H.
  assert (R : forall s, any_change s s) by (intros; exact I).
  assert (T : forall s1 s2 s3, any_change s1 s2 -> any_change s2 s3 -> any_change s1 s3)
    by (intros; exact I).
  unfold main.
  repeat first [ apply sidebar_events; obey_side
               | apply on_get_route_events; obey_side
               | apply render_events; [obey_side | left; exact H]
               | obey_step ].
Qed.

(** X12. With 'Show fuel stations' unchecked, a run sends no request to the
    Overpass service, whatever else happens in it. *)
Theorem no_station_search_unless_asked svc inp (s : session) :
  show_fuel inp = false ->
  filter is_overpass_call (log_of (script_run svc inp s)) = [].
Proof.
  intros Hf.
  assert (Q : forall l, Forall not_overpass_call l -> filter is_overpass_call l = []).
  { intros l Hl. apply (filter_none _ not_overpass_call); [|exact Hl]. auto. }
  unfold script_run.
  destruct (main_without_fuel svc inp Hf s) as [_ L1].
  destruct (main svc inp s) as [[[p|e] s1] log1]; cbn in L1.
  { cbn. auto. }
  destruct e; try (cbn; auto).
  destruct (main_without_fuel svc (released inp) Hf s1) as [_ L2].
  destruct (main svc (released inp) s1) as [[r s2] log2]. cbn in *.
  apply Q, Forall_app. now split.
Qed.

(** *** Editing the waypoints *)

Lemma pop_firstn_skipn {A} (l : list A) i :
  Py.pop l i = (firstn i l ++ skipn (S i) l)%list.
Proof.
  revert i. induction l as [|x l IH]; intros [|i]; cbn [Py.pop]; try reflexivity.
  - cbn. now rewrite IH.
Qed.

Lemma delete_buttons_pressed inp i (l : list string) k (s : session) :
  pressed inp = Some (BtnDelete i) ->
  (k <= i < k + List.length l)%nat ->
  delete_buttons inp (Py.enumerate_from (Z.of_nat k) l) s =
    (Raise Rerun, set_destinations (Py.pop (destinations s) i) s, []).
Proof.
  intros Hp. revert k. induction l as [|x l IH]; intros k Hk; cbn in Hk; [lia|].
  cbn [Py.enumerate_from delete_buttons].
  unfold is_pressed at 1. rewrite Hp, Nat2Z.id.
  destruct (Nat.eqb_spec i k) as [->|Hne].
  - reflexivity.
  - unfold bind at 1. unfold ret at 1. cbv beta iota zeta.
    replace (Z.of_nat k + 1) with (Z.of_nat (S k)) by lia.
    rewrite IH by lia. reflexivity.
Qed.

Lemma sidebar_released_run inp (s : session) :
  method inp = PlaceName ->
  exists s1,
    sidebar (released inp) s = (Return tt, s1, []) /\
    destinations s1 = destinations s /\
    show_add_destination_input s1 =
      Some (or_default (show_add_destination_input s) false) /\
    same_stored s s1.
Proof.
  intros Hm. unfold sidebar. cbn [method released]. rewrite Hm.
  unfold bind at 1. unfold get at 1. cbv beta iota zeta.
  unfold bind at 1. rewrite delete_buttons_idle by reflexivity.
  cbv beta iota zeta. unfold bind, get, modify, ret, raise.
  destruct (show_add_destination_input s) as [[]|] eqn:E; cbn; rewrite ?E; cbn;
    eexists; (split; [reflexivity | repeat split; cbn; now rewrite ?E]).
Qed.

Lemma main_released_keeps svc inp (s : session) :
  method inp = PlaceName ->
  let run := main svc (released inp) s in
  destinations (state_after run) = destinations s /\
  show_add_destination_input (state_after run) =
    Some (or_default (show_add_destination_input s) false).
Proof.
  intros Hm. destruct (sidebar_released_run inp s Hm) as (s1 & E & D & F & _).
  unfold main. cbn [is_pressed released pressed].
  unfold bind, ret. rewrite E. cbv beta iota zeta.
  destruct (render_same_but_index svc (released inp) s1) as [(_ & _ & _ & D2 & F2) _].
  destruct (render svc (released inp) s1) as [[r s2] log2].
  unfold state_after in *. cbn [fst snd] in *. rewrite D2, F2, D, F. now split.
Qed.

Lemma script_run_rerun svc inp (s s1 : session) log1 :
  method inp = PlaceName ->
  sidebar inp s = (Raise Rerun, s1, log1) ->
  let run := script_run svc inp s in
  destinations (state_after run) = destinations s1 /\
  show_add_destination_input (state_after run) =
    Some (or_default (show_add_destination_input s1) false).
Proof.
  intros Hm E.
  assert (M1 : main svc inp s = (Raise Rerun, s1, log1)).
  { unfold main, bind. now rewrite E. }
  unfold script_run. rewrite M1.
  pose proof (main_released_keeps svc inp s1 Hm) as K. cbv zeta in K.
  destruct (main svc (released inp) s1) as [[r s2] log2]. exact K.
Qed.

(** X13. In name mode, pressing the delete button of waypoint [i] leaves the
    list of destinations without its [i]-th entry, the others in their
    order, after the rerun that the button asks for. *)
Theorem delete_removes_waypoint svc inp (s : session) i :
  method inp = PlaceName -> pressed inp = Some (BtnDelete i) ->
  (i < List.length (destinations s))%nat ->
  destinations (state_after (script_run svc inp s)) =
    (firstn i (destinations s) ++ skipn (S i) (destinations s))%list.
Proof.
  intros Hm Hp Hi.
  assert (E : sidebar inp s =
              (Raise Rerun, set_destinations (Py.pop (destinations s) i) s, [])).
  { unfold sidebar. rewrite Hm. unfold bind at 1. unfold get at 1.
    cbv beta iota zeta. unfold bind at 1. unfold Py.enumerate.
    change 0 with (Z.of_nat 0).
    rewrite (delete_buttons_pressed inp i (destinations s) 0 s Hp) by lia.
    reflexivity. }
  destruct (script_run_rerun svc inp s _ _ Hm E) as [D _].
  rewrite D. cbn. apply pop_firstn_skipn.
Qed.

Lemma is_pressed_other inp b b' :
  pressed inp = Some b -> is_pressed inp b' = true -> b' = b.
Proof.
  intros Hp. unfold is_pressed. rewrite Hp.
  destruct b, b'; try discriminate; try reflexivity.
  intros H. apply Nat.eqb_eq in H. now subst.
Qed.

Lemma is_pressed_not inp b b' :
  pressed inp = Some b -> b' <> b -> is_pressed inp b' = false.
Proof.
  intros Hp Hn. destruct (is_pressed inp b') eqn:E; [|reflexivity].
  elim Hn. eapply is_pressed_other; eauto.
Qed.

Lemma is_pressed_self inp b : pressed inp = Some b -> is_pressed inp b = true.
Proof.
  intros Hp. unfold is_pressed. rewrite Hp. destruct b; try reflexivity.
  apply Nat.eqb_refl.
Qed.

Ltac sidebar_start Hm Hp :=
  unfold sidebar; rewrite Hm; unfold bind at 1; unfold get at 1;
  cbv beta iota zeta; unfold bind at 1;
  rewrite delete_buttons_idle
    by (intros; apply (is_pressed_not _ _ _ Hp); discriminate);
  cbv beta iota zeta.

(** X14. In name mode, with the add-destination input open, pressing 'Add'
    with a non-empty name appends that name to the destinations and closes
    the input. *)
Theorem add_appends_waypoint svc inp (s : session) :
  method inp = PlaceName -> pressed inp = Some BtnAdd ->
  show_add_destination_input s = Some true ->
  new_destination inp <> "" ->
  let run := script_run svc inp s in
  destinations (state_after run) = (destinations s ++ [new_destination inp])%list /\
  show_add_destination_input (state_after run) = Some false.
Proof.
  intros Hm Hp Hf Hn.
  assert (E : sidebar inp s =
              (Raise Rerun,
               set_show_add_destination_input false
                 (set_destinations (destinations s ++ [new_destination inp])%list s),
               [])).
  { sidebar_start Hm Hp.
    unfold bind, get, modify, ret, raise, is_pressed. rewrite Hp, Hf.
    cbn. rewrite Hf. cbn.
    destruct (new_destination inp); [now elim Hn|]. reflexivity. }
  exact (script_run_rerun svc inp s _ _ Hm E).
Qed.


Lemma render_never_reruns svc inp : throws not_Rerun (render svc inp).
Proof.
  unfold render. apply throws_bind; [throw_step|intros s].
  destruct (routes s) eqn:Er; [throw_step|]. rewrite <- Er.
  apply throws_bind.
  { unfold attribute. destruct (all_coords s); throw_step. discriminate. }
  intros c. apply throws_bind.
  { unfold attribute. destruct (all_places s); throw_step. discriminate. }
  intros n. apply throws_bind.
  { unfold choose_route, radio. repeat throw_step; discriminate. }
  intros _. apply throws_bind; [|intros ?; throw_step].
  apply (throws_weaken _ page_error); [|apply throws_show_page].
  intros e [-> | [-> | ->]]; discriminate.
Qed.

Lemma script_run_no_rerun svc inp (s s1 : session) log1 :
  sidebar inp s = (Return tt, s1, log1) ->
  is_pressed inp BtnGetRoute = false ->
  exists r s2 log2,
    script_run svc inp s = (r, s2, (log1 ++ log2)%list) /\ same_but_index s1 s2.
Proof.
  intros E G.
  pose proof (render_never_reruns svc inp s1) as T.
  destruct (render_same_but_index svc inp s1) as [B _].
  assert (M1 : main svc inp s =
               let '(r, s2, log2) := render svc inp s1 in (r, s2, (log1 ++ log2)%list)).
  { unfold main. rewrite G. unfold bind, ret. rewrite E. cbv beta iota zeta.
    destruct (render svc inp s1) as [[r s2] log2]. reflexivity. }
  unfold script_run. rewrite M1.
  destruct (render svc inp s1) as [[r s2] log2]. cbn in T, B.
  exists r, s2, log2. split; [|exact B].
  destruct r as [p|e]; [reflexivity|]. destruct e; try reflexivity. now elim T.
Qed.

(** X15. In name mode, with the add-destination input open, pressing 'Add'
    with an empty name changes no destination, leaves the input open and
    shows the warning 'Please enter a destination.' in the sidebar. *)
Theorem empty_destination_refused svc inp (s : session) :
  method inp = PlaceName -> pressed inp = Some BtnAdd ->
  show_add_destination_input s = Some true ->
  new_destination inp = "" ->
  let run := script_run svc inp s in
  destinations (state_after run) = destinations s /\
  show_add_destination_input (state_after run) = Some true /\
  In (Display st_sidebar_warning MsgEnterDestination) (log_of run).
Proof.
  intros Hm Hp Hf Hn run.
  assert (E : sidebar inp s =
              (Return tt, s, [Display st_sidebar_warning MsgEnterDestination])).
  { sidebar_start Hm Hp.
    unfold bind, get, modify, ret, raise, emit, is_pressed. rewrite Hp, Hf, Hn.
    cbn. rewrite Hf. cbn. reflexivity. }
  destruct (script_run_no_rerun svc inp s _ _ E) as (r & s2 & log2 & R & B).
  { apply (is_pressed_not _ _ _ Hp). discriminate. }
  subst run. rewrite R. destruct B as (_ & _ & _ & D & F).
  unfold state_after, log_of. cbn [fst snd].
  split; [exact D|]. split; [congruence|]. now left.
Qed.

(** X16. In name mode, pressing 'Add Destination' while the input is closed
    opens it, and pressing 'Cancel' while it is open closes it; neither
    changes the destinations. *)
Theorem add_destination_input_toggles svc inp (s : session) (visible : bool) :
  method inp = PlaceName ->
  (pressed inp = Some BtnAddDestination /\
   show_add_destination_input s <> Some true /\ visible = true) \/
  (pressed inp = Some BtnCancel /\
   show_add_destination_input s = Some true /\ visible = false) ->
  let run := script_run svc inp s in
  show_add_destination_input (state_after run) = Some visible /\
  destinations (state_after run) = destinations s.
Proof.
  intros Hm H run.
  assert (E : sidebar inp s =
              (Raise Rerun, set_show_add_destination_input visible s, [])).
  { destruct H as [(Hp & Hf & ->)|(Hp & Hf & ->)]; sidebar_start Hm Hp;
      unfold bind, get, modify, ret, raise, emit, is_pressed; rewrite Hp.
    - destruct (show_add_destination_input s) as [[]|] eqn:F;
        [now elim Hf| |]; cbn; rewrite ?F; cbn; reflexivity.
    - rewrite Hf. cbn. rewrite Hf. cbn. reflexivity. }
  destruct (script_run_rerun svc inp s _ _ Hm E) as [D F].
  subst run. split; [exact F | exact D].
Qed.

(** *** A submission, from the form to the stored routes *)

Lemma get_route_run {S} svc coords alt (s : S) :
  exists msgs,
    get_route svc coords alt s =
      (routing_answer svc coords alt, s, Call (ReqOsrm coords alt) :: msgs) /\
    filter is_trip_request msgs = [] /\
    (routing_answer svc coords alt = Return None \/
     exists r rs, routing_answer svc coords alt = Return (Some (r :: rs))).
Proof.
  unfold routing_answer, result_of.
  split_get_route svc coords alt;
    (eexists; split; [reflexivity|]; split; [reflexivity|]; eauto).
Qed.

Lemma get_coords_found_run {S} svc place lat lon (s : S) :
  result_of (get_coords svc place tt) = Return (Some lat, Some lon) ->
  get_coords svc place s = (Return (Some lat, Some lon), s, [geocoding_call place]).
Proof.
  unfold result_of, geocoding_call.
  split_get_coords svc place; try discriminate; intros [= <- <-]; reflexivity.
Qed.

Lemma geocode_places_all_found svc places coords acc (s : session) :
  Forall2 (found_at svc) places coords ->
  geocode_places svc places acc s =
    (Return (true, (acc ++ coords)%list), s, map geocoding_call places).
Proof.
  intros H. revert acc. induction H as [|p [lon lat] places coords Hp _ IH]; intros acc.
  - cbn. now rewrite app_nil_r.
  - cbn [geocode_places]. unfold bind at 1.
    rewrite (get_coords_found_run svc p lat lon s Hp). cbv beta iota zeta.
    rewrite IH. rewrite <- app_assoc. reflexivity.
Qed.

Lemma geocode_places_stops svc pre bad post coords acc (s : session) :
  Forall2 (found_at svc) pre coords ->
  result_of (get_coords svc bad tt) = Return (None, None) ->
  geocode_places svc (pre ++ bad :: post) acc s =
    (Return (false, (acc ++ coords)%list), s,
     (map geocoding_call pre ++ log_of (get_coords svc bad tt) ++
      [Display st_sidebar_error (MsgPlaceNotFound bad)])%list).
Proof.
  intros H Hb. revert acc. induction H as [|p [lon lat] pre coords Hp _ IH]; intros acc.
  - cbn [List.app map geocode_places]. unfold bind at 1.
    rewrite (get_coords_run svc bad s), Hb. cbv beta iota zeta.
    unfold bind, emit, ret. cbn. now rewrite !app_nil_r.
  - cbn [List.app map geocode_places]. unfold bind at 1.
    rewrite (get_coords_found_run svc p lat lon s Hp). cbv beta iota zeta.
    rewrite IH. rewrite <- app_assoc. reflexivity.
Qed.

Lemma filter_geocoding_calls places :
  filter is_call (map geocoding_call places) = map geocoding_call places.
Proof. induction places as [|p l IH]; [reflexivity|]. cbn. now rewrite IH. Qed.

Lemma filter_geocoding_requests places :
  filter is_trip_request (map geocoding_call places) = map geocoding_call places.
Proof. induction places as [|p l IH]; [reflexivity|]. cbn. now rewrite IH. Qed.

Lemma collect_coords_all_found svc inp (s : session) coords :
  method inp = PlaceName ->
  let places := ([start_place inp] ++ destinations s ++ [end_place inp])%list in
  Forall2 (found_at svc) places coords ->
  collect_coords svc inp s =
    (Return coords, set_all_places places s, map geocoding_call places).
Proof.
  intros Hm places H. rewrite (collect_coords_name svc inp s Hm).
  fold places. rewrite (geocode_places_all_found svc places coords [] _ H).
  reflexivity.
Qed.

Lemma on_get_route_run svc inp (s0 : session) names coords log1 :
  collect_coords svc inp s0 = (Return coords, set_all_places names s0, log1) ->
  2 <= Py.len coords ->
  let alt := show_alternatives inp in
  exists s2 logm,
    on_get_route svc inp s0 =
      (Return tt, s2, (log1 ++ Call (ReqOsrm coords alt) :: logm)%list) /\
    filter is_trip_request logm = [] /\
    all_places s2 = Some names /\ destinations s2 = destinations s0 /\
    (forall r rs, routing_answer svc coords alt = Return (Some (r :: rs)) ->
       routes s2 = Py.sort key_lt duration_key (r :: rs) /\
       all_coords s2 = Some coords) /\
    (routing_answer svc coords alt = Return None ->
       routes s2 = [] /\ all_coords s2 = all_coords s0 /\
       In (Display st_error MsgNoRoutesFound) logm).
Proof.
  intros Hc Hl alt.
  destruct (get_route_run svc coords alt (set_all_places names s0))
    as (msgs & Eg & Fm & Hans).
  destruct Hans as [Hn|(r & rs & Hsome)].
  - exists (set_routes [] (set_all_places names s0)),
           (msgs ++ [Display st_error MsgNoRoutesFound])%list.
    split; [|split; [|split; [|split; [|split]]]].
    + unfold on_get_route, bind. rewrite Hc.
      destruct (2 <=? Py.len coords) eqn:E; [|apply Z.leb_gt in E; lia].
      fold alt. rewrite Eg, Hn. unfold modify, emit. cbn. reflexivity.
    + rewrite filter_app, Fm. reflexivity.
    + reflexivity.
    + reflexivity.
    + intros r rs H. rewrite Hn in H. discriminate H.
    + intros _. split; [reflexivity|]. split; [reflexivity|].
      apply in_or_app. right. now left.
  - exists (set_all_coords coords
             (set_selected_route_index 0
                (set_routes (Py.sort key_lt duration_key (r :: rs))
                   (set_all_places names s0)))), msgs.
    split; [|split; [|split; [|split; [|split]]]].
    + apply (on_get_route_success svc inp s0 coords _ log1 r rs _ _ Hc Hl).
      fold alt. now rewrite Eg, Hsome.
    + exact Fm.
    + reflexivity.
    + reflexivity.
    + intros r' rs' H. rewrite Hsome in H. injection H as <- <-.
      split; reflexivity.
    + intros H. rewrite Hsome in H. discriminate H.
Qed.

Lemma render_nothing svc inp (s : session) :
  routes s = [] -> render svc inp s = (Return None, s, []).
Proof. intros H. unfold render, bind, get. cbv beta iota zeta. now rewrite H. Qed.

Lemma script_run_submit svc inp (s s0 s2 : session) log0 log2 :
  is_pressed inp BtnGetRoute = true ->
  sidebar inp s = (Return tt, s0, log0) ->
  on_get_route svc inp s0 = (Return tt, s2, log2) ->
  exists r s3 log3,
    script_run svc inp s = (r, s3, (log0 ++ log2 ++ log3)%list) /\
    render svc inp s2 = (r, s3, log3).
Proof.
  intros G E O.
  pose proof (render_never_reruns svc inp s2) as T.
  assert (M1 : main svc inp s =
               let '(r, s3, log3) := render svc inp s2 in
               (r, s3, (log0 ++ log2 ++ log3)%list)).
  { unfold main. rewrite G. unfold bind. rewrite E. cbv beta iota zeta.
    rewrite O. cbv beta iota zeta.
    destruct (render svc inp s2) as [[r s3] log3]. reflexivity. }
  unfold script_run. rewrite M1.
  destruct (render svc inp s2) as [[r s3] log3]. cbn in T.
  exists r, s3, log3. split; [|reflexivity].
  destruct r as [p|e]; [reflexivity|]. destruct e; try reflexivity. now elim T.
Qed.

Lemma submission_run svc inp (s s0 : session) names coords log1 :
  is_pressed inp BtnGetRoute = true ->
  sidebar inp s = (Return tt, s0, []) ->
  collect_coords svc inp s0 = (Return coords, set_all_places names s0, log1) ->
  2 <= Py.len coords ->
  filter is_trip_request log1 = log1 ->
  let alt := show_alternatives inp in
  let run := script_run svc inp s in
  all_places (state_after run) = Some names /\
  destinations (state_after run) = destinations s0 /\
  filter is_trip_request (log_of run) = (log1 ++ [Call (ReqOsrm coords alt)])%list /\
  (forall r rs, routing_answer svc coords alt = Return (Some (r :: rs)) ->
     routes (state_after run) = Py.sort key_lt duration_key (r :: rs) /\
     all_coords (state_after run) = Some coords) /\
  (routing_answer svc coords alt = Return None ->
     result_of run = Return None /\ routes (state_after run) = [] /\
     all_coords (state_after run) = all_coords s0 /\
     In (Display st_error MsgNoRoutesFound) (log_of run)).
Proof.
  intros G E Hc Hl F1 alt run.
  destruct (on_get_route_run svc inp s0 names coords log1 Hc Hl)
    as (s2 & logm & O & Fm & P2 & D2 & Hsome & Hnone).
  destruct (script_run_submit svc inp s s0 s2 _ _ G E O) as (r & s3 & log3 & R & Rn).
  assert (RS : obeys same_stored no_trip_request (render svc inp)).
  { apply render_stored; [intros; exact I | right; intros; exact I]. }
  destruct (RS s2) as [St L3].
  destruct (render_same_but_index svc inp s2) as [B _].
  rewrite Rn in St, L3, B. unfold state_after, log_of in St, L3, B.
  cbn [fst snd] in St, L3, B.
  destruct St as (R3 & C3 & P3). destruct B as (_ & _ & _ & D3 & _).
  assert (F3 : filter is_trip_request log3 = []).
  { apply (filter_none _ no_trip_request); [|exact L3].
    intros [[]|] H; try reflexivity; now elim H. }
  subst run. rewrite R. unfold state_after, log_of, result_of. cbn [fst snd].
  split; [congruence|]. split; [congruence|]. split; [|split].
  - cbn [List.app]. rewrite !filter_app. cbn [filter is_trip_request].
    rewrite F1, Fm, F3. fold alt. now rewrite app_nil_r.
  - intros r0 rs0 H. destruct (Hsome r0 rs0 H) as [H1 H2]. split; congruence.
  - intros H. destruct (Hnone H) as (H1 & H2 & H3).
    rewrite (render_nothing svc inp s2 H1) in Rn. injection Rn as <- <- <-.
    split; [reflexivity|]. split; [exact H1|]. split; [exact H2|].
    cbn [List.app]. apply in_or_app. left. apply in_or_app. right. right. exact H3.
Qed.

(** X17. A submission in name mode whose places are all found: the places
    (start, destinations in order, end) are stored as names; the requests of
    the run to the geocoder and the routing service are one geocoding
    request per place, in trip order, and then one routing request for the
    coordinates found, each as (lon, lat), in the same order. When the
    routing client returns routes, they are stored sorted by duration
    together with the coordinates; when it returns none, the stored routes
    are emptied, the error 'No routes found...' is shown, no page is drawn,
    and the stored coordinates stay those of the previous trip. *)
Theorem place_name_submission svc inp (s : session) coords :
  method inp = PlaceName -> pressed inp = Some BtnGetRoute ->
  let places := ([start_place inp] ++ destinations s ++ [end_place inp])%list in
  Forall2 (found_at svc) places coords ->
  let alt := show_alternatives inp in
  let run := script_run svc inp s in
  all_places (state_after run) = Some places /\
  destinations (state_after run) = destinations s /\
  filter is_trip_request (log_of run) =
    (map geocoding_call places ++ [Call (ReqOsrm coords alt)])%list /\
  (forall r rs, routing_answer svc coords alt = Return (Some (r :: rs)) ->
     routes (state_after run) = Py.sort key_lt duration_key (r :: rs) /\
     all_coords (state_after run) = Some coords) /\
  (routing_answer svc coords alt = Return None ->
     result_of run = Return None /\ routes (state_after run) = [] /\
     all_coords (state_after run) = all_coords s /\
     In (Display st_error MsgNoRoutesFound) (log_of run)).
Proof.
  intros Hm Hp places H alt run.
  destruct (sidebar_on_submit inp s Hp Hm) as (s0 & E & D0 & _ & _ & C0).
  assert (Hl : 2 <= Py.len coords).
  { assert (L : List.length places = List.length coords)
      by (eapply Forall2_length; eauto).
    unfold Py.len. rewrite <- L. subst places.
    rewrite !length_app. cbn [List.length]. lia. }
  assert (Hc : collect_coords svc inp s0 =
               (Return coords, set_all_places places s0, map geocoding_call places)).
  { subst places. rewrite <- D0.
    apply (collect_coords_all_found svc inp s0 coords Hm). now rewrite D0. }
  pose proof (submission_run svc inp s s0 places coords _
                (is_pressed_self _ _ Hp) E Hc Hl (filter_geocoding_requests places)) as K.
  cbv zeta in K. fold alt run in K. rewrite D0, C0 in K. exact K.
Qed.

(** X18. A submission in coordinates mode: the destinations are cleared, the
    names stored are 'Start' and 'End', and the only request to the geocoder
    or the routing service is one routing request for
    [(start_lon, start_lat); (end_lon, end_lat)]. When routes come back they
    are stored sorted together with these coordinates; when none come back,
    the stored routes are emptied, the error is shown and no page is drawn. *)
Theorem coordinates_submission svc inp (s : session) :
  method inp = Coordinates -> pressed inp = Some BtnGetRoute ->
  let coords := [(start_lon inp, start_lat inp); (end_lon inp, end_lat inp)] in
  let alt := show_alternatives inp in
  let run := script_run svc inp s in
  all_places (state_after run) = Some ["Start"; "End"] /\
  destinations (state_after run) = [] /\
  filter is_trip_request (log_of run) = [Call (ReqOsrm coords alt)] /\
  (forall r rs, routing_answer svc coords alt = Return (Some (r :: rs)) ->
     routes (state_after run) = Py.sort key_lt duration_key (r :: rs) /\
     all_coords (state_after run) = Some coords) /\
  (routing_answer svc coords alt = Return None ->
     result_of run = Return None /\ routes (state_after run) = [] /\
     all_coords (state_after run) = all_coords s /\
     In (Display st_error MsgNoRoutesFound) (log_of run)).
Proof.
  intros Hm Hp coords alt run.
  assert (E : sidebar inp s = (Return tt, set_destinations [] s, [])).
  { unfold sidebar. now rewrite Hm. }
  assert (Hc : collect_coords svc inp (set_destinations [] s) =
               (Return coords, set_all_places ["Start"; "End"] (set_destinations [] s), [])).
  { unfold collect_coords. now rewrite Hm. }
  assert (Hl : 2 <= Py.len coords) by (cbn; lia).
  pose proof (submission_run svc inp s _ _ coords _
                (is_pressed_self _ _ Hp) E Hc Hl eq_refl) as K.
  cbv zeta in K. exact K.
Qed.

(** X19. The geocoding loop stops at the first place that is not found: the
    places before it are looked up once each, in order, the place itself at
    most once, and the places after it not at all; the message 'Could not
    find ...' names that place, the coordinates found so far are dropped
    (the result is the empty list), and the names of the whole request have
    been stored all the same. *)
Theorem geocoding_stops_at_first_failure svc inp (s : session) pre bad post coords :
  method inp = PlaceName ->
  ([start_place inp] ++ destinations s ++ [end_place inp])%list =
    (pre ++ bad :: post)%list ->
  Forall2 (found_at svc) pre coords ->
  result_of (get_coords svc bad tt) = Return (None, None) ->
  let run := collect_coords svc inp s in
  result_of run = Return [] /\
  filter is_call (log_of run) =
    (map geocoding_call pre ++ filter is_call (log_of (get_coords svc bad tt)))%list /\
  In (Display st_sidebar_error (MsgPlaceNotFound bad)) (log_of run) /\
  all_places (state_after run) = Some (pre ++ bad :: post)%list.
Proof.
  intros Hm Hpl H Hb run. subst run. rewrite (collect_coords_name svc inp s Hm).
  cbv zeta. rewrite Hpl.
  rewrite (geocode_places_stops svc pre bad post coords [] _ H Hb).
  unfold result_of, log_of, state_after. cbn [fst snd negb].
  split; [reflexivity|]. split; [|split].
  - rewrite !filter_app. cbn [filter is_call]. rewrite app_nil_r. f_equal.
    apply filter_geocoding_calls.
  - apply in_or_app. right. apply in_or_app. right. now left.
  - reflexivity.
Qed.

(** *** [format_duration] on a negative whole number *)

Lemma duration_str_of_no_hours (h m s : Z) :
  h <= 0 -> duration_str_of h m s = duration_str_of 0 m s.
Proof.
  intros Hh. unfold duration_str_of.
  destruct (0 <? h) eqn:E; [apply Z.ltb_lt in E; lia | reflexivity].
Qed.

(** X21. [format_duration] of a negative whole number of seconds is the text
    of that number modulo 3600: the negative hours are dropped and minutes
    and seconds wrap around, so -5 reads '59m 55s'. *)
Theorem format_duration_negative (n : Z) :
  n < 0 -> format_duration (Some (inject_Z n)) = duration_text (n mod 3600).
Proof.
  intros Hn. rewrite format_duration_whole by lia.
  rewrite duration_str_of_no_hours by (apply Z.div_le_upper_bound; lia).
  set (k := n mod 3600).
  assert (K : k = n mod 60 + 60 * ((n / 60) mod 60)).
  { unfold k. change 3600 with (60 * 60). apply Z.rem_mul_r; lia. }
  pose proof (Z.mod_pos_bound n 60 ltac:(lia)) as Hs.
  pose proof (Z.mod_pos_bound (n / 60) 60 ltac:(lia)) as Hm.
  set (s := n mod 60) in *. set (m := (n / 60) mod 60) in *.
  assert (K1 : k / 3600 = 0) by (apply Z.div_small; lia).
  assert (K2 : k mod 60 = s).
  { symmetry. apply Z.mod_unique with (q := m); lia. }
  assert (K3 : (k / 60) mod 60 = m).
  { assert (k / 60 = m) as -> by (symmetry; apply Z.div_unique with (r := s); lia).
    apply Z.mod_small; lia. }
  unfold duration_text, duration_parts. rewrite K1, K2, K3.
  destruct (Z.eqb_spec k 0) as [E|E].
  - assert (s = 0) as -> by lia. assert (m = 0) as -> by lia. reflexivity.
  - destruct (strip_duration_str_of 0 m s) as (E1 & _); try lia. exact E1.
Qed.

(** *** The size of the sample sent to the station search *)

Lemma nth_error_incl {A} (l m : list A) (f : nat -> nat) :
  (forall i, nth_error l i = nth_error m (f i)) -> incl l m.
Proof.
  intros H x Hx. apply In_nth_error in Hx as [i Hi].
  rewrite H in Hi. eapply nth_error_In; eauto.
Qed.

Lemma downsample_points_sample {S} (points : list point) (s : S) :
  let n := Py.len points in
  let step := stride_of n in
  exists sampled,
    downsample_points points s = (Return sampled, s, []) /\
    (n <= MAX_QUERY_POINTS -> sampled = points) /\
    (forall i, nth_error sampled i = nth_error points (i * Z.to_nat step)) /\
    Py.len sampled = (n + step - 1) / step /\
    Py.len sampled < 2 * MAX_QUERY_POINTS /\
    (Py.len sampled <= MAX_QUERY_POINTS <->
     n <= MAX_QUERY_POINTS \/ n mod MAX_QUERY_POINTS = 0).
Proof.
  intros n step. subst step. unfold stride_of.
  destruct (MAX_QUERY_POINTS <? n) eqn:E.
  - apply Z.ltb_lt in E.
    destruct (downsample_points_stride points s E) as (sampled & Hd & Hstep & Hnth).
    destruct (downsample_points_count points s E) as (sampled' & Hd' & Hc & Hlt).
    rewrite Hd in Hd'. injection Hd' as <-.
    exists sampled. fold n in Hc, Hnth |- *.
    split; [exact Hd|]. split; [intros H; lia|]. split; [exact Hnth|].
    split; [exact Hc|]. split; [exact Hlt|].
    rewrite Hc. unfold MAX_QUERY_POINTS in *.
    pose proof (Z.div_mod n 50 ltac:(lia)) as Hdm.
    pose proof (Z.mod_pos_bound n 50 ltac:(lia)) as Hmb.
    set (st := n / 50) in *. set (r := n mod 50) in *.
    assert (Hs : 1 <= st) by (unfold st; apply Z.div_le_lower_bound; lia).
    split.
    + intros H. right.
      destruct (Z.eq_dec r 0) as [|Hr]; [assumption|]. exfalso.
      assert (51 <= (n + st - 1) / st); [|lia].
      apply Z.div_le_lower_bound; nia.
    + intros [H|H]; [lia|].
      assert ((n + st - 1) / st < 51); [|lia].
      apply Z.div_lt_upper_bound; nia.
  - apply Z.ltb_ge in E. exists points.
    assert (Hd : downsample_points points s = (Return points, s, [])).
    { unfold downsample_points. fold n.
      destruct (MAX_QUERY_POINTS <? n) eqn:E'; [apply Z.ltb_lt in E'; lia|reflexivity]. }
    split; [exact Hd|]. split; [reflexivity|].
    split; [intros i; now rewrite Nat.mul_1_r|].
    replace (n + 1 - 1) with n by lia. rewrite Z.div_1_r.
    unfold MAX_QUERY_POINTS in *. fold n.
    split; [reflexivity|]. split; [lia|]. split; [intros _; now left | intros _; lia].
Qed.

(** X22. The sampling of lines 65-68 always returns, without a message. Up to
    50 points are kept as they are; past 50 the sample takes every
    [len // 50]-th point, starting with the first. The sample has
    [ceil(len / step)] points, always fewer than 100, and at most 50 exactly
    when the path has at most 50 points or a multiple of 50. *)
Theorem downsample_points_size {S} (points : list point) (s : S) :
  let n := Py.len points in
  let step := stride_of n in
  exists sampled,
    downsample_points points s = (Return sampled, s, []) /\
    (n <= MAX_QUERY_POINTS -> sampled = points) /\
    (forall i, nth_error sampled i = nth_error points (i * Z.to_nat step)) /\
    Py.len sampled = (n + step - 1) / step /\
    Py.len sampled < 2 * MAX_QUERY_POINTS /\
    (Py.len sampled <= MAX_QUERY_POINTS <->
     n <= MAX_QUERY_POINTS \/ n mod MAX_QUERY_POINTS = 0).
Proof. exact (downsample_points_sample points s). Qed.

(** *** The request of the station search *)

Lemma hd_error_nth {A} (l : list A) : hd_error l = nth_error l 0.
Proof. destruct l; reflexivity. Qed.

Lemma fuel_query_points {S} (points : list point) (s : S) :
  points <> [] ->
  exists pts,
    downsample_points points s = (Return pts, s, []) /\
    pts <> [] /\ Py.len pts < 2 * MAX_QUERY_POINTS /\
    incl pts points /\ hd_error pts = hd_error points.
Proof.
  intros Hne.
  destruct (downsample_points_sample points s) as (pts & Hd & _ & Hnth & _ & Hlt & _).
  exists pts. split; [exact Hd|].
  assert (Hh : hd_error pts = hd_error points).
  { rewrite !hd_error_nth, Hnth. reflexivity. }
  split; [|split; [exact Hlt|split; [|exact Hh]]].
  - intros ->. destruct points; [now elim Hne | discriminate Hh].
  - eapply nth_error_incl. exact Hnth.
Qed.

(** X23. [get_fuel_stations_along_route] sends at most one request. A request
    it sends carries the given radius and a non-empty list of fewer than 100
    points, all of them points of the decoded geometry, the first being the
    first point of the geometry. When it returns stations, these are the
    'elements' of an answer with a status outside 400-599, and the info
    message counts them. *)
Theorem fuel_station_query {S} svc g radius (s : S) :
  let run := get_fuel_stations_along_route svc g radius s in
  (forall r pts,
     In (Call (ReqOverpass r pts)) (log_of run) ->
     r = radius /\ pts <> [] /\ Py.len pts < 2 * MAX_QUERY_POINTS /\
     exists path,
       decode svc g = Some path /\
       incl pts path /\ hd_error pts = hd_error path) /\
  (List.length (filter is_call (log_of run)) <= 1)%nat /\
  (forall stations,
     result_of run = Return stations -> stations <> [] ->
     In (Display st_info (MsgFoundStations (List.length stations) radius))
        (log_of run) /\
     exists pts resp,
       overpass svc radius pts = inr resp /\ status_ok resp /\
       json resp = Some (Some stations)).
Proof.
  intros run. subst run.
  destruct (decode svc g) as [[|p0 ps]|] eqn:Ed.
  - assert (R : get_fuel_stations_along_route svc g radius s =
                (Return [], s, [Display st_warning MsgEmptyGeometry])).
    { unfold get_fuel_stations_along_route, polyline_decode, try_except, bind.
      rewrite Ed. reflexivity. }
    rewrite R. unfold log_of, result_of. cbn [fst snd].
    split; [|split].
    + intros r pts [H|[]]. discriminate H.
    + cbn. lia.
    + intros st [= <-] H. now elim H.
  - destruct (fuel_query_points (p0 :: ps) s) as (pts & Hd & Hne & Hlt & Hin & Hh);
      [discriminate|].
    assert (Hdec : p0 :: ps <> []) by discriminate.
    rewrite (get_fuel_stations_run svc g radius s (p0 :: ps) pts Ed Hdec Hd).
    assert (Q : forall r pts' rest,
              filter is_call rest = [] ->
              In (Call (ReqOverpass r pts')) (Call (ReqOverpass radius pts) :: rest) ->
              r = radius /\ pts' <> [] /\ Py.len pts' < 2 * MAX_QUERY_POINTS /\
              exists path,
                Some (p0 :: ps) = Some path /\
                incl pts' path /\ hd_error pts' = hd_error path).
    { intros r pts' rest Hf [H|H].
      - injection H as <- <-. repeat split; try assumption.
        exists (p0 :: ps). auto.
      - exfalso. assert (In (Call (ReqOverpass r pts')) (filter is_call rest))
          by (apply filter_In; split; [exact H | reflexivity]).
        rewrite Hf in H0. exact H0. }
    destruct (overpass svc radius pts) as [msg|resp] eqn:Eo.
    + unfold log_of, result_of. cbn [fst snd]. split; [|split].
      * intros r pts'. apply Q; reflexivity.
      * cbn. lia.
      * intros st [= <-] H. now elim H.
    + destruct ((400 <=? status_code resp) && (status_code resp <? 600)) eqn:Es.
      * destruct (status_code resp =? 504);
          unfold log_of, result_of; cbn [fst snd]; (split; [|split]);
          [ intros r pts'; apply Q; reflexivity | cbn; lia
          | intros st [= <-] H; now elim H
          | intros r pts'; apply Q; reflexivity | cbn; lia
          | intros st [= <-] H; now elim H ].
      * apply status_ok_test in Es.
        destruct (json resp) as [data|] eqn:Ej;
          unfold log_of, result_of; cbn [fst snd]; (split; [|split]).
        -- intros r pts'. apply Q; reflexivity.
        -- cbn. lia.
        -- intros st [= <-] H. split; [right; now left|].
           exists pts, resp. split; [exact Eo|]. split; [exact Es|].
           rewrite Ej. destruct data as [l|]; [reflexivity | now elim H].
        -- intros r pts'. apply Q; reflexivity.
        -- cbn. lia.
        -- intros st [= <-] H. now elim H.
  - rewrite (get_fuel_stations_undecoded svc g radius s Ed).
    unfold log_of, result_of. cbn [fst snd].
    split; [|split].
    + intros r pts [].
    + cbn. lia.
    + intros st H. discriminate H.
Qed.

(** *** A selected route without geometry *)

(** X24. With 'Show fuel stations' checked, a selected route without
    'geometry' ends the page with [KeyError 'geometry'] (line 347 reads the
    key without a guard), before any request is sent or any map is drawn. *)
Theorem fuel_search_needs_geometry svc inp routes coords names (s : session) r :
  Py.index routes (selected_route_index s) = Some r ->
  geometry r = None ->
  show_fuel inp = true ->
  show_page svc inp routes coords names s = (Raise (KeyError "geometry"), s, []).
Proof.
  intros Hi Hg Hf. unfold show_page. unfold bind at 1. unfold get at 1.
  cbv beta iota zeta. unfold bind at 1. unfold item at 1. rewrite Hi.
  unfold ret at 1. cbv beta iota zeta.
  unfold bind at 1.
  assert (T : exists est, trip_estimation inp r s = (Return est, s, [])).
  { unfold trip_estimation, truediv, bind, ret, raise. cbn [Qnum Z.eqb].
    destruct (Py.ltb 0 (fuel_efficiency inp)) eqn:E; [|eexists; reflexivity].
    assert (Hn : (Qnum (fuel_efficiency inp) =? 0) = false).
    { apply Z.eqb_neq. unfold Py.ltb in E. apply Z.ltb_lt in E. cbn in E. lia. }
    rewrite Hn. eexists; reflexivity. }
  destruct T as [[[d f] c] ->]. cbv beta iota zeta.
  rewrite Hf, Hg. reflexivity.
Qed.

(** *** The view of the map *)

Lemma min_from_spec l : forall x,
  (min_from x l <= x)%Q /\ Forall (fun y => (min_from x l <= y)%Q) l /\
  In (min_from x l) (x :: l).
Proof.
  induction l as [|y l IH]; intros x; cbn [min_from fold_left].
  - split; [apply Qle_refl|]. split; [constructor | now left].
  - fold (min_from (if Py.ltb y x then y else x) l).
    destruct (IH (if Py.ltb y x then y else x)) as (H1 & H2 & H3).
    destruct (Py.ltb y x) eqn:E.
    + apply ltb_lt in E. split; [|split].
      * eapply Qle_trans; [exact H1 | now apply Qlt_le_weak].
      * constructor; [exact H1 | exact H2].
      * destruct H3 as [H3|H3]; [right; left; exact H3 | right; right; exact H3].
    + apply ltb_ge in E. split; [exact H1|]. split.
      * constructor; [eapply Qle_trans; eauto | exact H2].
      * destruct H3 as [H3|H3]; [left; exact H3 | right; right; exact H3].
Qed.

Lemma max_from_spec l : forall x,
  (x <= max_from x l)%Q /\ Forall (fun y => (y <= max_from x l)%Q) l /\
  In (max_from x l) (x :: l).
Proof.
  induction l as [|y l IH]; intros x; cbn [max_from fold_left].
  - split; [apply Qle_refl|]. split; [constructor | now left].
  - fold (max_from (if Py.ltb x y then y else x) l).
    destruct (IH (if Py.ltb x y then y else x)) as (H1 & H2 & H3).
    destruct (Py.ltb x y) eqn:E.
    + apply ltb_lt in E. split; [|split].
      * eapply Qle_trans; [apply Qlt_le_weak; exact E | exact H1].
      * constructor; [exact H1 | exact H2].
      * destruct H3 as [H3|H3]; [right; left; exact H3 | right; right; exact H3].
    + apply ltb_ge in E. split; [exact H1|]. split.
      * constructor; [eapply Qle_trans; eauto | exact H2].
      * destruct H3 as [H3|H3]; [left; exact H3 | right; right; exact H3].
Qed.

Lemma all_points_lines svc idx k routes :
  all_points svc routes =
  flat_map locations (drawn_lines svc idx (Py.enumerate_from k routes)).
Proof.
  revert k. induction routes as [|r rs IH]; intros k; [reflexivity|].
  cbn [all_points flat_map Py.enumerate_from drawn_lines].
  fold (all_points svc rs). rewrite (IH (k + 1)).
  destruct (geometry r); reflexivity.
Qed.

Lemma fit_bounds_box pts lo hi :
  fit_bounds pts = Some (lo, hi) ->
  (forall p, In p pts -> in_box lo hi p) /\
  In (fst lo) (map fst pts) /\ In (snd lo) (map snd pts) /\
  In (fst hi) (map fst pts) /\ In (snd hi) (map snd pts).
Proof.
  destruct pts as [|p ps]; [discriminate|]. cbn [fit_bounds].
  intros [= <- <-]. cbn [fst snd map].
  destruct (min_from_spec (map fst ps) (fst p)) as (A1 & A2 & A3).
  destruct (min_from_spec (map snd ps) (snd p)) as (B1 & B2 & B3).
  destruct (max_from_spec (map fst ps) (fst p)) as (C1 & C2 & C3).
  destruct (max_from_spec (map snd ps) (snd p)) as (D1 & D2 & D3).
  split; [|auto].
  intros q [<-|Hq]; unfold in_box; cbn [fst snd]; [auto|].
  rewrite Forall_forall in A2, B2, C2, D2.
  pose proof (in_map fst _ _ Hq). pose proof (in_map snd _ _ Hq). auto.
Qed.

(** X25. The view of the map. The points collected for [fit_bounds] are the
    points of the lines drawn on the map, in order. No bounds are set exactly
    when no line has a point. Otherwise every point of every line lies within
    the bounds, and each of the four bounds is the latitude or the longitude
    of some point of a line. *)
Theorem map_view_contains_routes {S} svc routes coords names idx stations (s : S) m :
  result_of (create_map svc routes coords names idx stations s) = Return m ->
  all_points svc routes = flat_map locations (lines m) /\
  (fit_bounds (all_points svc routes) = None <->
   forall l, In l (lines m) -> locations l = []) /\
  (forall lo hi,
     fit_bounds (all_points svc routes) = Some (lo, hi) ->
     (forall l p, In l (lines m) -> In p (locations l) -> in_box lo hi p) /\
     In (fst lo) (map fst (all_points svc routes)) /\
     In (snd lo) (map snd (all_points svc routes)) /\
     In (fst hi) (map fst (all_points svc routes)) /\
     In (snd hi) (map snd (all_points svc routes))).
Proof.
  intros Hm. destruct (create_map_lines _ _ _ _ _ _ _ _ Hm) as [L _].
  assert (E : all_points svc routes = flat_map locations (lines m)).
  { rewrite L. apply all_points_lines. }
  split; [exact E|]. split.
  - rewrite E. split.
    + intros H l Hl. destruct (locations l) as [|p ps] eqn:El; [reflexivity|].
      assert (Hp : In p (flat_map locations (lines m))).
      { apply in_flat_map. exists l. split; [exact Hl|]. rewrite El. now left. }
      destruct (flat_map locations (lines m)); [elim Hp | discriminate H].
    + intros H. destruct (flat_map locations (lines m)) as [|p ps] eqn:Ef; [reflexivity|].
      assert (Hp : In p (flat_map locations (lines m))) by (rewrite Ef; now left).
      apply in_flat_map in Hp as (l & Hl & Hp). rewrite (H l Hl) in Hp. elim Hp.
  - intros lo hi Hb. destruct (fit_bounds_box _ lo hi Hb) as (B & R).
    split; [|exact R]. intros l p Hl Hp. apply B. rewrite E.
    apply in_flat_map. exists l. now split.
Qed.

(** *** The properties at the sample data *)

Lemma sample_trip_reachable : reachable sample_trip.
Proof. apply reachable_run, reachable_initial. Qed.

Lemma sample_stale_trip_reachable : reachable sample_stale_trip.
Proof. unfold sample_stale_trip, sample_run. repeat apply reachable_run. apply reachable_initial. Qed.

Lemma stored_routes_ascending_witness :
  reachable sample_trip /\ StronglySorted no_longer (routes sample_trip) /\
  map duration (routes sample_trip) = [Some 50; Some 100; Some 100; Some 300]%Q.
Proof.
  split; [exact sample_trip_reachable|].
  split; [|reflexivity].
  apply stored_routes_ascending. exact sample_trip_reachable.
Defined.

Lemma route_shown_with_trip_witness :
  (reachable sample_trip /\ routes sample_trip <> []) /\
  exists coords places,
    all_coords sample_trip = Some coords /\ all_places sample_trip = Some places /\
    2 <= Py.len coords /\ 2 <= Py.len places.
Proof.
  assert (N : routes sample_trip <> []) by (vm_compute; discriminate).
  split; [split; [exact sample_trip_reachable | exact N]|].
  exact (route_shown_with_trip sample_trip sample_trip_reachable N).
Defined.

Lemma sample_route_drawable :
  Forall (drawable sample_services) [sample_route sample_geometry 100; bare_route].
Proof.
  apply Forall_cons; [exists sample_decoded; split; [reflexivity | discriminate]|].
  apply Forall_cons; [exact I | apply Forall_nil].
Qed.

Lemma create_map_needs_names_witness :
  (names_cover [(139, 35); (140, 36)]%Q ["Start"; "End"] /\
   Forall (drawable sample_services) [sample_route sample_geometry 100; bare_route]) /\
  (exists m,
     result_of (create_map sample_services
                  [sample_route sample_geometry 100; bare_route]
                  [(139, 35); (140, 36)]%Q ["Start"; "End"] 0 [] tt) = Return m) /\
  (~ names_cover [(139, 35); (139, 35); (140, 36)]%Q ["Start"] /\
   result_of (create_map sample_services [sample_route sample_geometry 100; bare_route]
                [(139, 35); (139, 35); (140, 36)]%Q ["Start"] 0 [] tt) =
   Raise IndexError) /\
  (~ Forall (drawable sample_services) [sample_route "abc" 100] /\
   result_of (create_map sample_services [sample_route "abc" 100]
                [(139, 35); (140, 36)]%Q ["Start"; "End"] 0 [] tt) =
   Raise IndexError) /\
  result_of (create_map sample_services [sample_route "" 100]
               [(139, 35); (140, 36)]%Q ["Start"; "End"] 0 [] tt) =
  Raise ValueError.
Proof.
  assert (N : names_cover [(139, 35); (140, 36)]%Q ["Start"; "End"]).
  { split; [discriminate|]. split; [discriminate|]. vm_compute. discriminate. }
  assert (U : ~ names_cover [(139, 35); (139, 35); (140, 36)]%Q ["Start"]).
  { intros (_ & _ & H). vm_compute in H. now apply H. }
  assert (D : ~ Forall (drawable sample_services) [sample_route "abc" 100]).
  { intros H. inversion H as [|? ? Hd _]. unfold drawable in Hd. cbn in Hd.
    destruct Hd as (pts & Hp & _). discriminate Hp. }
  split; [split; [exact N | exact sample_route_drawable]|].
  split; [|split; [split; [exact U|] | split; [split; [exact D|] |]]].
  - exact (proj2 (proj1 (proj2 (proj2
             (create_map_needs_names sample_services
                [sample_route sample_geometry 100; bare_route]
                [(139, 35); (140, 36)]%Q ["Start"; "End"] 0 [] tt))))
             (conj N sample_route_drawable)).
  - exact (proj1 (proj2 (proj2 (proj2 (proj2
             (create_map_needs_names sample_services
                [sample_route sample_geometry 100; bare_route]
                [(139, 35); (139, 35); (140, 36)]%Q ["Start"] 0 [] tt))))) U).
  - reflexivity.
  - reflexivity.
Defined.

Lemma sample_map_drawn :
  result_of (create_map sample_services [sample_route sample_geometry 100; bare_route]
               [(139, 35); (140, 36)]%Q ["Start"; "End"] 0 [] tt) = Return sample_map.
Proof. vm_compute. reflexivity. Qed.

Lemma one_line_per_route_witness :
  result_of (create_map sample_services [sample_route sample_geometry 100; bare_route]
               [(139, 35); (140, 36)]%Q ["Start"; "End"] 0 [] tt) = Return sample_map /\
  List.length (lines sample_map) =
    List.length (filter has_geometry [sample_route sample_geometry 100; bare_route]) /\
  filter selected (lines sample_map) =
    [ {| locations := sample_decoded; selected := true;
         line_popup := "Selected Route: " ++ format_duration (Some 100%Q) |} ] /\
  Forall (drawable sample_services) [sample_route sample_geometry 100; bare_route].
Proof.
  split; [exact sample_map_drawn|].
  exact (one_line_per_route sample_services [sample_route sample_geometry 100; bare_route]
           [(139, 35); (140, 36)]%Q ["Start"; "End"] 0 [] tt sample_map sample_map_drawn).
Defined.

Lemma stale_names_break_page_witness :
  (reachable sample_stale_trip /\ routes sample_stale_trip <> [] /\
   all_coords sample_stale_trip =
     Some [(139, 35); (139, 35); (139, 35); (139, 35)]%Q /\
   Py.len (destinations sample_stale_trip) + 3 <
     Py.len [(139, 35); (139, 35); (139, 35); (139, 35)]%Q) /\
  result_of (script_run sample_services sample_unknown_start sample_stale_trip) =
    Raise IndexError /\
  all_places (state_after
                (script_run sample_services sample_unknown_start sample_stale_trip)) =
    Some ["Atlantis"; "Shibuya Crossing"].
Proof.
  assert (N : routes sample_stale_trip <> []) by (vm_compute; discriminate).
  assert (C : all_coords sample_stale_trip =
              Some [(139, 35); (139, 35); (139, 35); (139, 35)]%Q)
    by (vm_compute; reflexivity).
  assert (L : Py.len (destinations sample_stale_trip) + 3 <
              Py.len [(139, 35); (139, 35); (139, 35); (139, 35)]%Q)
    by (vm_compute; reflexivity).
  split; [split; [exact sample_stale_trip_reachable | split; [exact N | split; [exact C | exact L]]]|].
  pose proof (stale_names_break_page sample_services sample_unknown_start
                sample_stale_trip _ sample_stale_trip_reachable N C
                eq_refl eq_refl eq_refl eq_refl L) as (H1 & _ & _ & H4).
  split; [exact H1|]. exact H4.
Defined.

Lemma run_without_submit_witness :
  pressed (sample_press BtnAddDestination "") <> Some BtnGetRoute /\
  routes (sample_run (sample_press BtnAddDestination "") sample_trip) =
    routes sample_trip /\
  filter is_trip_request
    (log_of (script_run sample_services (sample_press BtnAddDestination "")
               sample_trip)) = [].
Proof.
  assert (P : pressed (sample_press BtnAddDestination "") <> Some BtnGetRoute)
    by discriminate.
  split; [exact P|].
  destruct (run_without_submit sample_services (sample_press BtnAddDestination "")
              sample_trip P) as (H1 & _ & _ & H4).
  split; [exact H1 | exact H4].
Defined.

Lemma no_station_search_unless_asked_witness :
  show_fuel (sample_inputs PlaceName) = false /\
  filter is_overpass_call
    (log_of (script_run sample_services (sample_inputs PlaceName) sample_trip)) = [].
Proof.
  split; [reflexivity|].
  exact (no_station_search_unless_asked sample_services (sample_inputs PlaceName)
           sample_trip eq_refl).
Defined.

Lemma delete_removes_waypoint_witness :
  (1 < List.length ["Kyoto"; "Osaka"; "Nara"])%nat /\
  destinations
    (sample_run (sample_press (BtnDelete 1) "")
       (set_destinations ["Kyoto"; "Osaka"; "Nara"] initial_session)) =
  ["Kyoto"; "Nara"].
Proof.
  assert (L : (1 < List.length ["Kyoto"; "Osaka"; "Nara"])%nat) by (cbn; lia).
  split; [exact L|].
  exact (delete_removes_waypoint sample_services (sample_press (BtnDelete 1) "")
           (set_destinations ["Kyoto"; "Osaka"; "Nara"] initial_session) 1
           eq_refl eq_refl L).
Defined.

Lemma add_appends_waypoint_witness :
  "Nara" <> "" /\
  destinations
    (sample_run (sample_press BtnAdd "Nara")
       (set_show_add_destination_input true
          (set_destinations ["Kyoto"] initial_session))) = ["Kyoto"; "Nara"] /\
  show_add_destination_input
    (sample_run (sample_press BtnAdd "Nara")
       (set_show_add_destination_input true
          (set_destinations ["Kyoto"] initial_session))) = Some false.
Proof.
  assert (N : "Nara" <> "") by discriminate.
  split; [exact N|].
  exact (add_appends_waypoint sample_services (sample_press BtnAdd "Nara")
           (set_show_add_destination_input true
              (set_destinations ["Kyoto"] initial_session))
           eq_refl eq_refl eq_refl N).
Defined.

Lemma empty_destination_refused_witness :
  destinations
    (sample_run (sample_press BtnAdd "")
       (set_show_add_destination_input true
          (set_destinations ["Kyoto"] initial_session))) = ["Kyoto"] /\
  show_add_destination_input
    (sample_run (sample_press BtnAdd "")
       (set_show_add_destination_input true
          (set_destinations ["Kyoto"] initial_session))) = Some true /\
  In (Display st_sidebar_warning MsgEnterDestination)
     (log_of (script_run sample_services (sample_press BtnAdd "")
                (set_show_add_destination_input true
                   (set_destinations ["Kyoto"] initial_session)))).
Proof.
  exact (empty_destination_refused sample_services (sample_press BtnAdd "")
           (set_show_add_destination_input true
              (set_destinations ["Kyoto"] initial_session))
           eq_refl eq_refl eq_refl eq_refl).
Defined.

Lemma add_destination_input_toggles_witness :
  (show_add_destination_input initial_session <> Some true /\
   show_add_destination_input
     (sample_run (sample_press BtnAddDestination "") initial_session) = Some true) /\
  show_add_destination_input
    (sample_run (sample_press BtnCancel "")
       (set_show_add_destination_input true initial_session)) = Some false.
Proof.
  assert (N : show_add_destination_input initial_session <> Some true) by discriminate.
  split; [split; [exact N|]|].
  - exact (proj1 (add_destination_input_toggles sample_services
                    (sample_press BtnAddDestination "") initial_session true eq_refl
                    (or_introl (conj eq_refl (conj N eq_refl))))).
  - exact (proj1 (add_destination_input_toggles sample_services
                    (sample_press BtnCancel "")
                    (set_show_add_destination_input true initial_session) false eq_refl
                    (or_intror (conj eq_refl (conj eq_refl eq_refl))))).
Defined.

Lemma sample_places_found :
  Forall2 (found_at sample_services)
    ["Tokyo Station"; "Kyoto"; "Shibuya Crossing"]
    [(139, 35); (139, 35); (139, 35)]%Q.
Proof. repeat constructor. Qed.

Lemma place_name_submission_witness :
  Forall2 (found_at sample_services)
    ["Tokyo Station"; "Kyoto"; "Shibuya Crossing"]
    [(139, 35); (139, 35); (139, 35)]%Q /\
  all_places (sample_run (sample_inputs PlaceName)
                (set_destinations ["Kyoto"] initial_session)) =
    Some ["Tokyo Station"; "Kyoto"; "Shibuya Crossing"] /\
  filter is_trip_request
    (log_of (script_run sample_services (sample_inputs PlaceName)
               (set_destinations ["Kyoto"] initial_session))) =
    [geocoding_call "Tokyo Station"; geocoding_call "Kyoto";
     geocoding_call "Shibuya Crossing";
     Call (ReqOsrm [(139, 35); (139, 35); (139, 35)]%Q true)].
Proof.
  split; [exact sample_places_found|].
  destruct (place_name_submission sample_services (sample_inputs PlaceName)
              (set_destinations ["Kyoto"] initial_session)
              [(139, 35); (139, 35); (139, 35)]%Q eq_refl eq_refl sample_places_found)
    as (H1 & _ & H3 & _).
  split; [exact H1 | exact H3].
Defined.

Lemma sample_start_found :
  Forall2 (found_at sample_services) ["Tokyo Station"] [(139, 35)]%Q.
Proof. repeat constructor. Qed.

Lemma geocoding_stops_at_first_failure_witness :
  (Forall2 (found_at sample_services) ["Tokyo Station"] [(139, 35)]%Q /\
   result_of (get_coords sample_services "Atlantis" tt) = Return (None, None)) /\
  result_of (collect_coords sample_services (sample_inputs PlaceName)
               (set_destinations ["Atlantis"; "Kyoto"] initial_session)) = Return [] /\
  filter is_call
    (log_of (collect_coords sample_services (sample_inputs PlaceName)
               (set_destinations ["Atlantis"; "Kyoto"] initial_session))) =
    [geocoding_call "Tokyo Station"; geocoding_call "Atlantis"].
Proof.
  assert (B : result_of (get_coords sample_services "Atlantis" tt) = Return (None, None))
    by reflexivity.
  split; [split; [exact sample_start_found | exact B]|].
  destruct (geocoding_stops_at_first_failure sample_services (sample_inputs PlaceName)
              (set_destinations ["Atlantis"; "Kyoto"] initial_session)
              ["Tokyo Station"] "Atlantis" ["Kyoto"; "Shibuya Crossing"] [(139, 35)]%Q
              eq_refl eq_refl sample_start_found B) as (H1 & H2 & _).
  split; [exact H1 | exact H2].
Defined.

Lemma coordinates_submission_witness :
  destinations (sample_run (sample_inputs Coordinates) sample_session) = [] /\
  all_places (sample_run (sample_inputs Coordinates) sample_session) =
    Some ["Start"; "End"] /\
  filter is_trip_request
    (log_of (script_run sample_services (sample_inputs Coordinates) sample_session)) =
    [Call (ReqOsrm [(139, 35); (140, 36)]%Q true)].
Proof.
  destruct (coordinates_submission sample_services (sample_inputs Coordinates)
              sample_session eq_refl eq_refl) as (H1 & H2 & H3 & _).
  split; [exact H2|]. split; [exact H1 | exact H3].
Defined.

Lemma format_duration_negative_witness :
  -5 < 0 /\ format_duration (Some (inject_Z (-5))) = duration_text ((-5) mod 3600) /\
  duration_text ((-5) mod 3600) = "59m 55s".
Proof.
  assert (N : -5 < 0) by lia.
  split; [exact N|]. split; [exact (format_duration_negative (-5) N) | reflexivity].
Defined.

Lemma fuel_search_needs_geometry_witness :
  show_page sample_services sample_fuel_inputs [bare_route]
    [(139, 35); (140, 36)]%Q ["Start"; "End"] initial_session =
  (Raise (KeyError "geometry"), initial_session, []).
Proof.
  exact (fuel_search_needs_geometry sample_services sample_fuel_inputs [bare_route]
           [(139, 35); (140, 36)]%Q ["Start"; "End"] initial_session bare_route
           eq_refl eq_refl eq_refl).
Defined.

Lemma map_view_contains_routes_witness :
  result_of (create_map sample_services [sample_route sample_geometry 100; bare_route]
               [(139, 35); (140, 36)]%Q ["Start"; "End"] 0 [] tt) = Return sample_map /\
  fit_bounds (all_points sample_services [sample_route sample_geometry 100; bare_route]) =
    Some ((385 # 10, -126453 # 1000), (43252 # 1000, -1202 # 10))%Q /\
  (forall l p, In l (lines sample_map) -> In p (locations l) ->
               in_box (385 # 10, -126453 # 1000)%Q (43252 # 1000, -1202 # 10)%Q p).
Proof.
  split; [exact sample_map_drawn|].
  assert (B : fit_bounds (all_points sample_services [sample_route sample_geometry 100; bare_route]) =
              Some ((385 # 10, -126453 # 1000), (43252 # 1000, -1202 # 10))%Q) by (vm_compute; reflexivity).
  split; [exact B|].
  destruct (map_view_contains_routes sample_services [sample_route sample_geometry 100; bare_route]
              [(139, 35); (140, 36)]%Q ["Start"; "End"] 0 [] tt sample_map
              sample_map_drawn) as (_ & _ & H).
  exact (proj1 (H _ _ B)).
Defined.
